(** * Billing core of the clinic-management backend: a shallow embedding

    The development follows the implementations found in the repository:

    - the Mongoose models [Invoice], [Payment] and [Appointment] (document
      methods, validators and [pre('save')] hooks), embedded in
      [InvoiceModel], [PaymentModel], [PaymentDocument] and
      [AppointmentModel];
    - the PostgreSQL-backed [SubscriptionService] and [SubscriptionController]
      (TypeScript), embedded in [Service] and [Controller] over an explicit
      [Store] holding the tables of the billing migration;
    - the per-tenant rate limiter of the tenant middleware, embedded in
      [RateLimit].

    Conventions.
    - JavaScript numbers holding money and rates, and SQL [DECIMAL(12,2)]
      columns, are exact rationals ([Q]); rounding of binary doubles and of
      stored decimals is outside the model, except in [PaymentDocument],
      where it decides whether a refund is accepted and is kept open.  Every
      concrete input used below is exactly representable both as a double
      and as a two-digit decimal.
    - Mongoose runs the validators of a schema on every [save()], before the
      [pre('save')] hooks.  [InvoiceModel] and [PaymentModel] give what the
      hooks store when a save goes through; [InvoiceQueries.call],
      [PaymentDocument] and [AppointmentModel] have the validators in front
      of it.
    - Instants ([Date]) are integers: milliseconds since the epoch.
    - UUIDs are opaque identifiers ([nat]); [uuid_generate_v4()] is a fresh-id
      counter kept in the store.
    - ObjectIds of the Mongoose models are opaque identifiers, written as
      strings; text handed to a string path is taken as the [trim] setter
      leaves it, without surrounding white space.
    - A rejected promise or a thrown exception is an [Err] result. *)

From Stdlib Require Import ZArith QArith Lqa Lia List String Bool.
From stdpp Require Import gmap strings pretty.
Import ListNotations.
Open Scope string_scope.

(** ** JavaScript comparisons on numbers *)

(** [a <= b] *)
Definition Qleb (a b : Q) : bool := Qle_bool a b.
(** [a < b] *)
Definition Qltb (a b : Q) : bool := negb (Qle_bool b a).
(** [a > b] *)
Definition Qgtb (a b : Q) : bool := Qltb b a.
(** [a >= b] *)
Definition Qgeb (a b : Q) : bool := Qleb b a.

(** [Math.ceil(a / b)] for integers [a] and a positive [b]. *)
Definition ceil_div (a b : Z) : Z := (- ((- a) / b))%Z.

Definition ms_per_day : Z := (1000 * 60 * 60 * 24)%Z.

(** * The Mongoose invoice model *)

Module InvoiceModel.

(** [status] enum of [invoiceSchema]. *)
Inductive invoice_status :=
  | draft | sent | overdue | paid | partially_paid | cancelled | written_off.

Definition status_eqb (a b : invoice_status) : bool :=
  match a, b with
  | draft, draft | sent, sent | overdue, overdue | paid, paid
  | partially_paid, partially_paid | cancelled, cancelled
  | written_off, written_off => true
  | _, _ => false
  end.

(** One element of [items].  The fields [type], [code], [service_date] and
    [provider] are carried by no computation and are left out. *)
Record item := mkItem {
  _id : string;
  description : string;
  quantity : Q;
  unit_price : Q;
  discount : Q;
  tax_rate : Q;
  total : Q
}.

Record totals_t := mkTotals {
  subtotal : Q;
  discount_amount : Q;
  tax_amount : Q;
  total_amount : Q;
  paid_amount : Q;
  balance_due : Q
}.

Record invoice := mkInvoice {
  tenant_id : string;
  invoice_number : string;
  issue_date : option Z;       (* invoice_info.issue_date *)
  due_date : option Z;         (* invoice_info.due_date *)
  due_days : Z;                (* payment_terms.due_days *)
  items : list item;
  totals : totals_t;
  status : invoice_status;
  insurance_status : string;   (* insurance.status *)
  insurance_submitted_at : option Z;
  sent_at : option Z;
  paid_at : option Z;
  deleted_at : option Z
}.

Definition set_item_total (it : item) (t : Q) : item :=
  mkItem (_id it) (description it) (quantity it) (unit_price it)
         (discount it) (tax_rate it) t.

Definition set_items (inv : invoice) (its : list item) : invoice :=
  mkInvoice (tenant_id inv) (invoice_number inv) (issue_date inv) (due_date inv)
            (due_days inv) its (totals inv) (status inv) (insurance_status inv)
            (insurance_submitted_at inv) (sent_at inv) (paid_at inv) (deleted_at inv).

Definition set_totals (inv : invoice) (t : totals_t) : invoice :=
  mkInvoice (tenant_id inv) (invoice_number inv) (issue_date inv) (due_date inv)
            (due_days inv) (items inv) t (status inv) (insurance_status inv)
            (insurance_submitted_at inv) (sent_at inv) (paid_at inv) (deleted_at inv).

Definition set_status (inv : invoice) (s : invoice_status) : invoice :=
  mkInvoice (tenant_id inv) (invoice_number inv) (issue_date inv) (due_date inv)
            (due_days inv) (items inv) (totals inv) s (insurance_status inv)
            (insurance_submitted_at inv) (sent_at inv) (paid_at inv) (deleted_at inv).

Definition set_due_date (inv : invoice) (d : option Z) : invoice :=
  mkInvoice (tenant_id inv) (invoice_number inv) (issue_date inv) d
            (due_days inv) (items inv) (totals inv) (status inv) (insurance_status inv)
            (insurance_submitted_at inv) (sent_at inv) (paid_at inv) (deleted_at inv).

Definition set_sent_at (inv : invoice) (d : option Z) : invoice :=
  mkInvoice (tenant_id inv) (invoice_number inv) (issue_date inv) (due_date inv)
            (due_days inv) (items inv) (totals inv) (status inv) (insurance_status inv)
            (insurance_submitted_at inv) d (paid_at inv) (deleted_at inv).

Definition set_paid_at (inv : invoice) (d : option Z) : invoice :=
  mkInvoice (tenant_id inv) (invoice_number inv) (issue_date inv) (due_date inv)
            (due_days inv) (items inv) (totals inv) (status inv) (insurance_status inv)
            (insurance_submitted_at inv) (sent_at inv) d (deleted_at inv).

Definition set_deleted_at (inv : invoice) (d : option Z) : invoice :=
  mkInvoice (tenant_id inv) (invoice_number inv) (issue_date inv) (due_date inv)
            (due_days inv) (items inv) (totals inv) (status inv) (insurance_status inv)
            (insurance_submitted_at inv) (sent_at inv) (paid_at inv) d.

Definition set_insurance (inv : invoice) (s : string) (d : option Z) : invoice :=
  mkInvoice (tenant_id inv) (invoice_number inv) (issue_date inv) (due_date inv)
            (due_days inv) (items inv) (totals inv) (status inv) s
            d (sent_at inv) (paid_at inv) (deleted_at inv).

Definition set_paid_amount (t : totals_t) (p : Q) : totals_t :=
  mkTotals (subtotal t) (discount_amount t) (tax_amount t) (total_amount t)
           p (balance_due t).

Definition set_balance_due (t : totals_t) (b : Q) : totals_t :=
  mkTotals (subtotal t) (discount_amount t) (tax_amount t) (total_amount t)
           (paid_amount t) b.

(** *** Virtuals *)

(** [invoiceSchema.virtual('days_overdue')], read at instant [today]. *)
Definition days_overdue (today : Z) (inv : invoice) : Z :=
  if status_eqb (status inv) paid || status_eqb (status inv) cancelled then 0%Z
  else match due_date inv with
       | None => 0%Z
       | Some dueDate => ceil_div (today - dueDate) ms_per_day
       end.

(** [invoiceSchema.virtual('is_overdue')]. *)
Definition is_overdue (today : Z) (inv : invoice) : bool :=
  (0 <? days_overdue today inv)%Z && negb (status_eqb (status inv) paid).

(** *** The [pre('save')] hook *)

(** [(item.unit_price * item.quantity) - item.discount] *)
Definition itemTotal (it : item) : Q :=
  (unit_price it * quantity it - discount it)%Q.

(** The [this.items.forEach] loop: it rewrites every [item.total] and
    accumulates [subtotal] and [taxAmount]. *)
Fixpoint forEach_items (its : list item) (subtotal taxAmount : Q)
  : list item * Q * Q :=
  match its with
  | [] => ([], subtotal, taxAmount)
  | it :: rest =>
      let t := itemTotal it in
      let '(rest', s, x) :=
        forEach_items rest (subtotal + t)%Q (taxAmount + t * tax_rate it)%Q in
      (set_item_total it t :: rest', s, x)
  end.

(** [this.items.reduce((sum, item) => sum + item.discount, 0)] *)
Definition sum_discounts (its : list item) : Q :=
  fold_left (fun sum it => (sum + discount it)%Q) its 0%Q.

(** The status update that closes the hook. *)
Definition derive_status (now : Z) (inv : invoice) : invoice :=
  let t := totals inv in
  if Qleb (balance_due t) 0 && Qgtb (paid_amount t) 0 then
    let inv1 := set_status inv paid in
    match paid_at inv1 with
    | None => set_paid_at inv1 (Some now)
    | Some _ => inv1
    end
  else if Qgtb (paid_amount t) 0 && Qgtb (balance_due t) 0 then
    set_status inv partially_paid
  else if is_overdue now inv && negb (status_eqb (status inv) cancelled) then
    set_status inv overdue
  else inv.

(** [this.invoice_info.due_date] defaulting to issue date plus
    [payment_terms.due_days] days. *)
Definition default_due_date (inv : invoice) : invoice :=
  match due_date inv, issue_date inv with
  | None, Some issued => set_due_date inv (Some (issued + due_days inv * ms_per_day)%Z)
  | _, _ => inv
  end.

Definition pre_save (now : Z) (inv : invoice) : invoice :=
  let '(items', subtotal, taxAmount) := forEach_items (items inv) 0%Q 0%Q in
  let total := (subtotal + taxAmount)%Q in
  let t := mkTotals subtotal (sum_discounts items') taxAmount total
                    (paid_amount (totals inv))
                    (total - paid_amount (totals inv))%Q in
  derive_status now (default_due_date (set_totals (set_items inv items') t)).

(** [this.save()] when the save goes through: what the hook stores.  The
    validators of the schema, which Mongoose runs before the hook and which
    can refuse the save, are [InvoiceQueries.validate]; a method call under
    them is [InvoiceQueries.call]. *)
Definition save (now : Z) (inv : invoice) : invoice := pre_save now inv.

(** *** Instance methods *)

Definition addItem (now : Z) (it : item) (inv : invoice) : invoice :=
  save now (set_items inv (items inv ++ [it])).

Definition removeItem (now : Z) (itemId : string) (inv : invoice) : invoice :=
  save now (set_items inv
    (List.filter (fun it => negb (String.eqb (_id it) itemId)) (items inv))).

(** The [updates] object handed to [Object.assign]: a present key overwrites
    the field. *)
Record item_updates := mkUpdates {
  u_description : option string;
  u_quantity : option Q;
  u_unit_price : option Q;
  u_discount : option Q;
  u_tax_rate : option Q;
  u_total : option Q
}.

Definition assign_item (it : item) (u : item_updates) : item :=
  mkItem (_id it)
         (default (description it) (u_description u))
         (default (quantity it) (u_quantity u))
         (default (unit_price it) (u_unit_price u))
         (default (discount it) (u_discount u))
         (default (tax_rate it) (u_tax_rate u))
         (default (total it) (u_total u)).

(** [this.items.id(itemId)] followed by [Object.assign]: the first item with
    that [_id] is updated in place. *)
Fixpoint assign_by_id (its : list item) (itemId : string) (u : item_updates)
  : list item :=
  match its with
  | [] => []
  | it :: rest =>
      if String.eqb (_id it) itemId then assign_item it u :: rest
      else it :: assign_by_id rest itemId u
  end.

Definition updateItem (now : Z) (itemId : string) (u : item_updates)
  (inv : invoice) : invoice :=
  save now (set_items inv (assign_by_id (items inv) itemId u)).

Definition send (now : Z) (inv : invoice) : invoice :=
  save now (set_sent_at (set_status inv sent) (Some now)).

Definition addPayment (now : Z) (amount : Q) (inv : invoice) : invoice :=
  save now (set_totals inv
    (set_paid_amount (totals inv) (paid_amount (totals inv) + amount)%Q)).

Definition cancel (now : Z) (inv : invoice) : invoice :=
  save now (set_status inv cancelled).

Definition writeOff (now : Z) (inv : invoice) : invoice :=
  let inv1 := set_status inv written_off in
  save now (set_totals inv1 (set_balance_due (totals inv1) 0%Q)).

Definition submitInsurance (now : Z) (inv : invoice) : invoice :=
  save now (set_insurance inv "submitted" (Some now)).

Definition softDelete (now : Z) (inv : invoice) : invoice :=
  save now (set_deleted_at inv (Some now)).

Definition restore (now : Z) (inv : invoice) : invoice :=
  save now (set_deleted_at inv None).

(** Every way the model mutates an invoice document. *)
Inductive mutation :=
  | MSave                         (* creation, or a plain [save()] *)
  | MAddItem (it : item)
  | MRemoveItem (itemId : string)
  | MUpdateItem (itemId : string) (u : item_updates)
  | MSend
  | MAddPayment (amount : Q)
  | MCancel
  | MWriteOff
  | MSubmitInsurance
  | MSoftDelete
  | MRestore.

Definition apply_mutation (now : Z) (m : mutation) (inv : invoice) : invoice :=
  match m with
  | MSave => save now inv
  | MAddItem it => addItem now it inv
  | MRemoveItem i => removeItem now i inv
  | MUpdateItem i u => updateItem now i u inv
  | MSend => send now inv
  | MAddPayment a => addPayment now a inv
  | MCancel => cancel now inv
  | MWriteOff => writeOff now inv
  | MSubmitInsurance => submitInsurance now inv
  | MSoftDelete => softDelete now inv
  | MRestore => restore now inv
  end.

(** The sum of the line totals, as the data model states it. *)
Definition sum_line_totals (its : list item) : Q :=
  fold_left (fun sum it => (sum + total it)%Q) its 0%Q.

(** A new document as [new Invoice({...})] builds it before the first save:
    status [draft], nothing paid. *)
Definition new_invoice (tenant number : string) (issued due : Z)
  (its : list item) : invoice :=
  mkInvoice tenant number (Some issued) (Some due) 30 its
            (mkTotals 0 0 0 0 0 0) draft "not_submitted" None None None None.

End InvoiceModel.

(** * The Mongoose payment model

    The methods as functions of the document: what the method body and the
    [pre('save')] hook compute, with sums and differences taken exactly.
    [PaymentDocument] below runs them on a document of a collection, under
    the validators and with the arithmetic of Numbers. *)

Module PaymentModel.

(** [status] enum of [paymentSchema]. *)
Inductive payment_status :=
  | pending | processing | completed | failed | cancelled
  | refunded | partially_refunded.

Definition status_eqb (a b : payment_status) : bool :=
  match a, b with
  | pending, pending | processing, processing | completed, completed
  | failed, failed | cancelled, cancelled | refunded, refunded
  | partially_refunded, partially_refunded => true
  | _, _ => false
  end.

(** One element of [allocation]. *)
Record allocation_t := mkAllocation {
  alloc_invoice_id : string;
  alloc_amount : Q;
  allocated_at : Z
}.

(** A payment document; [amount] is [payment_info.amount] and the refund
    fields are those of [refund_info]. *)
Record payment := mkPayment {
  tenant_id : string;
  invoice_id : option string;
  payment_number : string;
  amount : Q;
  status : payment_status;
  processed_at : option Z;
  processed_by : option string;
  refund_amount : Q;
  refund_reason : option string;
  refunded_at : option Z;
  refunded_by : option string;
  allocation : list allocation_t;
  notes_internal : option string;
  deleted_at : option Z
}.

(** What a method call ends in: the saved document, an exception thrown by
    the method body, or the error [save()] is rejected with (the one the
    save hook hands to [next], or a validation error).  Messages are kept up
    to the amount interpolated at their end. *)
Inductive outcome :=
  | Saved (p : payment)
  | Thrown (message : string)
  | Rejected (message : string).

(** [paymentSchema.virtual('refundable_amount')] *)
Definition refundable_amount (p : payment) : Q :=
  if negb (status_eqb (status p) completed) then 0%Q
  else (amount p - refund_amount p)%Q.

(** [paymentSchema.pre('save')] followed by the write. *)
Definition save (p : payment) : outcome :=
  if Qgtb (refund_amount p) (amount p)
  then Rejected "Refund amount cannot exceed payment amount"
  else Saved p.

Definition process (now : Z) (processedBy : string) (p : payment) : outcome :=
  save (mkPayment (tenant_id p) (invoice_id p) (payment_number p) (amount p)
          completed (Some now) (Some processedBy)
          (refund_amount p) (refund_reason p) (refunded_at p) (refunded_by p)
          (allocation p) (notes_internal p) (deleted_at p)).

Definition fail (reason : string) (p : payment) : outcome :=
  save (mkPayment (tenant_id p) (invoice_id p) (payment_number p) (amount p)
          failed (processed_at p) (processed_by p)
          (refund_amount p) (refund_reason p) (refunded_at p) (refunded_by p)
          (allocation p) (Some reason) (deleted_at p)).

Definition cancel (p : payment) : outcome :=
  save (mkPayment (tenant_id p) (invoice_id p) (payment_number p) (amount p)
          cancelled (processed_at p) (processed_by p)
          (refund_amount p) (refund_reason p) (refunded_at p) (refunded_by p)
          (allocation p) (notes_internal p) (deleted_at p)).

Definition refund (now : Z) (refundAmount : Q) (reason refundedBy : string)
  (p : payment) : outcome :=
  let refundableAmount := refundable_amount p in
  if Qgtb refundAmount refundableAmount then
    Thrown "Refund amount cannot exceed refundable amount"
  else
    let refund_amount' := (refund_amount p + refundAmount)%Q in
    save (mkPayment (tenant_id p) (invoice_id p) (payment_number p) (amount p)
            (if Qgeb refund_amount' (amount p) then refunded
             else partially_refunded)
            (processed_at p) (processed_by p)
            refund_amount' (Some reason) (Some now) (Some refundedBy)
            (allocation p) (notes_internal p) (deleted_at p)).

Definition allocateToInvoice (now : Z) (invoiceId : string) (a : Q)
  (p : payment) : outcome :=
  save (mkPayment (tenant_id p) (invoice_id p) (payment_number p) (amount p)
          (status p) (processed_at p) (processed_by p)
          (refund_amount p) (refund_reason p) (refunded_at p) (refunded_by p)
          (allocation p ++ [mkAllocation invoiceId a now])
          (notes_internal p) (deleted_at p)).

(** The collections of the two models: documents are keyed by their
    [_id]. *)
Record collections := mkCollections {
  invoices : gmap string InvoiceModel.invoice;
  payments : gmap string payment
}.

End PaymentModel.

(** * Payment documents in their collection

    The methods of the payment model as Mongoose runs them on a document:
    JavaScript's arithmetic on Numbers, the validators of the schema, which
    Mongoose runs on every [save()] before the [pre('save')] hook, and the
    write of [this.save()], which goes to the collection of the model and
    to no other. *)

Module PaymentDocument.
Import PaymentModel.

Section Numbers.

(** [x + y] and [x - y] on Numbers: the exact result rounded to a double.  A
    Number is the rational it denotes, and comparisons are exact; how sums
    and differences round is left open. *)
Variable add sub : Q -> Q -> Q.

(** What the checks outside the paths of [payment] decide for the document
    at hand: the validators of the other paths (the ids,
    [payment_info.method], [created_by], ...) and the unique index on
    [(tenant_id, payment_number)].  No method below touches these paths. *)
Variable other_checks_pass : bool.

(** The validators of the paths of [payment]: [payment_number] is required
    and at most 50 characters long, [payment_info.amount],
    [refund_info.refund_amount] and every [allocation.amount] have
    [min: 0]. *)
Definition validate (p : payment) : bool :=
  other_checks_pass
  && negb (String.eqb (payment_number p) "")
  && Nat.leb (String.length (payment_number p)) 50
  && Qgeb (amount p) 0
  && Qgeb (refund_amount p) 0
  && forallb (fun al => Qgeb (alloc_amount al) 0) (allocation p).

(** [new Payment({...})] for a caller that gives the paths below: [status]
    is ['pending'] unless given, [refund_amount] is 0. *)
Definition new_payment (tenantId : string) (invoiceId : option string)
  (paymentNumber : string) (amount_ : Q) (status_ : option payment_status)
  : payment :=
  mkPayment tenantId invoiceId paymentNumber amount_ (default pending status_)
    None None 0 None None None [] None None.

(** [paymentSchema.virtual('refundable_amount')] *)
Definition refundable_amount (p : payment) : Q :=
  if negb (status_eqb (status p) completed) then 0%Q
  else sub (amount p) (refund_amount p).

(** [this.save()] on the document with the given [_id]: the validators, the
    [pre('save')] hook, and the write into [payments]. *)
Definition save (_id : string) (p : payment) (db : collections)
  : collections * outcome :=
  if negb (validate p) then (db, Rejected "Payment validation failed")
  else if Qgtb (refund_amount p) (amount p)
  then (db, Rejected "Refund amount cannot exceed payment amount")
  else (mkCollections (invoices db) (<[_id := p]> (payments db)), Saved p).

Definition process (now : Z) (processedBy : string) (_id : string) (p : payment)
  : collections -> collections * outcome :=
  save _id (mkPayment (tenant_id p) (invoice_id p) (payment_number p) (amount p)
              completed (Some now) (Some processedBy)
              (refund_amount p) (refund_reason p) (refunded_at p) (refunded_by p)
              (allocation p) (notes_internal p) (deleted_at p)).

Definition fail (reason : string) (_id : string) (p : payment)
  : collections -> collections * outcome :=
  save _id (mkPayment (tenant_id p) (invoice_id p) (payment_number p) (amount p)
              failed (processed_at p) (processed_by p)
              (refund_amount p) (refund_reason p) (refunded_at p) (refunded_by p)
              (allocation p) (Some reason) (deleted_at p)).

Definition cancel (_id : string) (p : payment)
  : collections -> collections * outcome :=
  save _id (mkPayment (tenant_id p) (invoice_id p) (payment_number p) (amount p)
              cancelled (processed_at p) (processed_by p)
              (refund_amount p) (refund_reason p) (refunded_at p) (refunded_by p)
              (allocation p) (notes_internal p) (deleted_at p)).

Definition refund (now : Z) (refundAmount : Q) (reason refundedBy : string)
  (_id : string) (p : payment) (db : collections) : collections * outcome :=
  let refundableAmount := refundable_amount p in
  if Qgtb refundAmount refundableAmount then
    (db, Thrown "Refund amount cannot exceed refundable amount")
  else
    let refund_amount' := add (refund_amount p) refundAmount in
    save _id (mkPayment (tenant_id p) (invoice_id p) (payment_number p) (amount p)
                (if Qgeb refund_amount' (amount p) then refunded
                 else partially_refunded)
                (processed_at p) (processed_by p)
                refund_amount' (Some reason) (Some now) (Some refundedBy)
                (allocation p) (notes_internal p) (deleted_at p)) db.

Definition allocateToInvoice (now : Z) (invoiceId : string) (a : Q)
  (_id : string) (p : payment) : collections -> collections * outcome :=
  save _id (mkPayment (tenant_id p) (invoice_id p) (payment_number p) (amount p)
              (status p) (processed_at p) (processed_by p)
              (refund_amount p) (refund_reason p) (refunded_at p) (refunded_by p)
              (allocation p ++ [mkAllocation invoiceId a now])
              (notes_internal p) (deleted_at p)).

Definition set_deleted_at (p : payment) (d : option Z) : payment :=
  mkPayment (tenant_id p) (invoice_id p) (payment_number p) (amount p)
    (status p) (processed_at p) (processed_by p)
    (refund_amount p) (refund_reason p) (refunded_at p) (refunded_by p)
    (allocation p) (notes_internal p) d.

Definition softDelete (now : Z) (_id : string) (p : payment)
  : collections -> collections * outcome :=
  save _id (set_deleted_at p (Some now)).

Definition restore (_id : string) (p : payment)
  : collections -> collections * outcome :=
  save _id (set_deleted_at p None).

(** Every instance method of the model. *)
Inductive method :=
  | Process (processedBy : string)
  | Fail (reason : string)
  | Cancel
  | Refund (refundAmount : Q) (reason refundedBy : string)
  | AllocateToInvoice (invoiceId : string) (a : Q)
  | SoftDelete
  | Restore.

Definition call (now : Z) (m : method) (_id : string) (p : payment)
  : collections -> collections * outcome :=
  match m with
  | Process processedBy => process now processedBy _id p
  | Fail reason => fail reason _id p
  | Cancel => cancel _id p
  | Refund a reason refundedBy => refund now a reason refundedBy _id p
  | AllocateToInvoice invoiceId a => allocateToInvoice now invoiceId a _id p
  | SoftDelete => softDelete now _id p
  | Restore => restore _id p
  end.

End Numbers.

End PaymentDocument.

(** * SubscriptionService over the billing tables *)

Module Service.

Definition uuid := nat.

(** What a rejected promise carries: an [ApiError] of the service, the
    error of a statement the database refused (named by the constraint or
    the message), the error [pool.query] rejects with when the store cannot
    run the statement at all, or a [ReferenceError] of the JavaScript
    runtime (named by the identifier that is not defined). *)
Inductive error :=
  | ApiError (message : string) (statusCode : Z)
  | DatabaseError (constraint : string)
  | ConnectionError
  | ReferenceError (identifier : string).

Inductive result (A : Type) :=
  | Ok (a : A)
  | Err (e : error).
Arguments Ok {A} a.
Arguments Err {A} e.

(** Columns of type [VARCHAR] hold strings: statuses (['trial'], ['draft'],
    ['pending'], ...), billing cycles and event types are kept as the text
    the service writes. *)

(** *** Rows *)

Record SubscriptionPlan := mkPlan {
  plan_id_of : uuid;
  plan_name : string;
  plan_slug : string;
  plan_price : Q;
  plan_billingCycle : string;
  plan_currency : string;
  features : list string;
  limits : gmap string Z;
  isActive : bool;
  isPublic : bool;
  plan_trialDays : Z
}.

Record TenantSubscription := mkSubscription {
  sub_id : uuid;
  sub_tenantId : uuid;
  sub_planId : uuid;
  sub_status : string;
  currentPeriodStart : Z;
  currentPeriodEnd : Z;
  trialEnd : option Z;
  cancelledAt : option Z;
  sub_billingCycle : string;
  sub_price : Q;
  sub_currency : string;
  autoRenew : bool;
  nextBillingAt : option Z
}.

Record InvoiceLineItem := mkLineItem {
  li_id : string;
  li_description : string;
  li_quantity : Q;
  li_unitPrice : Q;
  li_amount : Q
}.

Record Invoice := mkInvoice {
  inv_id : uuid;
  inv_tenantId : uuid;
  inv_subscriptionId : option uuid;
  invoiceNumber : nat;               (* the digits after 'INV' *)
  inv_status : string;
  inv_currency : string;
  subtotal : Q;
  taxAmount : Q;
  discountAmount : Q;
  totalAmount : Q;
  paidAmount : Q;
  dueDate : Z;
  lineItems : list InvoiceLineItem;
  inv_deletedAt : option Z
}.

(** [balance_amount ... GENERATED ALWAYS AS (total_amount - paid_amount)] *)
Definition balanceAmount (i : Invoice) : Q := (totalAmount i - paidAmount i)%Q.

Record Payment := mkPayment {
  pay_id : uuid;
  pay_tenantId : uuid;
  pay_invoiceId : option uuid;
  pay_subscriptionId : option uuid;
  paymentNumber : string;
  paymentStatus : string;
  amount : Q;
  pay_currency : string;
  fee : Q;
  refundAmount : Q;
  pay_description : option string;
  processedBy : uuid;
  pay_deletedAt : option Z
}.

(** [net_amount ... GENERATED ALWAYS AS (amount - fee)] *)
Definition netAmount (p : Payment) : Q := (amount p - fee p)%Q.

Record UsageMetrics := mkUsage {
  um_id : uuid;
  um_tenantId : uuid;
  um_subscriptionId : option uuid;
  metricType : string;
  metricValue : Z;
  metricUnit : string;
  periodStart : Z;
  periodEnd : Z
}.

(** The JSON payloads the service writes into [event_data]. *)
Inductive event_data :=
  | SubscriptionCreatedData (subscriptionId planId : uuid)
      (billingCycle : string) (trialDays : option Z)
  | InvoiceCreatedData (invoiceId : uuid) (amount : Q)
  | PaymentCreatedData (paymentId : uuid) (amount : Q) (invoiceId : option uuid)
  | UsageLimitExceededData (metricType : string) (currentValue limit : Z)
      (plan : string).

Record BillingEvent := mkEvent {
  ev_id : uuid;
  ev_tenantId : uuid;
  eventType : string;
  eventData : event_data;
  processed : bool
}.

(** *** The store *)

(** The billing tables, the ids of the rows of [tenants] and [users] that
    the billing tables refer to, and the value of the setting
    [app.current_tenant_id] on the connection that runs a statement ([None]
    when it is not set; the service never sets it). *)
Record Store := mkStore {
  subscription_plans : list SubscriptionPlan;
  tenant_subscriptions : list TenantSubscription;
  invoices : list Invoice;
  payments : list Payment;
  usage_metrics : list UsageMetrics;
  billing_events : list BillingEvent;
  next_uuid : uuid;
  tenants : list uuid;
  users : list uuid;
  app_current_tenant_id : option uuid
}.

Definition with_subscriptions (st : Store) (l : list TenantSubscription) :=
  mkStore (subscription_plans st) l (invoices st) (payments st)
          (usage_metrics st) (billing_events st) (next_uuid st)
          (tenants st) (users st) (app_current_tenant_id st).

Definition with_invoices (st : Store) (l : list Invoice) :=
  mkStore (subscription_plans st) (tenant_subscriptions st) l (payments st)
          (usage_metrics st) (billing_events st) (next_uuid st)
          (tenants st) (users st) (app_current_tenant_id st).

Definition with_payments (st : Store) (l : list Payment) :=
  mkStore (subscription_plans st) (tenant_subscriptions st) (invoices st) l
          (usage_metrics st) (billing_events st) (next_uuid st)
          (tenants st) (users st) (app_current_tenant_id st).

Definition with_usage (st : Store) (l : list UsageMetrics) :=
  mkStore (subscription_plans st) (tenant_subscriptions st) (invoices st)
          (payments st) l (billing_events st) (next_uuid st)
          (tenants st) (users st) (app_current_tenant_id st).

Definition with_events (st : Store) (l : list BillingEvent) :=
  mkStore (subscription_plans st) (tenant_subscriptions st) (invoices st)
          (payments st) (usage_metrics st) l (next_uuid st)
          (tenants st) (users st) (app_current_tenant_id st).

Definition with_next_uuid (st : Store) (n : uuid) :=
  mkStore (subscription_plans st) (tenant_subscriptions st) (invoices st)
          (payments st) (usage_metrics st) (billing_events st) n
          (tenants st) (users st) (app_current_tenant_id st).

(** *** Asynchronous code over the store

    Every [await pool.query(...)] is one auto-committed statement: it either
    changes the store and yields rows, or is refused and leaves the store as
    it found it.  An error ends the enclosing [async] function; what earlier
    statements wrote stays written. *)

Definition Exec (A : Type) : Type := Store -> Store * result A.

Definition ret {A} (a : A) : Exec A := fun st => (st, Ok a).

Definition throw {A} (e : error) : Exec A := fun st => (st, Err e).

Definition bind {A B} (c : Exec A) (k : A -> Exec B) : Exec B :=
  fun st =>
    match c st with
    | (st', Ok a) => k a st'
    | (st', Err e) => (st', Err e)
    end.

Notation "'await' x <- c ; k" := (bind c (fun x => k))
  (at level 10, x name, c at level 100, k at level 200).
Notation "'await_' c ; k" := (bind c (fun _ => k))
  (at level 10, c at level 100, k at level 200).

(** [uuid_generate_v4()] *)
Definition gen_uuid : Store -> uuid * Store :=
  fun st => (next_uuid st, with_next_uuid st (S (next_uuid st))).

(** *** Values bound to the placeholders of a statement *)

Inductive sqlval :=
  | VNull
  | VId (u : uuid)
  | VText (s : string)
  | VNumber (q : Q)
  | VDate (d : Z)
  | VItems (l : list InvoiceLineItem)   (* JSON.stringify(lineItems) *)
  | VJson.                              (* any other JSON document *)

Definition opt_id (o : option uuid) : sqlval :=
  match o with Some u => VId u | None => VNull end.

Definition opt_text (o : option string) : sqlval :=
  match o with Some s => VText s | None => VNull end.

(** Input conversion of a bound value for a column type.  A [Date] is sent
    as a 29-character timestamp text. *)
Definition as_uuid (v : sqlval) : option uuid :=
  match v with VId u => Some u | _ => None end.

Definition as_opt_uuid (v : sqlval) : option (option uuid) :=
  match v with VId u => Some (Some u) | VNull => Some None | _ => None end.

Definition as_varchar (n : nat) (v : sqlval) : option string :=
  match v with
  | VText s => if (String.length s <=? n)%nat then Some s else None
  | _ => None
  end.

Definition as_decimal (v : sqlval) : option Q :=
  match v with VNumber q => Some q | _ => None end.

Definition as_date (v : sqlval) : option Z :=
  match v with VDate d => Some d | _ => None end.

Definition as_items (v : sqlval) : option (list InvoiceLineItem) :=
  match v with VItems l => Some l | _ => None end.

(** *** Types, operators and constraints of the database *)

(** [VARCHAR(n)]: a longer value is refused.  Strings are sequences of
    one-byte characters. *)
Definition fits_varchar (n : nat) (s : string) : bool :=
  Nat.leb (String.length s) n.

(** [INTEGER]: four bytes. *)
Definition fits_integer (n : Z) : bool :=
  (-2147483648 <=? n)%Z && (n <=? 2147483647)%Z.

(** [current_tenant_id()]: the setting cast to [uuid], [NULL] when it is not
    set. *)
Definition current_tenant_id (st : Store) : option uuid :=
  app_current_tenant_id st.

(** [CHECK (tenant_id = current_tenant_id())]: a check passes when its
    expression is true or null. *)
Definition tenant_check (tenant_id : uuid) (st : Store) : bool :=
  match current_tenant_id st with
  | None => true
  | Some t => Nat.eqb tenant_id t
  end.

(** [l + r]: the operator is chosen by the types of the operands.  Numbers
    add; no implicit cast takes [text] to a number, so for [text + integer]
    there is no operator and the expression raises. *)
Definition sql_plus (l r : sqlval) : result sqlval :=
  match l, r with
  | VNumber x, VNumber y => Ok (VNumber (x + y))
  | _, _ => Err (DatabaseError "operator does not exist")
  end.

(** [v::TEXT] *)
Definition sql_text (v : sqlval) : string :=
  match v with
  | VText s => s
  | VNumber q => pretty (Qnum q / Zpos (Qden q))%Z
  | _ => ""
  end.

(** [LPAD(s, n, '0')]: filled on the left up to [n] characters, cut on the
    right beyond them. *)
Definition lpad_zero (n : nat) (s : string) : string :=
  if Nat.ltb (String.length s) n
  then String.concat "" (repeat "0" (n - String.length s)) ++ s
  else String.substring 0 n s.

(** [MAX] over text. *)
Definition max_text (l : list string) : option string :=
  fold_right (fun s m =>
                match m with
                | None => Some s
                | Some t => if String.leb s t then Some t else Some s
                end) None l.

(** *** Statements *)

(** [createBillingEvent]: [INSERT INTO billing_events (tenant_id, event_type,
    event_data) VALUES ($1, $2, $3)]; [event_type] is a [VARCHAR(50)], and the
    row is held against [billing_events_tenant_check] and the foreign key to
    [tenants]. *)
Definition createBillingEvent (tenantId : uuid) (eventType : string)
  (eventData : event_data) : Exec unit :=
  fun st =>
    if negb (fits_varchar 50 eventType) then
      (st, Err (DatabaseError "value too long for type character varying"))
    else if negb (tenant_check tenantId st) then
      (st, Err (DatabaseError "billing_events_tenant_check"))
    else if negb (existsb (Nat.eqb tenantId) (tenants st)) then
      (st, Err (DatabaseError "billing_events_tenant_id_fkey"))
    else
      let '(id, st1) := gen_uuid st in
      (with_events st1
         (billing_events st1 ++ [mkEvent id tenantId eventType eventData false]),
       Ok tt).

(** [getPlanById]: [SELECT * FROM subscription_plans WHERE id = $1],
    [rows[0] || null]. *)
Definition getPlanById (id : uuid) : Exec (option SubscriptionPlan) :=
  fun st =>
    (st, Ok (List.find (fun sp => Nat.eqb (plan_id_of sp) id)
                       (subscription_plans st))).

(** The rows of [tenant_subscriptions ts JOIN subscription_plans sp ON
    ts.plan_id = sp.id]. *)
Definition subscriptions_with_plan (st : Store)
  : list (TenantSubscription * SubscriptionPlan) :=
  flat_map (fun ts =>
    List.map (fun sp => (ts, sp))
      (List.filter (fun sp => Nat.eqb (sub_planId ts) (plan_id_of sp))
                   (subscription_plans st)))
    (tenant_subscriptions st).

(** [getTenantSubscription]: the subscription of the tenant with the
    [plan] object built from the joined columns. *)
Definition getTenantSubscription (tenantId : uuid)
  : Exec (option (TenantSubscription * SubscriptionPlan)) :=
  fun st =>
    (st, Ok (List.head
       (List.filter (fun r => Nat.eqb (sub_tenantId (fst r)) tenantId)
                    (subscriptions_with_plan st)))).

(** [INSERT INTO tenant_subscriptions (...) VALUES ($1, ..., $11) RETURNING *]:
    the arguments are in column order.  [status] and [billing_cycle] are
    [VARCHAR(20)], [currency] is a [VARCHAR(3)]; the row is held against
    [tenant_subscriptions_tenant_check], against [UNIQUE(tenant_id)], which
    refuses a second subscription of a tenant, and against the foreign keys
    to [tenants] and [subscription_plans]. *)
Definition insert_tenant_subscription
  (tenant_id plan_id : uuid) (status : string)
  (current_period_start current_period_end : Z) (trial_end : option Z)
  (billing_cycle : string) (price : Q) (currency : string)
  (auto_renew : bool) (next_billing_at : Z) : Exec TenantSubscription :=
  fun st =>
    if negb (fits_varchar 20 status && fits_varchar 20 billing_cycle
             && fits_varchar 3 currency) then
      (st, Err (DatabaseError "value too long for type character varying"))
    else if negb (tenant_check tenant_id st) then
      (st, Err (DatabaseError "tenant_subscriptions_tenant_check"))
    else if existsb (fun ts => Nat.eqb (sub_tenantId ts) tenant_id)
                    (tenant_subscriptions st) then
      (st, Err (DatabaseError "tenant_subscriptions_tenant_id_key"))
    else if negb (existsb (Nat.eqb tenant_id) (tenants st)) then
      (st, Err (DatabaseError "tenant_subscriptions_tenant_id_fkey"))
    else if negb (existsb (fun sp => Nat.eqb (plan_id_of sp) plan_id)
                          (subscription_plans st)) then
      (st, Err (DatabaseError "tenant_subscriptions_plan_id_fkey"))
    else
      let '(id, st1) := gen_uuid st in
      let row := mkSubscription id tenant_id plan_id status
                   current_period_start current_period_end trial_end None
                   billing_cycle price currency auto_renew
                   (Some next_billing_at) in
      (with_subscriptions st1 (tenant_subscriptions st1 ++ [row]), Ok row).

(** The calendar functions of [Date] that [createSubscription] calls, in the
    local time zone of the process. *)
Record DateLib := mkDateLib {
  getFullYear : Z -> Z;
  getMonth : Z -> Z;
  getDate : Z -> Z;
  newDate : Z -> Z -> Z -> Z     (* new Date(year, monthIndex, day) *)
}.

Record SubscriptionData := mkSubscriptionData {
  sd_tenantId : uuid;
  sd_planId : uuid;
  sd_billingCycle : string;
  sd_trialDays : option Z
}.

(** A number is truthy unless it is [0]. *)
Definition truthy (n : option Z) : bool :=
  match n with Some v => negb (v =? 0)%Z | None => false end.

Definition createSubscription (D : DateLib) (now : Z)
  (subscriptionData : SubscriptionData) : Exec TenantSubscription :=
  await plan <- getPlanById (sd_planId subscriptionData) ;
  match plan with
  | None => throw (ApiError "Plan not found" 404)
  | Some plan =>
      let trialEnd :=
        if truthy (sd_trialDays subscriptionData)
        then Some (now + default 0%Z (sd_trialDays subscriptionData)
                         * 24 * 60 * 60 * 1000)%Z
        else None in
      let currentPeriodEnd :=
        if String.eqb (sd_billingCycle subscriptionData) "yearly"
        then newDate D (getFullYear D now + 1)%Z (getMonth D now) (getDate D now)
        else newDate D (getFullYear D now) (getMonth D now + 1)%Z (getDate D now) in
      await row <- insert_tenant_subscription
                     (sd_tenantId subscriptionData)
                     (sd_planId subscriptionData)
                     (match trialEnd with Some _ => "trial" | None => "active" end)
                     now
                     (default now trialEnd)
                     trialEnd
                     (sd_billingCycle subscriptionData)
                     (plan_price plan)
                     (plan_currency plan)
                     true
                     currentPeriodEnd ;
      await_ createBillingEvent (sd_tenantId subscriptionData)
               "subscription.created"
               (SubscriptionCreatedData (sub_id row) (sd_planId subscriptionData)
                  (sd_billingCycle subscriptionData)
                  (sd_trialDays subscriptionData)) ;
      ret row
  end.

(** *** Invoices *)

(** [generate_invoice_number($1)]: one more than the highest number the
    tenant has. *)
Definition generate_invoice_number (tenant : uuid) (st : Store) : nat :=
  S (fold_right Nat.max 0%nat
       (List.map invoiceNumber
          (List.filter (fun i => Nat.eqb (inv_tenantId i) tenant) (invoices st)))).

(** [invoices_amount_check]:
    [total_amount >= 0 AND paid_amount >= 0 AND paid_amount <= total_amount] *)
Definition invoices_amount_check (total_amount paid_amount : Q) : bool :=
  Qgeb total_amount 0 && Qgeb paid_amount 0 && Qleb paid_amount total_amount.

(** The [INSERT INTO invoices] of [createInvoice]: placeholders [$1] to [$15]
    feed, in this order, the columns [tenant_id], [customer_id],
    [subscription_id], [status], [currency], [subtotal], [tax_amount],
    [discount_amount], [total_amount], [due_date], [description],
    [line_items], [billing_address], [shipping_address], [created_by]. *)
Definition insert_invoice (values : list sqlval) : Exec Invoice :=
  fun st =>
    match values with
    | [v1; v2; v3; v4; v5; v6; v7; v8; v9; v10; v11; v12; v13; v14; v15] =>
        match as_uuid v1, as_opt_uuid v3, as_varchar 20 v4, as_varchar 3 v5,
              as_decimal v6, as_decimal v7, as_decimal v8, as_decimal v9,
              as_date v10, as_items v12, as_uuid v15 with
        | Some tenant_id, Some subscription_id, Some status, Some currency,
          Some subtotal, Some tax_amount, Some discount_amount,
          Some total_amount, Some due_date, Some line_items, Some created_by =>
            if invoices_amount_check total_amount 0 then
              let '(id, st1) := gen_uuid st in
              let row := mkInvoice id tenant_id subscription_id
                           (generate_invoice_number tenant_id st1)
                           status currency subtotal tax_amount discount_amount
                           total_amount 0 due_date line_items None in
              (with_invoices st1 (invoices st1 ++ [row]), Ok row)
            else (st, Err (DatabaseError "invoices_amount_check"))
        | _, _, _, _, _, _, _, _, _, _, _ =>
            (st, Err (DatabaseError "invalid input value"))
        end
    | _ => (st, Err (DatabaseError "bind message supplies wrong number of parameters"))
    end.

Record InvoiceData := mkInvoiceData {
  id_tenantId : uuid;
  id_customerId : option string;
  id_subscriptionId : option uuid;
  id_dueDate : Z;
  id_description : option string;
  id_lineItems : list InvoiceLineItem;
  id_createdBy : uuid
}.

(** The three amounts [createInvoice] computes: [subtotal], [taxAmount],
    [totalAmount]. *)
Definition createInvoice_amounts (lineItems : list InvoiceLineItem) : Q * Q * Q :=
  let subtotal := fold_left (fun sum item => (sum + li_amount item)%Q) lineItems 0%Q in
  let taxAmount := (subtotal * (1 # 10))%Q in
  let totalAmount := (subtotal + taxAmount)%Q in
  (subtotal, taxAmount, totalAmount).

Definition createInvoice (invoiceData : InvoiceData) : Exec Invoice :=
  let '(subtotal, taxAmount, totalAmount) :=
    createInvoice_amounts (id_lineItems invoiceData) in
  let values :=
    [ VId (id_tenantId invoiceData);
      opt_text (id_customerId invoiceData);
      opt_id (id_subscriptionId invoiceData);
      VDate (id_dueDate invoiceData);
      VText "draft";
      VText "USD";
      VNumber subtotal;
      VNumber taxAmount;
      VNumber 0;
      VNumber totalAmount;
      opt_text (id_description invoiceData);
      VItems (id_lineItems invoiceData);
      VJson;
      VJson;
      VId (id_createdBy invoiceData) ] in
  await row <- insert_invoice values ;
  await_ createBillingEvent (id_tenantId invoiceData) "invoice.created"
           (InvoiceCreatedData (inv_id row) totalAmount) ;
  ret row.

(** The rows [getInvoices] selects, before ordering and pagination:
    [WHERE tenant_id = $1 AND deleted_at IS NULL], with the optional
    [AND status = $2]. *)
Definition getInvoices (tenantId : uuid) (status : option string)
  : Exec (list Invoice) :=
  fun st =>
    (st, Ok (List.filter
      (fun i => Nat.eqb (inv_tenantId i) tenantId
                && match inv_deletedAt i with None => true | Some _ => false end
                && match status with
                   | Some s => String.eqb (inv_status i) s
                   | None => true
                   end)
      (invoices st))).

(** [getInvoice]: [SELECT * FROM invoices WHERE id = $1 AND deleted_at IS
    NULL], [rows[0] || null]. *)
Definition getInvoice (id : uuid) : Exec (option Invoice) :=
  fun st =>
    (st, Ok (List.find
      (fun i => Nat.eqb (inv_id i) id
                && match inv_deletedAt i with None => true | Some _ => false end)
      (invoices st))).

(** *** Payments *)

(** [generate_payment_number(p_tenant_id)]:
    [SELECT COALESCE(MAX(payment_number), 'PAY000000') INTO last_id ... WHERE
    tenant_id = p_tenant_id], then
    [new_id := 'PAY' || LPAD((SUBSTRING(last_id FROM 4) + 1)::TEXT, 6, '0')].
    [SUBSTRING] yields [text], so the sum is [text + integer]. *)
Definition generate_payment_number (tenant : uuid) (st : Store) : result string :=
  let last_id :=
    default "PAY000000"
      (max_text
         (List.map paymentNumber
            (List.filter (fun p => Nat.eqb (pay_tenantId p) tenant) (payments st)))) in
  match sql_plus
          (VText (String.substring 3 (String.length last_id - 3) last_id))
          (VNumber 1) with
  | Ok sum => Ok ("PAY" ++ lpad_zero 6 (sql_text sum))
  | Err e => Err e
  end.

(** [payments_amount_check]: [amount >= 0 AND fee >= 0 AND refund_amount >= 0
    AND refund_amount <= amount] *)
Definition payments_amount_check (amount fee refund_amount : Q) : bool :=
  Qgeb amount 0 && Qgeb fee 0 && Qgeb refund_amount 0 && Qleb refund_amount amount.

(** A nullable foreign key into a table of the store. *)
Definition references {A} (key : A -> uuid) (table : list A) (o : option uuid)
  : bool :=
  match o with
  | None => true
  | Some u => existsb (fun r => Nat.eqb (key r) u) table
  end.

(** [INSERT INTO payments (tenant_id, invoice_id, customer_id,
    subscription_id, payment_number, amount, currency, description,
    payment_method_id, processed_by) VALUES ($1, $2, $3, $4,
    generate_payment_number($1), $5, $6, $7, $8, $9) RETURNING *]:
    [payment_status], [fee] and [refund_amount] take their column defaults.
    The values are computed first, and an expression that raises ends the
    statement; the row they form is then held against the table's checks,
    its unique key and its foreign keys. *)
Definition insert_payment (tenant_id : uuid) (invoice_id : option uuid)
  (customer_id : option string) (subscription_id : option uuid) (amount : Q)
  (currency : string) (description : option string)
  (payment_method_id : option string) (processed_by : uuid) : Exec Payment :=
  fun st =>
    match generate_payment_number tenant_id st with
    | Err e => (st, Err e)
    | Ok payment_number =>
        if negb (fits_varchar 50 payment_number && fits_varchar 3 currency
                 && match customer_id with
                    | Some c => fits_varchar 255 c | None => true end
                 && match payment_method_id with
                    | Some m => fits_varchar 255 m | None => true end) then
          (st, Err (DatabaseError "value too long for type character varying"))
        else if negb (payments_amount_check amount 0 0) then
          (st, Err (DatabaseError "payments_amount_check"))
        else if negb (tenant_check tenant_id st) then
          (st, Err (DatabaseError "payments_tenant_check"))
        else if existsb (fun p => Nat.eqb (pay_tenantId p) tenant_id
                                  && String.eqb (paymentNumber p) payment_number)
                        (payments st) then
          (st, Err (DatabaseError "payments_tenant_id_payment_number_key"))
        else if negb (existsb (Nat.eqb tenant_id) (tenants st)) then
          (st, Err (DatabaseError "payments_tenant_id_fkey"))
        else if negb (references inv_id (invoices st) invoice_id) then
          (st, Err (DatabaseError "payments_invoice_id_fkey"))
        else if negb (references sub_id (tenant_subscriptions st) subscription_id) then
          (st, Err (DatabaseError "payments_subscription_id_fkey"))
        else if negb (existsb (Nat.eqb processed_by) (users st)) then
          (st, Err (DatabaseError "payments_processed_by_fkey"))
        else
          let '(id, st1) := gen_uuid st in
          let row := mkPayment id tenant_id invoice_id subscription_id
                       payment_number "pending"
                       amount currency 0 0 description processed_by None in
          (with_payments st1 (payments st1 ++ [row]), Ok row)
    end.

(** [UPDATE invoices SET paid_amount = paid_amount + $1 WHERE id = $2]: one
    statement; it is refused as a whole when a new row breaks
    [invoices_amount_check] or [invoices_tenant_check]. *)
Definition add_paid (a : Q) (id : uuid) (i : Invoice) : Invoice :=
  if Nat.eqb (inv_id i) id then
    mkInvoice (inv_id i) (inv_tenantId i) (inv_subscriptionId i) (invoiceNumber i)
              (inv_status i) (inv_currency i) (subtotal i) (taxAmount i)
              (discountAmount i) (totalAmount i) (paidAmount i + a)%Q
              (dueDate i) (lineItems i) (inv_deletedAt i)
  else i.

Definition update_invoice_paid_amount (a : Q) (id : uuid) : Exec unit :=
  fun st =>
    let rows := List.map (add_paid a id) (invoices st) in
    let updated := List.filter (fun i => Nat.eqb (inv_id i) id) rows in
    if negb (forallb (fun i => invoices_amount_check (totalAmount i) (paidAmount i))
                     updated)
    then (st, Err (DatabaseError "invoices_amount_check"))
    else if negb (forallb (fun i => tenant_check (inv_tenantId i) st) updated)
    then (st, Err (DatabaseError "invoices_tenant_check"))
    else (with_invoices st rows, Ok tt).

Record PaymentData := mkPaymentData {
  pd_tenantId : uuid;
  pd_invoiceId : option uuid;
  pd_customerId : option string;
  pd_subscriptionId : option uuid;
  pd_amount : Q;
  pd_currency : option string;
  pd_description : option string;
  pd_paymentMethodId : option string;
  pd_processedBy : uuid
}.

(** [paymentData.currency || 'USD']: a missing or empty currency gives 'USD'. *)
Definition currency_or_USD (currency : option string) : string :=
  match currency with
  | Some c => if String.eqb c "" then "USD" else c
  | None => "USD"
  end.

Definition createPayment (paymentData : PaymentData) : Exec Payment :=
  await row <- insert_payment
                 (pd_tenantId paymentData)
                 (pd_invoiceId paymentData)
                 (pd_customerId paymentData)
                 (pd_subscriptionId paymentData)
                 (pd_amount paymentData)
                 (currency_or_USD (pd_currency paymentData))
                 (pd_description paymentData)
                 (pd_paymentMethodId paymentData)
                 (pd_processedBy paymentData) ;
  await_ match pd_invoiceId paymentData with
         | Some invoiceId =>
             update_invoice_paid_amount (pd_amount paymentData) invoiceId
         | None => ret tt
         end ;
  await_ createBillingEvent (pd_tenantId paymentData) "payment.created"
           (PaymentCreatedData (pay_id row) (pd_amount paymentData)
              (pd_invoiceId paymentData)) ;
  ret row.

(** *** Usage metrics *)

Definition checkUsageLimits (tenantId : uuid) (metricType : string)
  (currentValue : Z) : Exec unit :=
  await subscription <- getTenantSubscription tenantId ;
  match subscription with
  | None => ret tt
  | Some (_, plan) =>
      match limits plan !! metricType with
      | Some limit =>
          if negb (limit =? 0)%Z && (0 <? limit)%Z && (limit <? currentValue)%Z
          then createBillingEvent tenantId "usage_limit_exceeded"
                 (UsageLimitExceededData metricType currentValue limit
                    (plan_name plan))
          else ret tt
      | None => ret tt
      end
  end.

Record MetricData := mkMetricData {
  md_tenantId : uuid;
  md_subscriptionId : option uuid;
  md_metricType : string;
  md_metricValue : Z;
  md_metricUnit : string;
  md_periodStart : Z;
  md_periodEnd : Z
}.

(** [INSERT INTO usage_metrics (tenant_id, subscription_id, metric_type,
    metric_value, metric_unit, period_start, period_end) VALUES ($1, ...,
    $7)]: [metric_value] is an [INTEGER], [metric_type] a [VARCHAR(50)] and
    [metric_unit] a [VARCHAR(20)]; the row is held against
    [usage_metrics_period_check] ([period_end > period_start]),
    [usage_metrics_tenant_check] and the foreign keys to [tenants] and
    [tenant_subscriptions]. *)
Definition insert_usage_metric (tenant_id : uuid) (subscription_id : option uuid)
  (metric_type : string) (metric_value : Z) (metric_unit : string)
  (period_start period_end : Z) : Exec unit :=
  fun st =>
    if negb (fits_integer metric_value) then
      (st, Err (DatabaseError "integer out of range"))
    else if negb (fits_varchar 50 metric_type && fits_varchar 20 metric_unit) then
      (st, Err (DatabaseError "value too long for type character varying"))
    else if negb (period_start <? period_end)%Z then
      (st, Err (DatabaseError "usage_metrics_period_check"))
    else if negb (tenant_check tenant_id st) then
      (st, Err (DatabaseError "usage_metrics_tenant_check"))
    else if negb (existsb (Nat.eqb tenant_id) (tenants st)) then
      (st, Err (DatabaseError "usage_metrics_tenant_id_fkey"))
    else if negb (references sub_id (tenant_subscriptions st) subscription_id) then
      (st, Err (DatabaseError "usage_metrics_subscription_id_fkey"))
    else
      let '(id, st1) := gen_uuid st in
      (with_usage st1
         (usage_metrics st1 ++
            [mkUsage id tenant_id subscription_id metric_type metric_value
                     metric_unit period_start period_end]),
       Ok tt).

Definition recordUsageMetric (metricData : MetricData) : Exec unit :=
  await_ insert_usage_metric
           (md_tenantId metricData)
           (md_subscriptionId metricData)
           (md_metricType metricData)
           (md_metricValue metricData)
           (md_metricUnit metricData)
           (md_periodStart metricData)
           (md_periodEnd metricData) ;
  checkUsageLimits (md_tenantId metricData) (md_metricType metricData)
                   (md_metricValue metricData).


(** *** Reading the store back *)

(** The invoice row with a given id. *)
Definition find_invoice (id : uuid) (st : Store) : option Invoice :=
  List.find (fun i => Nat.eqb (inv_id i) id) (invoices st).


End Service.

(** * SubscriptionController *)

Module Controller.
Import Service.

(** What [tenantMiddleware] leaves in [req.tenant]. *)
Record Tenant := mkTenant {
  id : uuid;
  slug : string;
  name : string
}.

(** A request to [GET /invoices/:id] after the middleware chain. *)
Record Request := mkRequest {
  tenant : Tenant;
  params_id : uuid
}.

(** [try { ... } catch (error) { next(error); }] in a handler that takes
    [(req, res)] only: no [next] is in scope, so whatever the body throws,
    the handler's promise is rejected with a [ReferenceError]. *)
Definition catch_next {A} (body : Exec A) : Exec A :=
  fun st =>
    match body st with
    | (st', Ok a) => (st', Ok a)
    | (st', Err _) => (st', Err (ReferenceError "next"))
    end.

(** [SubscriptionController.getInvoice]: the [data] of the JSON response, or
    the error the handler's promise is rejected with. *)
Definition getInvoice (req : Request) : Exec Invoice :=
  catch_next
    (await invoice <- Service.getInvoice (params_id req) ;
     match invoice with
     | None => throw (ApiError "Invoice not found" 404)
     | Some invoice => ret invoice
     end).

(** [SubscriptionController.getInvoices] without a status filter. *)
Definition getInvoices (req : Request) : Exec (list Invoice) :=
  Service.getInvoices (id (tenant req)) None.

End Controller.

(** * Concurrent requests

    Requests run as interleaved [async] functions: between two [await]s a
    request runs alone, and each [pool.query] is one statement of the
    database (a statement that raises writes nothing, whatever runs beside
    it).  A schedule names, step by step, the request that runs its next
    statement. *)

Module Concurrent.
Import Service.

(** Where a [createPayment] call stands. *)
Inductive task :=
  | Start (pd : PaymentData)                    (* before the INSERT *)
  | Inserted (pd : PaymentData) (row : Payment) (* before the UPDATE *)
  | Updated (pd : PaymentData) (row : Payment)  (* before the event *)
  | Finished (r : result Payment).

Definition step (t : task) (st : Store) : Store * task :=
  match t with
  | Start pd =>
      match insert_payment (pd_tenantId pd) (pd_invoiceId pd) (pd_customerId pd)
              (pd_subscriptionId pd) (pd_amount pd)
              (currency_or_USD (pd_currency pd)) (pd_description pd)
              (pd_paymentMethodId pd) (pd_processedBy pd) st with
      | (st', Ok row) => (st', Inserted pd row)
      | (st', Err e) => (st', Finished (Err e))
      end
  | Inserted pd row =>
      match (match pd_invoiceId pd with
             | Some invoiceId => update_invoice_paid_amount (pd_amount pd) invoiceId
             | None => ret tt
             end) st with
      | (st', Ok _) => (st', Updated pd row)
      | (st', Err e) => (st', Finished (Err e))
      end
  | Updated pd row =>
      match createBillingEvent (pd_tenantId pd) "payment.created"
              (PaymentCreatedData (pay_id row) (pd_amount pd) (pd_invoiceId pd))
              st with
      | (st', Ok _) => (st', Finished (Ok row))
      | (st', Err e) => (st', Finished (Err e))
      end
  | Finished r => (st, Finished r)
  end.

(** One request run without interruption. *)
Definition run_alone (pd : PaymentData) (st : Store) : Store * task :=
  let '(st1, t1) := step (Start pd) st in
  let '(st2, t2) := step t1 st1 in
  step t2 st2.

(** The requests in flight, run along a schedule. *)
Fixpoint run (schedule : list nat) (ts : list task) (st : Store)
  : list task * Store :=
  match schedule with
  | [] => (ts, st)
  | i :: rest =>
      match ts !! i with
      | Some t => let '(st', t') := step t st in run rest (<[i := t']> ts) st'
      | None => run rest ts st
      end
  end.

Definition succeeded (t : task) : bool :=
  match t with Finished (Ok _) => true | _ => false end.

(** The paid amount of the invoice with the given id. *)
Definition paid_amount_of (id : uuid) (st : Store) : option Q :=
  option_map paidAmount (find_invoice id st).

(** A request that has stored nothing: it has yet to run its INSERT, or it
    has ended in an error. *)
Definition stored_nothing (t : task) : bool :=
  match t with
  | Start _ | Finished (Err _) => true
  | Inserted _ _ | Updated _ _ | Finished (Ok _) => false
  end.

End Concurrent.

(** * Statements that the store fails

    [pool.query] rejects when the store cannot run a statement (a lost
    connection, a timeout).  To follow a call through such a failure, an
    [async] function of the service is written as the statements it awaits,
    and run against a store that fails a statement of its choosing. *)

Module Faults.
Import Service.

(** An [async] function: it returns, throws, or awaits one [pool.query] and
    goes on with the rows. *)
Inductive Prog (A : Type) : Type :=
  | Return (a : A)
  | Throw (e : error)
  | Query {B : Type} (statement : Exec B) (k : B -> Prog A).
Arguments Return {A} a.
Arguments Throw {A} e.
Arguments Query {A B} statement k.

(** The function on a store that runs every statement. *)
Fixpoint run {A} (p : Prog A) : Exec A :=
  match p with
  | Return a => ret a
  | Throw e => throw e
  | Query statement k => bind statement (fun b => run (k b))
  end.

(** The function on a store that fails the statements marked [true]: the
    list says, statement by statement in the order they are issued, whether
    the store fails it; beyond the list every statement runs.  A failed
    statement writes nothing and rejects with [ConnectionError]. *)
Fixpoint run_with {A} (p : Prog A) (faults : list bool) : Exec A :=
  match p with
  | Return a => ret a
  | Throw e => throw e
  | Query statement k =>
      match faults with
      | true :: _ => throw ConnectionError
      | false :: rest => bind statement (fun b => run_with (k b) rest)
      | [] => bind statement (fun b => run_with (k b) [])
      end
  end.

(** The first [n] statements of the function, on a store that runs them:
    the store they leave, and the result if the function has ended by
    then. *)
Fixpoint first_statements {A} (n : nat) (p : Prog A) (st : Store)
  : Store * option (result A) :=
  match p with
  | Return a => (st, Some (Ok a))
  | Throw e => (st, Some (Err e))
  | Query statement k =>
      match n with
      | O => (st, None)
      | S n' =>
          match statement st with
          | (st', Ok b) => first_statements n' (k b) st'
          | (st', Err e) => (st', Some (Err e))
          end
      end
  end.

(** [SubscriptionService.createSubscription] *)
Definition createSubscription (D : DateLib) (now : Z)
  (subscriptionData : SubscriptionData) : Prog TenantSubscription :=
  Query (getPlanById (sd_planId subscriptionData)) (fun plan =>
  match plan with
  | None => Throw (ApiError "Plan not found" 404)
  | Some plan =>
      let trialEnd :=
        if truthy (sd_trialDays subscriptionData)
        then Some (now + default 0%Z (sd_trialDays subscriptionData)
                         * 24 * 60 * 60 * 1000)%Z
        else None in
      let currentPeriodEnd :=
        if String.eqb (sd_billingCycle subscriptionData) "yearly"
        then newDate D (getFullYear D now + 1)%Z (getMonth D now) (getDate D now)
        else newDate D (getFullYear D now) (getMonth D now + 1)%Z (getDate D now) in
      Query (insert_tenant_subscription
               (sd_tenantId subscriptionData)
               (sd_planId subscriptionData)
               (match trialEnd with Some _ => "trial" | None => "active" end)
               now
               (default now trialEnd)
               trialEnd
               (sd_billingCycle subscriptionData)
               (plan_price plan)
               (plan_currency plan)
               true
               currentPeriodEnd) (fun row =>
      Query (createBillingEvent (sd_tenantId subscriptionData)
               "subscription.created"
               (SubscriptionCreatedData (sub_id row) (sd_planId subscriptionData)
                  (sd_billingCycle subscriptionData)
                  (sd_trialDays subscriptionData))) (fun _ =>
      Return row))
  end).

(** [SubscriptionService.createPayment] *)
Definition createPayment (paymentData : PaymentData) : Prog Payment :=
  Query (insert_payment
           (pd_tenantId paymentData)
           (pd_invoiceId paymentData)
           (pd_customerId paymentData)
           (pd_subscriptionId paymentData)
           (pd_amount paymentData)
           (currency_or_USD (pd_currency paymentData))
           (pd_description paymentData)
           (pd_paymentMethodId paymentData)
           (pd_processedBy paymentData)) (fun row =>
  let event :=
    Query (createBillingEvent (pd_tenantId paymentData) "payment.created"
             (PaymentCreatedData (pay_id row) (pd_amount paymentData)
                (pd_invoiceId paymentData))) (fun _ =>
    Return row) in
  match pd_invoiceId paymentData with
  | Some invoiceId =>
      Query (update_invoice_paid_amount (pd_amount paymentData) invoiceId)
            (fun _ => event)
  | None => event
  end).

(** [SubscriptionService.checkUsageLimits] *)
Definition checkUsageLimits (tenantId : uuid) (metricType : string)
  (currentValue : Z) : Prog unit :=
  Query (getTenantSubscription tenantId) (fun subscription =>
  match subscription with
  | None => Return tt
  | Some (_, plan) =>
      match limits plan !! metricType with
      | Some limit =>
          if negb (limit =? 0)%Z && (0 <? limit)%Z && (limit <? currentValue)%Z
          then Query (createBillingEvent tenantId "usage_limit_exceeded"
                        (UsageLimitExceededData metricType currentValue limit
                           (plan_name plan))) (fun _ => Return tt)
          else Return tt
      | None => Return tt
      end
  end).

(** [SubscriptionService.recordUsageMetric] *)
Definition recordUsageMetric (metricData : MetricData) : Prog unit :=
  Query (insert_usage_metric
           (md_tenantId metricData)
           (md_subscriptionId metricData)
           (md_metricType metricData)
           (md_metricValue metricData)
           (md_metricUnit metricData)
           (md_periodStart metricData)
           (md_periodEnd metricData)) (fun _ =>
  checkUsageLimits (md_tenantId metricData) (md_metricType metricData)
                   (md_metricValue metricData)).

End Faults.

(** * Queries and validators of the invoice model *)

Module InvoiceQueries.
Import InvoiceModel.

(** The filter document of [invoiceSchema.statics.findOverdue], evaluated at
    the instant [now] of the call: which documents the query selects. *)
Definition findOverdue_selects (tenantId : string) (now : Z) (inv : invoice)
  : bool :=
  String.eqb (tenant_id inv) tenantId
  && match due_date inv with
     | Some due => (due <? now)%Z
     | None => false
     end
  && negb (status_eqb (status inv) paid
           || status_eqb (status inv) cancelled
           || status_eqb (status inv) written_off)
  && match deleted_at inv with None => true | Some _ => false end.

(** The filter document of [invoiceSchema.statics.findUnpaid]. *)
Definition findUnpaid_selects (tenantId : string) (inv : invoice) : bool :=
  String.eqb (tenant_id inv) tenantId
  && (status_eqb (status inv) sent
      || status_eqb (status inv) overdue
      || status_eqb (status inv) partially_paid)
  && match deleted_at inv with None => true | Some _ => false end.

(** What the loop of the save hook does to one item. *)
Definition retotal (it : item) : item := set_item_total it (itemTotal it).

(** The amount a mutation pays: the argument of [addPayment], nothing for
    any other method. *)
Definition payment_of (m : mutation) : Q :=
  match m with MAddPayment a => a | _ => 0%Q end.

(** The amounts paid along a run of mutations. *)
Definition paid_in (ms : list (Z * mutation)) : Q :=
  fold_right (fun nm s => (payment_of (snd nm) + s)%Q) 0%Q ms.

(** A run of mutations, each at its own instant. *)
Fixpoint apply_mutations (ms : list (Z * mutation)) (inv : invoice) : invoice :=
  match ms with
  | [] => inv
  | (now, m) :: rest => apply_mutations rest (apply_mutation now m inv)
  end.

(** The document a method hands to [this.save()]: the document as the
    method body leaves it. *)
Definition handed_to_save (now : Z) (m : mutation) (inv : invoice) : invoice :=
  match m with
  | MSave => inv
  | MAddItem it => set_items inv (items inv ++ [it])
  | MRemoveItem itemId =>
      set_items inv
        (List.filter (fun it => negb (String.eqb (_id it) itemId)) (items inv))
  | MUpdateItem itemId u => set_items inv (assign_by_id (items inv) itemId u)
  | MSend => set_sent_at (set_status inv sent) (Some now)
  | MAddPayment amount =>
      set_totals inv
        (set_paid_amount (totals inv) (paid_amount (totals inv) + amount)%Q)
  | MCancel => set_status inv cancelled
  | MWriteOff =>
      let inv1 := set_status inv written_off in
      set_totals inv1 (set_balance_due (totals inv1) 0%Q)
  | MSubmitInsurance => set_insurance inv "submitted" (Some now)
  | MSoftDelete => set_deleted_at inv (Some now)
  | MRestore => set_deleted_at inv None
  end.

(** The validators of the paths of an item: [description] is required,
    [quantity] has [min: 1], [unit_price], [discount] and [total] have
    [min: 0], and [tax_rate] lies between 0 and 1. *)
Definition validate_item (it : item) : bool :=
  negb (String.eqb (description it) "")
  && Qgeb (quantity it) 1
  && Qgeb (unit_price it) 0
  && Qgeb (discount it) 0
  && Qgeb (tax_rate it) 0 && Qleb (tax_rate it) 1
  && Qgeb (total it) 0.

(** The validators of the paths of [invoice]: [invoice_number] is required
    and at most 50 characters long, [invoice_info.due_date] is required,
    every amount of [totals] and [payment_terms.due_days] have [min: 0], and
    [insurance.status] is one of its enum. *)
Definition validate_paths (inv : invoice) : bool :=
  negb (String.eqb (invoice_number inv) "")
  && Nat.leb (String.length (invoice_number inv)) 50
  && match due_date inv with Some _ => true | None => false end
  && forallb validate_item (items inv)
  && Qgeb (subtotal (totals inv)) 0
  && Qgeb (discount_amount (totals inv)) 0
  && Qgeb (tax_amount (totals inv)) 0
  && Qgeb (total_amount (totals inv)) 0
  && Qgeb (paid_amount (totals inv)) 0
  && Qgeb (balance_due (totals inv)) 0
  && (0 <=? due_days inv)%Z
  && existsb (String.eqb (insurance_status inv))
       ["not_submitted"; "submitted"; "processing"; "approved";
        "partially_approved"; "denied"; "paid"].

Section Validators.

(** What the checks outside the paths of [invoice] decide for a document
    handed to [save()]: the validators of the other paths ([patient_id],
    [created_by], an item's [type], ...) and the unique index on
    [(tenant_id, invoice_number)]. *)
Variable other_checks_pass : invoice -> bool.

(** Mongoose runs the validators on every [save()], on the document as it is
    handed over, before the [pre('save')] hook; a document they refuse is
    not saved and the hook does not run. *)
Definition validate (inv : invoice) : bool :=
  other_checks_pass inv && validate_paths inv.

(** A method call: [None] when the validators refuse the document. *)
Definition call (now : Z) (m : mutation) (inv : invoice) : option invoice :=
  if validate (handed_to_save now m inv)
  then Some (apply_mutation now m inv)
  else None.

(** A run of method calls, each on the document the one before it saved;
    the run ends at the first call that is refused. *)
Fixpoint calls (ms : list (Z * mutation)) (inv : invoice) : option invoice :=
  match ms with
  | [] => Some inv
  | (now, m) :: rest =>
      match call now m inv with
      | Some inv' => calls rest inv'
      | None => None
      end
  end.

End Validators.

End InvoiceQueries.

(** * The Mongoose appointment model *)

Module AppointmentModel.

(** [status] enum of [appointmentSchema]. *)
Inductive appointment_status :=
  | scheduled | confirmed | in_progress | completed | cancelled | no_show.

Definition status_eqb (a b : appointment_status) : bool :=
  match a, b with
  | scheduled, scheduled | confirmed, confirmed | in_progress, in_progress
  | completed, completed | cancelled, cancelled | no_show, no_show => true
  | _, _ => false
  end.

(** One element of [reminders]. *)
Record reminder := mkReminder {
  reminder_id : string;
  reminder_type : string;
  scheduled_for : Z;
  reminder_sent : bool;
  reminder_sent_at : option Z
}.

Record appointment := mkAppointment {
  _id : string;
  tenant_id : string;
  clinic_id : string;
  patient_id : string;
  doctor_id : string;
  appointment_number : string;
  start_time : option Z;
  end_time : option Z;
  duration_minutes : option Z;
  status : appointment_status;
  cancellation_reason : option string;
  cancelled_by : option string;
  cancelled_at : option Z;
  reminders : list reminder;
  deleted_at : option Z
}.

Definition set_duration (a : appointment) (d : option Z) : appointment :=
  mkAppointment (_id a) (tenant_id a) (clinic_id a) (patient_id a) (doctor_id a)
    (appointment_number a) (start_time a) (end_time a) d (status a)
    (cancellation_reason a) (cancelled_by a) (cancelled_at a) (reminders a)
    (deleted_at a).

Definition set_status (a : appointment) (s : appointment_status) : appointment :=
  mkAppointment (_id a) (tenant_id a) (clinic_id a) (patient_id a) (doctor_id a)
    (appointment_number a) (start_time a) (end_time a) (duration_minutes a) s
    (cancellation_reason a) (cancelled_by a) (cancelled_at a) (reminders a)
    (deleted_at a).

Definition set_cancellation (a : appointment) (reason cancelledBy : string)
  (at_ : Z) : appointment :=
  mkAppointment (_id a) (tenant_id a) (clinic_id a) (patient_id a) (doctor_id a)
    (appointment_number a) (start_time a) (end_time a) (duration_minutes a)
    (status a) (Some reason) (Some cancelledBy) (Some at_) (reminders a)
    (deleted_at a).

Definition set_reminders (a : appointment) (l : list reminder) : appointment :=
  mkAppointment (_id a) (tenant_id a) (clinic_id a) (patient_id a) (doctor_id a)
    (appointment_number a) (start_time a) (end_time a) (duration_minutes a)
    (status a) (cancellation_reason a) (cancelled_by a) (cancelled_at a) l
    (deleted_at a).

Definition set_deleted_at (a : appointment) (d : option Z) : appointment :=
  mkAppointment (_id a) (tenant_id a) (clinic_id a) (patient_id a) (doctor_id a)
    (appointment_number a) (start_time a) (end_time a) (duration_minutes a)
    (status a) (cancellation_reason a) (cancelled_by a) (cancelled_at a)
    (reminders a) d.

(** [Math.round(a / b)] for an integer [a] and a positive [b]: the nearest
    integer, halves going up. *)
Definition round_div (a b : Z) : Z := ((2 * a + b) / (2 * b))%Z.

(** What [save()] ends in: the saved document, or the error it is rejected
    with (a validation error, or the one a hook hands to [next]). *)
Inductive outcome :=
  | Saved (a : appointment)
  | Rejected (message : string).

Section Validators.

(** What the checks outside the paths of [appointment] decide for the
    document at hand: the validators of the other paths (the ids, [title],
    [created_by], ...) and the unique index on
    [(tenant_id, appointment_number)].  No method below touches these
    paths. *)
Variable other_checks_pass : bool.

(** The validators of the paths of [appointment], which Mongoose runs on
    every [save()] before the hooks: [appointment_number] is required and at
    most 50 characters long, [start_time], [end_time] and
    [duration_minutes] are required, [duration_minutes] has [min: 1], and a
    reminder's [type] is one of 'email', 'sms' and 'push'. *)
Definition validate (a : appointment) : bool :=
  other_checks_pass
  && negb (String.eqb (appointment_number a) "")
  && Nat.leb (String.length (appointment_number a)) 50
  && match start_time a with Some _ => true | None => false end
  && match end_time a with Some _ => true | None => false end
  && match duration_minutes a with Some d => (1 <=? d)%Z | None => false end
  && forallb (fun r => String.eqb (reminder_type r) "email"
                       || String.eqb (reminder_type r) "sms"
                       || String.eqb (reminder_type r) "push")
             (reminders a).

(** The first [pre('save')] hook; [modified] is
    [this.isModified('start_time') || this.isModified('end_time')]. *)
Definition compute_duration (modified : bool) (a : appointment) : appointment :=
  if modified then
    match start_time a, end_time a with
    | Some s, Some e => set_duration a (Some (round_div (e - s) (1000 * 60)))
    | _, _ => a
    end
  else a.

(** The second [pre('save')] hook. *)
Definition validate_times (a : appointment) : outcome :=
  match start_time a, end_time a with
  | Some s, Some e =>
      if (e <=? s)%Z then Rejected "End time must be after start time"
      else Saved a
  | _, _ => Saved a
  end.

(** [this.save()]: the validators, then the two hooks in the order they are
    registered. *)
Definition save (modified : bool) (a : appointment) : outcome :=
  if negb (validate a) then Rejected "Appointment validation failed"
  else validate_times (compute_duration modified a).

(** Instance methods; none of them touches the times, so [modified] is what
    it was when the method was called (true for a document that has not
    been saved yet). *)
Definition confirm (modified : bool) (a : appointment) : outcome :=
  save modified (set_status a confirmed).

Definition start (modified : bool) (a : appointment) : outcome :=
  save modified (set_status a in_progress).

Definition complete (modified : bool) (a : appointment) : outcome :=
  save modified (set_status a completed).

Definition cancel (modified : bool) (now : Z) (reason cancelledBy : string)
  (a : appointment) : outcome :=
  save modified
    (set_cancellation (set_status a cancelled) reason cancelledBy now).

Definition markNoShow (modified : bool) (a : appointment) : outcome :=
  save modified (set_status a no_show).

(** [addReminder]; [newId] is the [_id] the new subdocument is given. *)
Definition addReminder (modified : bool) (newId type : string)
  (scheduledFor : Z) (a : appointment) : outcome :=
  save modified (set_reminders a
    (reminders a ++ [mkReminder newId type scheduledFor false None])).

(** [this.reminders.id(reminderId)] and the update of the reminder found. *)
Fixpoint mark_sent (now : Z) (reminderId : string) (l : list reminder)
  : list reminder :=
  match l with
  | [] => []
  | r :: rest =>
      if String.eqb (reminder_id r) reminderId then
        mkReminder (reminder_id r) (reminder_type r) (scheduled_for r) true
                   (Some now) :: rest
      else r :: mark_sent now reminderId rest
  end.

Definition markReminderSent (modified : bool) (now : Z) (reminderId : string)
  (a : appointment) : outcome :=
  save modified (set_reminders a (mark_sent now reminderId (reminders a))).

Definition softDelete (modified : bool) (now : Z) (a : appointment) : outcome :=
  save modified (set_deleted_at a (Some now)).

(** Every instance method of the model. *)
Inductive method :=
  | Confirm
  | Start
  | Complete
  | Cancel (reason cancelledBy : string)
  | MarkNoShow
  | AddReminder (newId type : string) (scheduledFor : Z)
  | MarkReminderSent (reminderId : string)
  | SoftDelete.

Definition call (modified : bool) (now : Z) (m : method) (a : appointment)
  : outcome :=
  match m with
  | Confirm => confirm modified a
  | Start => start modified a
  | Complete => complete modified a
  | Cancel reason cancelledBy => cancel modified now reason cancelledBy a
  | MarkNoShow => markNoShow modified a
  | AddReminder newId type scheduledFor =>
      addReminder modified newId type scheduledFor a
  | MarkReminderSent reminderId => markReminderSent modified now reminderId a
  | SoftDelete => softDelete modified now a
  end.

End Validators.

(** The filter document of [appointmentSchema.statics.findConflicts]: which
    documents the query selects for the slot [startTime, endTime] of a
    doctor.  A comparison against a missing time selects nothing. *)
Definition findConflicts_selects (tenantId doctorId : string)
  (startTime endTime : Z) (excludeId : option string) (a : appointment) : bool :=
  String.eqb (tenant_id a) tenantId
  && String.eqb (doctor_id a) doctorId
  && negb (status_eqb (status a) cancelled || status_eqb (status a) no_show)
  && match deleted_at a with None => true | Some _ => false end
  && (match start_time a with
      | Some s => (s <? endTime)%Z && (startTime <=? s)%Z
      | None => false
      end
      || match end_time a with
         | Some e => (startTime <? e)%Z && (e <=? endTime)%Z
         | None => false
         end
      || match start_time a, end_time a with
         | Some s, Some e => (s <=? startTime)%Z && (endTime <=? e)%Z
         | _, _ => false
         end)
  && match excludeId with
     | Some x => if String.eqb x "" then true else negb (String.eqb (_id a) x)
     | None => true
     end.

End AppointmentModel.

(** * The per-tenant rate limiter of the tenant middleware *)

Module RateLimit.

(** One entry of the [requests] map. *)
Record window := mkWindow {
  count : Z;
  resetTime : Z
}.

(** The [X-RateLimit-*] headers a response carries. *)
Record headers := mkHeaders {
  limit_header : Z;
  remaining_header : Z;
  reset_header : Z
}.

(** What the middleware does with a request: pass it on (with the headers it
    set, if any) or hand a 429 to the error handler, the message naming the
    seconds to wait. *)
Inductive verdict :=
  | Next (h : option headers)
  | TooManyRequests (h : headers) (seconds : Z).

(** [req.tenant?.id || 'anonymous'] *)
Definition tenant_key (tenantId : option string) : string :=
  match tenantId with
  | Some i => if String.eqb i "" then "anonymous" else i
  | None => "anonymous"
  end.

(** The middleware returned by [tenantRateLimitMiddleware(maxRequests,
    windowMs)], at the instant [now] of the request; [requests] is the map
    the closure holds. *)
Definition tenantRateLimitMiddleware (maxRequests windowMs : Z)
  (tenantId : option string) (now : Z) (requests : gmap string window)
  : gmap string window * verdict :=
  let key := tenant_key tenantId in
  match requests !! key with
  | None =>
      (<[key := mkWindow 1 (now + windowMs)]> requests, Next None)
  | Some tenantRequests =>
      if (resetTime tenantRequests <? now)%Z then
        (<[key := mkWindow 1 (now + windowMs)]> requests, Next None)
      else if (maxRequests <=? count tenantRequests)%Z then
        (requests,
         TooManyRequests (mkHeaders maxRequests 0 (resetTime tenantRequests))
           (ceil_div (resetTime tenantRequests - now) 1000))
      else
        let count' := (count tenantRequests + 1)%Z in
        (<[key := mkWindow count' (resetTime tenantRequests)]> requests,
         Next (Some (mkHeaders maxRequests (maxRequests - count')
                               (resetTime tenantRequests))))
  end.

Definition admitted (v : verdict) : bool :=
  match v with Next _ => true | TooManyRequests _ _ => false end.

(** How many of the verdicts pass the request on. *)
Definition count_admitted (vs : list verdict) : nat :=
  List.length (List.filter admitted vs).

(** A stream of requests, each with its tenant and its instant, through one
    limiter: the verdicts in order, and the map left behind. *)
Fixpoint serve (maxRequests windowMs : Z) (reqs : list (option string * Z))
  (requests : gmap string window) : list verdict * gmap string window :=
  match reqs with
  | [] => ([], requests)
  | (tenantId, now) :: rest =>
      let '(requests', v) :=
        tenantRateLimitMiddleware maxRequests windowMs tenantId now requests in
      let '(vs, final) := serve maxRequests windowMs rest requests' in
      (v :: vs, final)
  end.

(** The verdicts given to the requests filed under [key], out of the
    verdicts of a whole stream. *)
Fixpoint verdicts_of (key : string) (reqs : list (option string * Z))
  (vs : list verdict) : list verdict :=
  match reqs, vs with
  | (tenantId, _) :: reqs', v :: vs' =>
      if String.eqb (tenant_key tenantId) key
      then v :: verdicts_of key reqs' vs'
      else verdicts_of key reqs' vs'
  | _, _ => []
  end.

End RateLimit.

(** * Worked inputs *)

Module Scenarios.
Import InvoiceModel.

(** Scenario B: one line, quantity 2 at 50.00, taxed at 10%; issued at
    instant 0 and due 30 days later. *)
Definition lineB : item := mkItem "item-1" "consultation" 2 50 0 (1 # 10) 0.

Definition dueB : Z := (30 * ms_per_day)%Z.

Definition scenarioB : invoice :=
  save 0 (new_invoice "tenant-T" "INV-0001" 0 dueB [lineB]).

(** A line carrying a discount of 10.00 on a unit price of 100.00. *)
Definition discounted_line : item := mkItem "item-1" "procedure" 1 100 10 0 0.

Definition discounted_invoice : invoice :=
  save 0 (new_invoice "tenant-T" "INV-0002" 0 dueB [discounted_line]).

(** Payments of 110.00 and of 100.00 against an invoice: the first has
    completed, the second is still pending. *)
Definition completed_payment : PaymentModel.payment :=
  PaymentModel.mkPayment "tenant-T" (Some "invoice-1") "PAY-0001" 110
    PaymentModel.completed (Some 5%Z) (Some "user-1") 0 None None None [] None None.

Definition pending_payment : PaymentModel.payment :=
  PaymentModel.mkPayment "tenant-T" (Some "invoice-1") "PAY-0002" 100
    PaymentModel.pending None None 0 None None None [] None None.

(** The collections holding scenario B's invoice and the two payments. *)
Definition collections0 : PaymentModel.collections :=
  PaymentModel.mkCollections
    {[ "invoice-1" := scenarioB ]}
    (<[ "payment-1" := completed_payment ]> {[ "payment-2" := pending_payment ]}).

(** Two tenants in the billing tables.  Tenant A subscribes to the seeded
    plan 'basic' (500 patients) and owns invoice 200; invoice 201 belongs to
    tenant B.  Both invoices total 110.00 with nothing paid. *)
Definition tenantA : Service.uuid := 1%nat.
Definition tenantB : Service.uuid := 2%nat.
Definition userA : Service.uuid := 10%nat.

Definition basic : Service.SubscriptionPlan :=
  Service.mkPlan 100 "Basic" "basic" 99 "monthly" "USD"
    ["appointments"; "patients"; "doctors"; "basic_reports"]
    (<["users" := 5%Z]> (<["patients" := 500%Z]>
       (<["appointments_per_month" := 1000%Z]> (<["storage_gb" := 10%Z]> ∅))))
    true true 14.

Definition subscriptionA : Service.TenantSubscription :=
  Service.mkSubscription 150 tenantA 100 "active" 0 dueB None None
    "monthly" 99 "USD" true (Some dueB).

Definition invoiceA : Service.Invoice :=
  Service.mkInvoice 200 tenantA None 1 "draft" "USD" 100 10 0 110 0 dueB [] None.

Definition invoiceB : Service.Invoice :=
  Service.mkInvoice 201 tenantB None 1 "draft" "USD" 100 10 0 110 0 dueB [] None.

Definition store0 : Service.Store :=
  Service.mkStore [basic] [subscriptionA] [invoiceA; invoiceB] [] [] [] 1000
    [tenantA; tenantB] [userA] None.

(** A payment by tenant A against its invoice 200. *)
Definition payA (amount : Q) : Service.PaymentData :=
  Service.mkPaymentData tenantA (Some 200%nat) None None amount None None None userA.

(** Two requests paying 55.00 each against invoice 200, and a schedule that
    interleaves their statements. *)
Definition two_payments : list Service.PaymentData := [payA 55; payA 55].

Definition interleaved : list nat := [0; 1; 1; 0; 1; 0]%nat.

(** One sample of the metric 'patients' for tenant A. *)
Definition patients_sample (value : Z) : Service.MetricData :=
  Service.mkMetricData tenantA (Some 150%nat) "patients" value "count" 0 dueB.


End Scenarios.

(** * More worked inputs *)

Module Examples.

(** An appointment of Dr. D from 09:00 to 09:30 (in milliseconds of the
    day). *)
Definition nine : Z := (9 * 60 * 60 * 1000)%Z.
Definition half_hour : Z := (30 * 60 * 1000)%Z.

Definition morning : AppointmentModel.appointment :=
  AppointmentModel.mkAppointment "appt-1" "tenant-T" "clinic-1" "patient-1"
    "doctor-D" "APT-000001" (Some nine) (Some (nine + half_hour)%Z) (Some 30%Z)
    AppointmentModel.scheduled None None None [] None.

(** Four requests: T at 0, U at 10, T at 20 and T at 30 milliseconds. *)
Definition four_requests : list (option string * Z) :=
  [(Some "T", 0%Z); (Some "U", 10%Z); (Some "T", 20%Z); (Some "T", 30%Z)].

(** A calendar for worked inputs: years of twelve months of thirty days,
    counted from 1970. *)
Definition calendar30 : Service.DateLib :=
  Service.mkDateLib
    (fun t => 1970 + t / (360 * ms_per_day))%Z
    (fun t => (t mod (360 * ms_per_day)) / (30 * ms_per_day))%Z
    (fun t => 1 + (t mod (30 * ms_per_day)) / ms_per_day)%Z
    (fun y m d => ((y - 1970) * 360 + m * 30 + (d - 1)) * ms_per_day)%Z.

End Examples.

(** * Arithmetic of the comparisons *)

Lemma Qleb_le (a b : Q) : Qleb a b = true <-> (a <= b)%Q.
Proof. apply Qle_bool_iff. Qed.

Lemma Qltb_lt (a b : Q) : Qltb a b = true <-> (a < b)%Q.
Proof.
  unfold Qltb. rewrite negb_true_iff. split.
  - intros H. apply Qnot_le_lt. intros Hle.
    apply Qle_bool_iff in Hle. congruence.
  - intros H. destruct (Qle_bool b a) eqn:E; [|reflexivity].
    apply Qle_bool_iff in E. exfalso. apply (Qlt_not_le _ _ H E).
Qed.

Lemma Qltb_ge (a b : Q) : Qltb a b = false <-> (b <= a)%Q.
Proof.
  unfold Qltb. rewrite negb_false_iff. apply Qle_bool_iff.
Qed.

Lemma Qleb_gt (a b : Q) : Qleb a b = false <-> (b < a)%Q.
Proof.
  unfold Qleb. split.
  - intros H. apply Qnot_le_lt. intros Hle.
    apply Qle_bool_iff in Hle. congruence.
  - intros H. destruct (Qle_bool a b) eqn:E; [|reflexivity].
    apply Qle_bool_iff in E. exfalso. apply (Qlt_not_le _ _ H E).
Qed.

Lemma Qgtb_gt (a b : Q) : Qgtb a b = true <-> (b < a)%Q.
Proof. apply Qltb_lt. Qed.

Lemma ceil_div_pos (a b : Z) : (0 < b)%Z -> (0 < ceil_div a b)%Z <-> (0 < a)%Z.
Proof.
  intros Hb. unfold ceil_div. split; intros H.
  - destruct (Z_lt_le_dec 0 a) as [|Hle]; [assumption|].
    assert (0 <= (- a) / b)%Z by (apply Z.div_pos; lia). lia.
  - assert ((- a) / b < 0)%Z by (apply Z.div_lt_upper_bound; lia). lia.
Qed.

(** * Properties of the invoice model *)

Section InvoiceFacts.
Import InvoiceModel.

Lemma status_eqb_eq (a b : invoice_status) : status_eqb a b = true <-> a = b.
Proof. destruct a, b; simpl; split; congruence. Qed.

Lemma status_eqb_neq (a b : invoice_status) : status_eqb a b = false <-> a <> b.
Proof. destruct a, b; simpl; split; congruence. Qed.

(** The loop leaves in [subtotal] the running sum of the totals it wrote. *)
Lemma forEach_items_subtotal (its : list item) :
  forall (s x : Q) (its' : list item) (s' x' : Q),
    forEach_items its s x = (its', s', x') ->
    s' = fold_left (fun sum it => (sum + total it)%Q) its' s.
Proof.
  induction its as [|it rest IH]; intros s x its' s' x' H; simpl in H.
  - inversion H; subst. reflexivity.
  - destruct (forEach_items rest (s + itemTotal it)%Q
                (x + itemTotal it * tax_rate it)%Q) as [[r s1] x1] eqn:E.
    inversion H; subst. simpl. eapply IH. exact E.
Qed.

Lemma derive_status_totals now inv : totals (derive_status now inv) = totals inv.
Proof.
  unfold derive_status.
  repeat match goal with |- context [if ?c then _ else _] => destruct c end;
    try reflexivity; simpl; destruct (paid_at inv); reflexivity.
Qed.

Lemma derive_status_items now inv : items (derive_status now inv) = items inv.
Proof.
  unfold derive_status.
  repeat match goal with |- context [if ?c then _ else _] => destruct c end;
    try reflexivity; simpl; destruct (paid_at inv); reflexivity.
Qed.

Lemma default_due_date_totals inv : totals (default_due_date inv) = totals inv.
Proof. unfold default_due_date. destruct (due_date inv), (issue_date inv); reflexivity. Qed.

Lemma default_due_date_items inv : items (default_due_date inv) = items inv.
Proof. unfold default_due_date. destruct (due_date inv), (issue_date inv); reflexivity. Qed.

Lemma default_due_date_status inv : status (default_due_date inv) = status inv.
Proof. unfold default_due_date. destruct (due_date inv), (issue_date inv); reflexivity. Qed.

Lemma default_due_date_paid_at inv : paid_at (default_due_date inv) = paid_at inv.
Proof. unfold default_due_date. destruct (due_date inv), (issue_date inv); reflexivity. Qed.

(** What the hook leaves in [items] and [totals]. *)
Lemma pre_save_shape now inv :
  exists its' s x,
    forEach_items (items inv) 0%Q 0%Q = (its', s, x) /\
    items (pre_save now inv) = its' /\
    totals (pre_save now inv) =
      mkTotals s (sum_discounts its') x (s + x)%Q (paid_amount (totals inv))
               (s + x - paid_amount (totals inv))%Q.
Proof.
  unfold pre_save.
  destruct (forEach_items (items inv) 0%Q 0%Q) as [[its' s] x] eqn:E.
  exists its', s, x. split; [reflexivity|].
  rewrite derive_status_items, derive_status_totals.
  rewrite default_due_date_items, default_due_date_totals. split; reflexivity.
Qed.

(** Every mutation ends in a save. *)
Lemma apply_mutation_saves now m inv :
  exists inv0, apply_mutation now m inv = save now inv0.
Proof. destruct m; simpl; eexists; reflexivity. Qed.

Lemma save_totals_invariant now inv :
  subtotal (totals (save now inv)) = sum_line_totals (items (save now inv)) /\
  discount_amount (totals (save now inv)) = sum_discounts (items (save now inv)) /\
  total_amount (totals (save now inv)) =
    (subtotal (totals (save now inv)) + tax_amount (totals (save now inv)))%Q /\
  balance_due (totals (save now inv)) =
    (total_amount (totals (save now inv)) - paid_amount (totals (save now inv)))%Q.
Proof.
  unfold save.
  destruct (pre_save_shape now inv) as (its' & s & x & E & Hi & Ht).
  rewrite Hi, Ht. simpl. repeat split.
  unfold sum_line_totals. eapply forEach_items_subtotal. exact E.
Qed.

End InvoiceFacts.

Section InvoiceClaims.
Import InvoiceModel Scenarios.

(** C2, as stated, fails on a discounted line: with quantity 1, unit price
    100.00 and discount 10.00 the hook stores subtotal 90.00, discount 10.00,
    tax 0 and total 90.00, while subtotal + tax - discount is 80.00. *)
Lemma discounted_invoice_total_not_net_of_discount :
  subtotal (totals discounted_invoice) == 90 /\
  tax_amount (totals discounted_invoice) == 0 /\
  discount_amount (totals discounted_invoice) == 10 /\
  total_amount (totals discounted_invoice) == 90 /\
  ~ total_amount (totals discounted_invoice) ==
      subtotal (totals discounted_invoice)
      + tax_amount (totals discounted_invoice)
      - discount_amount (totals discounted_invoice).
Proof. vm_compute. repeat split; discriminate. Qed.

(** What the loop of the hook leaves: every line with its total rewritten,
    and the two sums, added up in the order of the lines. *)
Lemma forEach_items_sums (its : list item) (s x : Q) :
  forEach_items its s x
  = (List.map (fun it => set_item_total it (itemTotal it)) its,
     fold_left (fun sum it => (sum + itemTotal it)%Q) its s,
     fold_left (fun sum it => (sum + itemTotal it * tax_rate it)%Q) its x).
Proof.
  revert s x. induction its as [|it rest IH]; intros s x; [reflexivity|].
  cbn [forEach_items List.map fold_left]. rewrite IH. reflexivity.
Qed.

Lemma fold_left_rewritten_totals (f : item -> Q) (g : item -> Q)
      (its : list item) (s : Q) :
  (forall it, f (set_item_total it (itemTotal it)) = g it) ->
  fold_left (fun sum it => (sum + f it)%Q)
            (List.map (fun it => set_item_total it (itemTotal it)) its) s
  = fold_left (fun sum it => (sum + g it)%Q) its s.
Proof.
  intros H. revert s. induction its as [|it rest IH]; intros s; [reflexivity|].
  cbn [List.map fold_left]. rewrite H. apply IH.
Qed.

(** C2 (amended): after every mutation of an invoice document, every line
    total is unit price times quantity minus the line discount; the subtotal
    is the sum of the line totals, the tax amount the sum of line total times
    line tax rate, the discount amount the sum of the line discounts, and
    the total is subtotal plus tax.  The discounts are inside the line
    totals already and are not subtracted from the total again. *)
Theorem invoice_totals_after_mutation :
  forall (now : Z) (m : mutation) (inv : invoice),
    Forall (fun it => total it = (unit_price it * quantity it - discount it)%Q)
           (items (apply_mutation now m inv)) /\
    subtotal (totals (apply_mutation now m inv))
      = fold_left (fun sum it => (sum + total it)%Q)
                  (items (apply_mutation now m inv)) 0%Q /\
    tax_amount (totals (apply_mutation now m inv))
      = fold_left (fun sum it => (sum + total it * tax_rate it)%Q)
                  (items (apply_mutation now m inv)) 0%Q /\
    discount_amount (totals (apply_mutation now m inv))
      = fold_left (fun sum it => (sum + discount it)%Q)
                  (items (apply_mutation now m inv)) 0%Q /\
    total_amount (totals (apply_mutation now m inv))
      = (subtotal (totals (apply_mutation now m inv))
         + tax_amount (totals (apply_mutation now m inv)))%Q.
Proof.
  intros now m inv.
  destruct (apply_mutation_saves now m inv) as [inv0 ->].
  unfold save, pre_save. rewrite forEach_items_sums.
  rewrite derive_status_items, derive_status_totals.
  rewrite default_due_date_items, default_due_date_totals.
  cbn [items totals set_totals set_items subtotal tax_amount discount_amount
       total_amount].
  split; [|split; [|split; [|split]]].
  - apply List.Forall_forall. intros it Hit.
    apply in_map_iff in Hit. destruct Hit as (it0 & <- & _). reflexivity.
  - symmetry. apply fold_left_rewritten_totals. reflexivity.
  - symmetry.
    apply (fold_left_rewritten_totals (fun it => (total it * tax_rate it)%Q)).
    reflexivity.
  - reflexivity.
  - reflexivity.
Qed.

(** After every mutation the stored balance is total minus paid. *)
Lemma balance_due_after_mutation (now : Z) (m : mutation) (inv : invoice) :
  balance_due (totals (apply_mutation now m inv))
  = (total_amount (totals (apply_mutation now m inv))
     - paid_amount (totals (apply_mutation now m inv)))%Q.
Proof.
  destruct (apply_mutation_saves now m inv) as [inv0 ->].
  apply save_totals_invariant.
Qed.

(** C3 at its failing input: a payment of 200.00 applied to the 110.00
    invoice of scenario B is saved with balance total - paid = -90.00, below
    zero, and status paid. *)
Theorem addPayment_overpaid_balance_negative :
  total_amount (totals (addPayment 1 200 scenarioB)) == 110 /\
  paid_amount (totals (addPayment 1 200 scenarioB)) == 200 /\
  balance_due (totals (addPayment 1 200 scenarioB)) == -90 /\
  (balance_due (totals (addPayment 1 200 scenarioB)) < 0)%Q /\
  status (addPayment 1 200 scenarioB) = paid.
Proof. vm_compute. repeat split. Qed.

End InvoiceClaims.

Section StatusDerivation.
Import InvoiceModel Scenarios.

Lemma derive_status_due_date now inv :
  due_date (derive_status now inv) = due_date inv.
Proof.
  unfold derive_status.
  repeat match goal with |- context [if ?c then _ else _] => destruct c end;
    try reflexivity; simpl; destruct (paid_at inv); reflexivity.
Qed.

(** The hook is the status update run on a document that already carries the
    recomputed totals and the status and payment stamp it was saved with. *)
Lemma pre_save_derives now inv :
  exists inv1,
    pre_save now inv = derive_status now inv1 /\
    totals inv1 = totals (pre_save now inv) /\
    due_date inv1 = due_date (pre_save now inv) /\
    status inv1 = status inv /\
    paid_at inv1 = paid_at inv.
Proof.
  unfold pre_save.
  destruct (forEach_items (items inv) 0%Q 0%Q) as [[its' s] x].
  eexists. split; [reflexivity|].
  rewrite derive_status_totals, derive_status_due_date.
  rewrite default_due_date_status, default_due_date_paid_at.
  repeat split; reflexivity.
Qed.

Lemma derive_status_paid now inv :
  (balance_due (totals inv) <= 0)%Q -> (0 < paid_amount (totals inv))%Q ->
  status (derive_status now inv) = paid /\
  paid_at (derive_status now inv) =
    match paid_at inv with Some t => Some t | None => Some now end.
Proof.
  intros Hb Hp. unfold derive_status.
  apply Qleb_le in Hb. apply Qgtb_gt in Hp. rewrite Hb, Hp. simpl.
  destruct (paid_at inv) eqn:E; simpl; rewrite ?E; split; reflexivity.
Qed.

Lemma derive_status_partially_paid now inv :
  (0 < paid_amount (totals inv))%Q -> (0 < balance_due (totals inv))%Q ->
  status (derive_status now inv) = partially_paid.
Proof.
  intros Hp Hb. unfold derive_status.
  assert (Qleb (balance_due (totals inv)) 0 = false) as -> by (apply Qleb_gt; exact Hb).
  apply Qgtb_gt in Hp, Hb. rewrite Hp, Hb. reflexivity.
Qed.

Lemma derive_status_overdue now inv due :
  (paid_amount (totals inv) <= 0)%Q ->
  due_date inv = Some due -> (due < now)%Z ->
  status inv <> paid -> status inv <> cancelled ->
  status (derive_status now inv) = overdue.
Proof.
  intros Hp Hd Hlt Hnp Hnc. unfold derive_status.
  assert (Qgtb (paid_amount (totals inv)) 0 = false) as ->
    by (apply Qltb_ge; exact Hp).
  rewrite andb_false_r. simpl.
  apply status_eqb_neq in Hnp, Hnc.
  unfold is_overdue, days_overdue. rewrite Hnp, Hnc, Hd. simpl.
  assert ((0 <? ceil_div (now - due) ms_per_day)%Z = true) as ->.
  { apply Z.ltb_lt. apply ceil_div_pos; [reflexivity | lia]. }
  reflexivity.
Qed.

(** With nothing paid the hook only ever turns the status into overdue. *)
Lemma derive_status_unpaid now inv :
  ~ (0 < paid_amount (totals inv))%Q ->
  status (derive_status now inv)
  = if is_overdue now inv && negb (status_eqb (status inv) cancelled)
    then overdue else status inv.
Proof.
  intros Hp. unfold derive_status.
  assert (Qgtb (paid_amount (totals inv)) 0 = false) as ->.
  { apply Qltb_ge. apply Qnot_lt_le. exact Hp. }
  rewrite andb_false_r. simpl.
  destruct (is_overdue now inv && negb (status_eqb (status inv) cancelled));
    reflexivity.
Qed.

Lemma is_overdue_spec now inv :
  is_overdue now inv = true <->
  status inv <> paid /\ status inv <> cancelled /\
  exists due, due_date inv = Some due /\ (due < now)%Z.
Proof.
  unfold is_overdue, days_overdue. split.
  - intros H. apply andb_true_iff in H. destruct H as [Hd Hp].
    destruct (status_eqb (status inv) paid || status_eqb (status inv) cancelled)
      eqn:Es; [discriminate Hd|].
    apply orb_false_iff in Es. destruct Es as [Es1 Es2].
    apply status_eqb_neq in Es1, Es2. split; [exact Es1|]. split; [exact Es2|].
    destruct (due_date inv) as [due|]; [|discriminate Hd].
    exists due. split; [reflexivity|].
    apply Z.ltb_lt in Hd. apply ceil_div_pos in Hd; [lia | reflexivity].
  - intros (Hp & Hc & due & Hd & Hlt).
    apply status_eqb_neq in Hp, Hc. rewrite Hp, Hc, Hd. simpl.
    rewrite andb_true_r. apply Z.ltb_lt. apply ceil_div_pos; [reflexivity | lia].
Qed.

(** C4, as stated, fails for an invoice that is partially paid past its due
    date: 40.00 paid on the 110.00 invoice of scenario B one millisecond
    after it fell due leaves a balance above zero, past the due date, on an
    invoice that is neither paid nor cancelled before or after the payment,
    and the status is partially_paid, not overdue. *)
Lemma partially_paid_invoice_past_due_not_overdue :
  (0 < balance_due (totals (addPayment (dueB + 1) 40 scenarioB)))%Q /\
  due_date (addPayment (dueB + 1) 40 scenarioB) = Some dueB /\
  (dueB < dueB + 1)%Z /\
  status scenarioB = draft /\
  status (addPayment (dueB + 1) 40 scenarioB) = partially_paid /\
  status (addPayment (dueB + 1) 40 scenarioB) <> overdue.
Proof. vm_compute. repeat split; discriminate. Qed.

(** C4 (amended): the status after a payment is applied, by the first rule
    that fits, with the totals and the due date read from the saved
    invoice.  Balance <= 0 and paid > 0 give paid, and [paid_at] keeps an
    earlier stamp or takes the instant of the save.  0 < paid < total gives
    partially_paid, past the due date too.  With nothing paid (paid <= 0)
    the invoice becomes overdue if the due date has passed and it was
    neither paid nor cancelled before, and keeps the status it had
    otherwise; so overdue is never the status after a payment that leaves
    paid > 0.  Payments of 40.00 and then 70.00 on the 110.00 invoice of
    scenario B take it from draft to partially_paid to paid, with 110.00
    paid. *)
Theorem status_rederivation_after_payment :
  (forall (now : Z) (amount : Q) (inv : invoice),
     ((balance_due (totals (addPayment now amount inv)) <= 0)%Q ->
      (0 < paid_amount (totals (addPayment now amount inv)))%Q ->
      status (addPayment now amount inv) = paid /\
      paid_at (addPayment now amount inv) =
        match paid_at inv with Some t => Some t | None => Some now end) /\
     ((0 < paid_amount (totals (addPayment now amount inv)))%Q ->
      (paid_amount (totals (addPayment now amount inv))
         < total_amount (totals (addPayment now amount inv)))%Q ->
      status (addPayment now amount inv) = partially_paid) /\
     ((paid_amount (totals (addPayment now amount inv)) <= 0)%Q ->
      (exists due, due_date (addPayment now amount inv) = Some due /\ (due < now)%Z) ->
      status inv <> paid -> status inv <> cancelled ->
      status (addPayment now amount inv) = overdue) /\
     ((paid_amount (totals (addPayment now amount inv)) <= 0)%Q ->
      status inv = paid \/ status inv = cancelled \/
      (forall due, due_date (addPayment now amount inv) = Some due -> (now <= due)%Z) ->
      status (addPayment now amount inv) = status inv) /\
     ((0 < paid_amount (totals (addPayment now amount inv)))%Q ->
      status (addPayment now amount inv) <> overdue)) /\
  (forall t1 t2 : Z,
     status scenarioB = draft /\
     total_amount (totals scenarioB) == 110 /\
     status (addPayment t1 40 scenarioB) = partially_paid /\
     status (addPayment t2 70 (addPayment t1 40 scenarioB)) = paid /\
     paid_amount (totals (addPayment t2 70 (addPayment t1 40 scenarioB))) == 110 /\
     paid_at (addPayment t2 70 (addPayment t1 40 scenarioB)) = Some t2).
Proof.
  split.
  - intros now amount inv.
    pose proof (balance_due_after_mutation now (MAddPayment amount) inv) as Hbal.
    simpl in Hbal. revert Hbal. unfold addPayment, save.
    set (inv0 := set_totals inv _).
    destruct (pre_save_derives now inv0) as (inv1 & -> & Ht & Hd & Hs & Hp).
    rewrite derive_status_totals, derive_status_due_date.
    change (status inv0) with (status inv) in Hs.
    change (paid_at inv0) with (paid_at inv) in Hp.
    intros Hbal. rewrite <- Hs, <- Hp.
    split; [|split; [|split; [|split]]].
    + intros Hb Hpos. apply derive_status_paid; assumption.
    + intros H1 H2. apply derive_status_partially_paid; [assumption|].
      rewrite Hbal. lra.
    + intros Hle (due & Hdue & Hlt) Hnp Hnc.
      apply (derive_status_overdue now inv1 due); assumption.
    + intros Hle Hcase.
      rewrite derive_status_unpaid by lra.
      destruct (is_overdue now inv1) eqn:Eo; [|reflexivity].
      apply is_overdue_spec in Eo. destruct Eo as (Hnp & Hnc & due & Hdue & Hlt).
      destruct Hcase as [Hc | [Hc | Hc]]; [contradiction | contradiction |].
      specialize (Hc due Hdue). lia.
    + intros Hpos.
      destruct (Qlt_le_dec 0 (balance_due (totals inv1))) as [Hb|Hb].
      * rewrite (derive_status_partially_paid now inv1 Hpos Hb). discriminate.
      * destruct (derive_status_paid now inv1 Hb Hpos) as [-> _]. discriminate.
  - intros t1 t2. vm_compute. repeat split.
Qed.

(** The rules of [status_rederivation_after_payment] at work on scenario B:
    a payment of 110.00, a payment of 40.00, one of 40.00 past the due date,
    and, with nothing paid, a payment of nothing recorded one millisecond
    past the due date and one recorded before it. *)
Lemma status_rederivation_after_payment_witness :
  status (addPayment 1 110 scenarioB) = paid /\
  paid_at (addPayment 1 110 scenarioB) = Some 1%Z /\
  status (addPayment 1 40 scenarioB) = partially_paid /\
  status (addPayment (dueB + 1) 40 scenarioB) <> overdue /\
  status (addPayment (dueB + 1) 0 (send 1 scenarioB)) = overdue /\
  status (addPayment 1 0 scenarioB) = draft.
Proof.
  pose proof (proj1 status_rederivation_after_payment) as H.
  destruct (H 1%Z 110%Q scenarioB) as (Hpaid & _).
  destruct (H 1%Z 40%Q scenarioB) as (_ & Hpart & _).
  destruct (H (dueB + 1)%Z 40%Q scenarioB) as (_ & _ & _ & _ & Hnot).
  destruct (H (dueB + 1)%Z 0%Q (send 1 scenarioB)) as (_ & _ & Hover & _).
  destruct (H 1%Z 0%Q scenarioB) as (_ & _ & _ & Hkeep & _).
  split; [|split; [|split; [|split; [|split]]]].
  - apply Hpaid; vm_compute; [discriminate | reflexivity].
  - apply Hpaid; vm_compute; [discriminate | reflexivity].
  - apply Hpart; vm_compute; reflexivity.
  - apply Hnot. vm_compute. reflexivity.
  - apply Hover.
    + vm_compute. discriminate.
    + exists dueB. split; [reflexivity | vm_compute; reflexivity].
    + vm_compute. discriminate.
    + vm_compute. discriminate.
  - apply Hkeep.
    + vm_compute. discriminate.
    + right. right. intros due Hdue. vm_compute in Hdue.
      inversion Hdue; subst. vm_compute. discriminate.
Defined.

End StatusDerivation.

(** * Properties of the payment model *)

Section RefundClaims.
Import PaymentModel Scenarios.

Lemma payment_status_eqb_eq (a b : payment_status) :
  status_eqb a b = true <-> a = b.
Proof. destruct a, b; simpl; split; congruence. Qed.

(** [save()] writes into [payments] only. *)
Lemma save_keeps_invoices other id p db :
  invoices (fst (PaymentDocument.save other id p db)) = invoices db.
Proof.
  unfold PaymentDocument.save.
  destruct (negb (PaymentDocument.validate other p)); [reflexivity|].
  destruct (Qgtb (refund_amount p) (amount p)); reflexivity.
Qed.

(** What [save()] stores has passed the validators and the hook. *)
Lemma save_saved other id p db db' p' :
  PaymentDocument.save other id p db = (db', Saved p') ->
  p' = p /\
  db' = mkCollections (invoices db) (<[id := p]> (payments db)) /\
  PaymentDocument.validate other p = true /\
  (refund_amount p <= amount p)%Q.
Proof.
  unfold PaymentDocument.save.
  destruct (PaymentDocument.validate other p) eqn:Ev; simpl; [|discriminate].
  destruct (Qgtb (refund_amount p) (amount p)) eqn:Eh; [discriminate|].
  intros H. inversion H; subst. apply Qltb_ge in Eh. repeat split; assumption.
Qed.

Lemma save_accepts other id p db :
  PaymentDocument.validate other p = true ->
  (refund_amount p <= amount p)%Q ->
  PaymentDocument.save other id p db
  = (mkCollections (invoices db) (<[id := p]> (payments db)), Saved p).
Proof.
  intros Hv Hle. unfold PaymentDocument.save. rewrite Hv. simpl.
  apply Qltb_ge in Hle. unfold Qgtb. rewrite Hle. reflexivity.
Qed.

Lemma validate_amounts other p :
  PaymentDocument.validate other p = true ->
  (0 <= amount p)%Q /\ (0 <= refund_amount p)%Q.
Proof.
  unfold PaymentDocument.validate. rewrite !andb_true_iff.
  intros (((((_ & _) & _) & Ha) & Hr) & _).
  apply Qleb_le in Ha, Hr. split; assumption.
Qed.

(** C6, as stated, fails on a payment that has not completed: a refund of
    30.00 on the pending payment of 100.00, of which nothing is refunded, is
    within amount - refundAmount and is thrown out all the same. *)
Lemma refund_refused_within_remaining_amount :
  status pending_payment = pending /\
  ~ (amount pending_payment - refund_amount pending_payment < 30)%Q /\
  PaymentDocument.refund Qplus Qminus true 9 30 "duplicate" "user-1"
    "payment-2" pending_payment collections0
  = (collections0, Thrown "Refund amount cannot exceed refundable amount").
Proof.
  split; [reflexivity|]. split; [vm_compute; discriminate | reflexivity].
Qed.

(** C6 (amended): [refund] is thrown out exactly when the amount is above
    the refundable amount, which is payment.amount - refundAmount, as the
    subtraction on Numbers gives it, for a completed payment and 0 for a
    payment in any other status.  Otherwise the document goes to [save()]
    with refundAmount + amount as its refunded amount: it is saved if it
    passes the validators and the hook (the refunded amount is not negative
    and not above the payment amount) and refused if not.  A saved document
    has 0 <= refund_amount <= amount, status refunded exactly when the
    refunded amount equals the amount and partially_refunded exactly when it
    is below.  No refund, saved, refused or thrown out, changes an
    invoice. *)
Theorem refund_on_completed_payment :
  forall (add sub : Q -> Q -> Q) (other : bool) (now : Z) (a : Q)
         (reason refundedBy _id : string) (p : payment) (db : collections),
    (PaymentDocument.refund add sub other now a reason refundedBy _id p db
       = (db, Thrown "Refund amount cannot exceed refundable amount")
     <-> (PaymentDocument.refundable_amount sub p < a)%Q) /\
    (status p = completed ->
     PaymentDocument.refundable_amount sub p = sub (amount p) (refund_amount p)) /\
    (status p <> completed -> PaymentDocument.refundable_amount sub p = 0%Q) /\
    (~ (PaymentDocument.refundable_amount sub p < a)%Q ->
     PaymentDocument.validate other p = true ->
     ((0 <= add (refund_amount p) a)%Q /\ (add (refund_amount p) a <= amount p)%Q
      <-> exists db' p',
            PaymentDocument.refund add sub other now a reason refundedBy _id p db
            = (db', Saved p'))) /\
    (forall db' p',
       PaymentDocument.refund add sub other now a reason refundedBy _id p db
         = (db', Saved p') ->
       refund_amount p' = add (refund_amount p) a /\
       amount p' = amount p /\
       invoice_id p' = invoice_id p /\
       (0 <= refund_amount p')%Q /\ (refund_amount p' <= amount p')%Q /\
       (status p' = refunded <-> refund_amount p' == amount p') /\
       (status p' = partially_refunded <-> (refund_amount p' < amount p')%Q) /\
       payments db' !! _id = Some p') /\
    invoices (fst (PaymentDocument.refund add sub other now a reason refundedBy
                     _id p db))
    = invoices db.
Proof.
  intros add sub other now a reason refundedBy _id p db.
  set (p1 := mkPayment (tenant_id p) (invoice_id p) (payment_number p) (amount p)
               (if Qgeb (add (refund_amount p) a) (amount p) then refunded
                else partially_refunded)
               (processed_at p) (processed_by p)
               (add (refund_amount p) a) (Some reason) (Some now) (Some refundedBy)
               (allocation p) (notes_internal p) (deleted_at p)).
  assert (Hrun : PaymentDocument.refund add sub other now a reason refundedBy _id p db
                 = if Qgtb a (PaymentDocument.refundable_amount sub p)
                   then (db, Thrown "Refund amount cannot exceed refundable amount")
                   else PaymentDocument.save other _id p1 db) by reflexivity.
  rewrite Hrun. clear Hrun.
  split; [|split; [|split; [|split; [|split]]]].
  - destruct (Qgtb a (PaymentDocument.refundable_amount sub p)) eqn:Eg.
    + apply Qgtb_gt in Eg. split; [intros _; exact Eg | reflexivity].
    + split.
      * unfold PaymentDocument.save.
        destruct (negb (PaymentDocument.validate other p1)); [discriminate|].
        destruct (Qgtb (refund_amount p1) (amount p1)); discriminate.
      * intros Hlt. apply Qgtb_gt in Hlt. unfold Qgtb in Eg, Hlt. congruence.
  - intros Hs. unfold PaymentDocument.refundable_amount. rewrite Hs. reflexivity.
  - intros Hs. unfold PaymentDocument.refundable_amount.
    destruct (status_eqb (status p) completed) eqn:E; [|reflexivity].
    apply payment_status_eqb_eq in E. contradiction.
  - intros Hn Hv.
    assert (Qgtb a (PaymentDocument.refundable_amount sub p) = false) as ->.
    { apply Qltb_ge. apply Qnot_lt_le. exact Hn. }
    split.
    + intros [H0 Hle]. do 2 eexists. apply save_accepts; [|exact Hle].
      revert Hv. unfold PaymentDocument.validate. subst p1.
      cbn [payment_number amount refund_amount allocation].
      rewrite !andb_true_iff. intros (((((Ho & Hn1) & Hn2) & Ha) & _) & Hal).
      repeat split; try assumption. apply Qleb_le. exact H0.
    + intros (db' & p' & Hs). apply save_saved in Hs.
      destruct Hs as (_ & _ & Hv1 & Hle).
      apply validate_amounts in Hv1. destruct Hv1 as [_ H0].
      split; [exact H0 | exact Hle].
  - intros db' p'.
    destruct (Qgtb a (PaymentDocument.refundable_amount sub p)); [discriminate|].
    intros Hs. apply save_saved in Hs. destruct Hs as (-> & -> & Hv & Hle).
    apply validate_amounts in Hv. destruct Hv as [_ H0].
    subst p1. cbn [refund_amount amount] in H0, Hle.
    cbn [refund_amount amount invoice_id status payments].
    split; [reflexivity|]. split; [reflexivity|]. split; [reflexivity|].
    split; [exact H0|]. split; [exact Hle|]. split; [|split].
    + destruct (Qgeb (add (refund_amount p) a) (amount p)) eqn:E.
      * apply Qleb_le in E. split; [intros _; lra | reflexivity].
      * apply Qleb_gt in E. split; [discriminate | intros H; lra].
    + destruct (Qgeb (add (refund_amount p) a) (amount p)) eqn:E.
      * apply Qleb_le in E. split; [discriminate | intros H; lra].
      * apply Qleb_gt in E. split; [intros _; exact E | reflexivity].
    + apply lookup_insert_eq.
  - destruct (Qgtb a (PaymentDocument.refundable_amount sub p)); [reflexivity|].
    apply save_keeps_invoices.
Qed.

(** [refund_on_completed_payment] on scenario E, with sums and differences
    that are exact: 30.00 refunded on the completed payment of 110.00 is
    stored as partially_refunded, and a refund of 120.00 on it is thrown
    out; scenario B's invoice is untouched. *)
Lemma refund_on_completed_payment_witness :
  (exists db' p',
     PaymentDocument.refund Qplus Qminus true 9 30 "duplicate" "user-1"
       "payment-1" completed_payment collections0 = (db', Saved p') /\
     refund_amount p' == 30 /\ status p' = partially_refunded /\
     invoices db' = invoices collections0) /\
  PaymentDocument.refund Qplus Qminus true 9 120 "duplicate" "user-1"
    "payment-1" completed_payment collections0
  = (collections0, Thrown "Refund amount cannot exceed refundable amount").
Proof.
  destruct (refund_on_completed_payment Qplus Qminus true 9 30 "duplicate"
              "user-1" "payment-1" completed_payment collections0)
    as (_ & _ & _ & Hsave & Hsaved & Hinv).
  destruct (refund_on_completed_payment Qplus Qminus true 9 120 "duplicate"
              "user-1" "payment-1" completed_payment collections0)
    as (Hthrow & _).
  split.
  - destruct Hsave as [Hs _].
    + vm_compute. discriminate.
    + reflexivity.
    + destruct Hs as (db' & p' & Hr).
      * split; vm_compute; discriminate.
      * destruct (Hsaved db' p' Hr) as (Ha & Hamt & _ & _ & _ & _ & Hpart & _).
        exists db', p'. split; [exact Hr|]. split; [|split].
        -- rewrite Ha. vm_compute. reflexivity.
        -- apply Hpart. rewrite Ha, Hamt. vm_compute. reflexivity.
        -- rewrite Hr in Hinv. exact Hinv.
  - apply Hthrow. vm_compute. reflexivity.
Defined.

(** C5, as stated, fails at the transition to a successful payment:
    [process] takes the pending payment of 100.00 against scenario B's
    invoice to completed, and the invoice is stored as before, with nothing
    paid and its status draft. *)
Lemma processed_payment_not_applied_to_invoice :
  invoice_id pending_payment = Some "invoice-1" /\
  invoices collections0 !! "invoice-1" = Some scenarioB /\
  InvoiceModel.paid_amount (InvoiceModel.totals scenarioB) == 0 /\
  InvoiceModel.status scenarioB = InvoiceModel.draft /\
  exists db' p',
    PaymentDocument.process true 5 "user-1" "payment-2" pending_payment collections0
      = (db', Saved p') /\
    status p' = completed /\
    invoices db' !! "invoice-1" = Some scenarioB.
Proof.
  split; [reflexivity|]. split; [reflexivity|]. split; [reflexivity|].
  split; [reflexivity|].
  do 2 eexists. split; [reflexivity|]. split; reflexivity.
Qed.

(** C5 (amended): a payment document starts in status pending unless a
    status is given.  No method of a payment applies its amount to an
    invoice: whatever [process], [fail], [cancel], [refund],
    [allocateToInvoice], [softDelete] and [restore] end in, the invoices
    are the ones they started with.  [process], the transition to completed, is saved for a document
    that passes the validators and whose refunded amount is within its
    amount: it stores the payment as completed, with the instant and the
    user of the processing, and leaves its amount and its invoice link
    alone. *)
Theorem payment_transitions_leave_invoices :
  (forall (tenantId : string) (invoiceId : option string) (paymentNumber : string)
          (amount_ : Q),
     status (PaymentDocument.new_payment tenantId invoiceId paymentNumber amount_ None)
     = pending) /\
  (forall (add sub : Q -> Q -> Q) (other : bool) (now : Z)
          (m : PaymentDocument.method) (_id : string) (p : payment)
          (db : collections),
     invoices (fst (PaymentDocument.call add sub other now m _id p db))
     = invoices db) /\
  (forall (other : bool) (now : Z) (processedBy _id : string) (p : payment)
          (db : collections),
     PaymentDocument.validate other p = true ->
     (refund_amount p <= amount p)%Q ->
     exists p',
       PaymentDocument.process other now processedBy _id p db
         = (mkCollections (invoices db) (<[_id := p']> (payments db)), Saved p') /\
       status p' = completed /\
       processed_at p' = Some now /\ processed_by p' = Some processedBy /\
       amount p' = amount p /\ invoice_id p' = invoice_id p).
Proof.
  split; [reflexivity|]. split.
  - intros add sub other now m _id p db.
    destruct m; cbn [PaymentDocument.call];
      try apply save_keeps_invoices.
    unfold PaymentDocument.refund.
    destruct (Qgtb refundAmount (PaymentDocument.refundable_amount sub p));
      [reflexivity | apply save_keeps_invoices].
  - intros other now processedBy _id p db Hv Hle.
    eexists. split.
    + unfold PaymentDocument.process. apply save_accepts; [|exact Hle].
      exact Hv.
    + repeat split.
Qed.

(** [payment_transitions_leave_invoices] on the pending payment of 100.00
    against scenario B's invoice. *)
Lemma payment_transitions_leave_invoices_witness :
  exists p',
    snd (PaymentDocument.process true 5 "user-1" "payment-2" pending_payment
           collections0) = Saved p' /\
    status p' = completed.
Proof.
  destruct (proj2 (proj2 payment_transitions_leave_invoices) true 5%Z "user-1"
              "payment-2" pending_payment collections0)
    as (p' & Hr & Hs & _).
  - reflexivity.
  - vm_compute. discriminate.
  - exists p'. rewrite Hr. split; [reflexivity | exact Hs].
Defined.

End RefundClaims.

(** * Properties of the service *)

Section ServiceFacts.
Import Service Scenarios.

(** What each statement writes. *)

Lemma createBillingEvent_spec tenantId ty data st :
  fits_varchar 50 ty = true ->
  tenant_check tenantId st = true ->
  existsb (Nat.eqb tenantId) (tenants st) = true ->
  exists ev,
    createBillingEvent tenantId ty data st
      = (with_events (with_next_uuid st (S (next_uuid st)))
           (billing_events st ++ [ev]), Ok tt) /\
    ev_tenantId ev = tenantId /\ eventType ev = ty /\ eventData ev = data.
Proof.
  intros Hty Hcheck Hfk. eexists. unfold createBillingEvent.
  rewrite Hty, Hcheck, Hfk. simpl. repeat split.
Qed.

Lemma createBillingEvent_tenant_subscriptions tenantId ty data st :
  tenant_subscriptions (fst (createBillingEvent tenantId ty data st))
  = tenant_subscriptions st.
Proof.
  unfold createBillingEvent.
  repeat match goal with
         | |- context [if ?c then _ else _] => destruct c; [reflexivity|]
         end.
  reflexivity.
Qed.


Lemma insert_tenant_subscription_err tenant_id plan_id status s e trial cycle
      price currency renew next st st' err :
  insert_tenant_subscription tenant_id plan_id status s e trial cycle price
    currency renew next st = (st', Err err) -> st' = st.
Proof.
  unfold insert_tenant_subscription.
  repeat match goal with
         | |- context [if ?c then _ else _] =>
             destruct c; [intros H; inversion H; reflexivity|]
         end.
  discriminate.
Qed.

Lemma insert_tenant_subscription_ok tenant_id plan_id status s e trial cycle
      price currency renew next st st' row :
  insert_tenant_subscription tenant_id plan_id status s e trial cycle price
    currency renew next st = (st', Ok row) ->
  existsb (fun ts => Nat.eqb (sub_tenantId ts) tenant_id)
          (tenant_subscriptions st) = false /\
  tenant_check tenant_id st = true /\
  existsb (Nat.eqb tenant_id) (tenants st) = true /\
  row = mkSubscription (next_uuid st) tenant_id plan_id status s e trial None
          cycle price currency renew (Some next) /\
  st' = with_subscriptions (with_next_uuid st (S (next_uuid st)))
          (tenant_subscriptions st ++ [row]).
Proof.
  unfold insert_tenant_subscription.
  destruct (negb (_ && _ && _)); [discriminate|].
  destruct (tenant_check tenant_id st); [|discriminate].
  destruct (existsb _ (tenant_subscriptions st)); [discriminate|].
  destruct (existsb (Nat.eqb tenant_id) (tenants st)); [|discriminate].
  destruct (negb (existsb _ (subscription_plans st))); [discriminate|].
  cbn. intros H. inversion H. repeat split.
Qed.

(** [generate_payment_number] raises for every tenant and every table of
    payments: its sum has a [text] operand. *)
Lemma generate_payment_number_raises (tenant : uuid) (st : Store) :
  generate_payment_number tenant st
  = Err (DatabaseError "operator does not exist").
Proof. reflexivity. Qed.

(** So the [INSERT] of [createPayment] is refused, and writes nothing. *)
Lemma insert_payment_refused tenant_id invoice_id customer_id subscription_id a
      currency description payment_method_id processed_by st :
  insert_payment tenant_id invoice_id customer_id subscription_id a currency
    description payment_method_id processed_by st
  = (st, Err (DatabaseError "operator does not exist")).
Proof. reflexivity. Qed.

Lemma createPayment_refused (pd : PaymentData) (st : Store) :
  createPayment pd st = (st, Err (DatabaseError "operator does not exist")).
Proof. reflexivity. Qed.


End ServiceFacts.

Section TenantIsolation.
Import Service Scenarios.


(** The query of [getInvoice] never looks at the tenant: the answer is the
    same whoever asks. *)
Lemma getInvoice_ignores_tenant (t1 t2 : Controller.Tenant) (id : uuid) (st : Store) :
  Controller.getInvoice (Controller.mkRequest t1 id) st
  = Controller.getInvoice (Controller.mkRequest t2 id) st.
Proof. reflexivity. Qed.

(** The sibling listing is tenant-scoped. *)
Lemma getInvoices_only_own_rows (tenantId : uuid) (status : option string)
      (st : Store) (rows : list Invoice) :
  snd (getInvoices tenantId status st) = Ok rows ->
  Forall (fun i => inv_tenantId i = tenantId) rows.
Proof.
  unfold getInvoices. simpl. intros H. inversion H; subst.
  apply List.Forall_forall. intros i Hi. apply filter_In in Hi.
  destruct Hi as [_ Hi].
  apply andb_true_iff in Hi. destruct Hi as [Hi _].
  apply andb_true_iff in Hi. destruct Hi as [Hi _].
  apply Nat.eqb_eq. exact Hi.
Qed.

End TenantIsolation.

Section SubscriptionClaims.
Import Service Scenarios.

(** C8 at its failing input: tenant B subscribes to 'basic', monthly, with no
    trial days, at any instant [now] and under any calendar.  The stored
    subscription is active with no trial end and the event
    subscription.created is logged, but its current period ends at [now],
    the instant it starts; the date one month ahead is stored as the next
    billing date instead. *)
Theorem createSubscription_period_ends_when_it_starts :
  forall (D : DateLib) (now : Z),
    exists st' row,
      createSubscription D now (mkSubscriptionData tenantB 100 "monthly" None) store0
        = (st', Ok row) /\
      sub_status row = "active" /\
      trialEnd row = None /\
      currentPeriodStart row = now /\
      currentPeriodEnd row = now /\
      nextBillingAt row
        = Some (newDate D (getFullYear D now) (getMonth D now + 1) (getDate D now)) /\
      List.map eventType (billing_events st') = ["subscription.created"].
Proof.
  intros D now.
  unfold createSubscription, bind, getPlanById, insert_tenant_subscription,
    createBillingEvent, ret, store0. simpl.
  eexists. eexists. split; [reflexivity|].
  simpl. repeat split.
Qed.

(** With trial days the period end is the trial end, for either cycle; the
    yearly date too goes to the next billing date. *)
Lemma createSubscription_trial_period_is_trial (D : DateLib) (now days : Z) :
  days <> 0%Z ->
  exists st' row,
    createSubscription D now (mkSubscriptionData tenantB 100 "yearly" (Some days)) store0
      = (st', Ok row) /\
    sub_status row = "trial" /\
    trialEnd row = Some (now + days * 24 * 60 * 60 * 1000)%Z /\
    currentPeriodEnd row = (now + days * 24 * 60 * 60 * 1000)%Z /\
    nextBillingAt row
      = Some (newDate D (getFullYear D now + 1) (getMonth D now) (getDate D now)).
Proof.
  intros Hd.
  unfold createSubscription, bind, getPlanById, insert_tenant_subscription,
    createBillingEvent, ret, truthy, store0. simpl.
  assert ((days =? 0)%Z = false) as -> by (apply Z.eqb_neq; exact Hd).
  simpl. eexists. eexists. split; [reflexivity|]. simpl. repeat split.
Qed.

End SubscriptionClaims.

Section UsageClaims.
Import Service Scenarios.


(** The samples the database takes in: an [INTEGER] value, a type and a unit
    that fit their columns, a period that ends after it starts, a tenant
    that exists and passes the tenant check, and a subscription that exists
    if one is named. *)
Lemma insert_usage_metric_accepts tenant_id subscription_id metric_type
      metric_value metric_unit period_start period_end st :
  fits_integer metric_value = true ->
  fits_varchar 50 metric_type = true ->
  fits_varchar 20 metric_unit = true ->
  (period_start < period_end)%Z ->
  tenant_check tenant_id st = true ->
  existsb (Nat.eqb tenant_id) (tenants st) = true ->
  references sub_id (tenant_subscriptions st) subscription_id = true ->
  insert_usage_metric tenant_id subscription_id metric_type metric_value
    metric_unit period_start period_end st
  = (with_usage (with_next_uuid st (S (next_uuid st)))
       (usage_metrics st ++
          [mkUsage (next_uuid st) tenant_id subscription_id metric_type
                   metric_value metric_unit period_start period_end]),
     Ok tt).
Proof.
  intros Hi Ht Hu Hp Hc Hf Hr. unfold insert_usage_metric.
  rewrite Hi, Ht, Hu, Hc, Hf, Hr.
  assert ((period_start <? period_end)%Z = true) as -> by (apply Z.ltb_lt; exact Hp).
  reflexivity.
Qed.





End UsageClaims.

(** * Concurrent payments *)

Section ConcurrentPayments.
Import Service Concurrent Scenarios.

(** A request that has stored nothing stores nothing by its next step: its
    INSERT is refused. *)
Lemma step_stored_nothing (t : task) (st : Store) :
  stored_nothing t = true ->
  fst (step t st) = st /\ stored_nothing (snd (step t st)) = true.
Proof.
  destruct t as [pd | pd row | pd row | [row|e]]; try discriminate;
    intros _; split; reflexivity.
Qed.

Lemma run_stored_nothing (schedule : list nat) :
  forall (ts : list task) (st : Store),
    Forall (fun t => stored_nothing t = true) ts ->
    snd (run schedule ts st) = st /\
    Forall (fun t => stored_nothing t = true) (fst (run schedule ts st)).
Proof.
  induction schedule as [|i rest IH]; intros ts st Hall; [split; [reflexivity | exact Hall]|].
  cbn [run]. destruct (ts !! i) as [t|] eqn:Ei; [|apply IH; exact Hall].
  assert (Ht : stored_nothing t = true).
  { rewrite List.Forall_forall in Hall. apply Hall.
    apply list_elem_of_In. eapply list_elem_of_lookup_2. exact Ei. }
  destruct (step_stored_nothing t st Ht) as [Hst Hnext].
  destruct (step t st) as [st' t'] eqn:Es. simpl in Hst, Hnext. subst st'.
  apply IH. apply Forall_insert; assumption.
Qed.

Lemma stored_nothing_not_succeeded (t : task) :
  stored_nothing t = true -> succeeded t = false.
Proof. destruct t as [pd | pd row | pd row | [row|e]]; simpl; congruence. Qed.

(** C10 at its failing input, and on every other: requests that record
    payments, run along any schedule, store no payment and leave every
    invoice as it was, and none of them succeeds, since the INSERT of each
    is refused.  Two requests paying 55.00 each against invoice 200 of
    110.00 both end in the error of [generate_payment_number], and the
    invoice has 0 paid, not 110.00. *)
Theorem concurrent_payments_are_never_applied :
  (forall (schedule : list nat) (pds : list PaymentData) (st : Store),
     snd (run schedule (List.map Start pds) st) = st /\
     Forall (fun t => succeeded t = false)
            (fst (run schedule (List.map Start pds) st))) /\
  totalAmount invoiceA == 110 /\
  fst (run interleaved (List.map Start two_payments) store0)
    = [Finished (Err (DatabaseError "operator does not exist"));
       Finished (Err (DatabaseError "operator does not exist"))] /\
  paid_amount_of 200 (snd (run interleaved (List.map Start two_payments) store0))
    = Some 0%Q.
Proof.
  split; [|split; [reflexivity | split; reflexivity]].
  intros schedule pds st.
  destruct (run_stored_nothing schedule (List.map Start pds) st) as [Hst Hall].
  - apply List.Forall_forall. intros t Ht. apply in_map_iff in Ht.
    destruct Ht as (pd & <- & _). reflexivity.
  - split; [exact Hst|].
    eapply List.Forall_impl; [|exact Hall].
    intros t. apply stored_nothing_not_succeeded.
Qed.

End ConcurrentPayments.

(** * Statements that the store fails *)

Section FailedStatements.
Import Service Scenarios.

(** The functions written as their statements are the functions of the
    service. *)
Lemma run_createSubscription (D : DateLib) (now : Z) (sd : SubscriptionData)
      (st : Store) :
  Faults.run (Faults.createSubscription D now sd) st = createSubscription D now sd st.
Proof.
  unfold Faults.createSubscription, createSubscription.
  cbn [Faults.run]. unfold bind, getPlanById.
  destruct (List.find _ (subscription_plans st)); reflexivity.
Qed.

Lemma run_createPayment (pd : PaymentData) (st : Store) :
  Faults.run (Faults.createPayment pd) st = createPayment pd st.
Proof. reflexivity. Qed.

Lemma run_checkUsageLimits (tenantId : uuid) (metricType : string)
      (currentValue : Z) (st : Store) :
  Faults.run (Faults.checkUsageLimits tenantId metricType currentValue) st
  = checkUsageLimits tenantId metricType currentValue st.
Proof.
  unfold Faults.checkUsageLimits, checkUsageLimits.
  cbn [Faults.run]. unfold bind, getTenantSubscription.
  destruct (List.head _) as [[sub plan]|]; [|reflexivity].
  destruct (limits plan !! metricType) as [limit|]; [|reflexivity].
  destruct (negb (limit =? 0)%Z && (0 <? limit)%Z && (limit <? currentValue)%Z);
    [|reflexivity].
  cbn [Faults.run]. unfold bind, ret.
  destruct (createBillingEvent _ _ _ st) as [st' [[]|e]]; reflexivity.
Qed.

Lemma run_recordUsageMetric (md : MetricData) (st : Store) :
  Faults.run (Faults.recordUsageMetric md) st = recordUsageMetric md st.
Proof.
  unfold Faults.recordUsageMetric, recordUsageMetric.
  cbn [Faults.run]. unfold bind.
  destruct (insert_usage_metric _ _ _ _ _ _ _ st) as [st1 [u|e]]; [|reflexivity].
  apply run_checkUsageLimits.
Qed.

(** A store that fails no statement runs the function. *)
Lemma run_with_no_fault {A} (p : Faults.Prog A) :
  forall (n : nat) (st : Store),
    Faults.run_with p (repeat false n) st = Faults.run p st.
Proof.
  induction p as [a | e | B statement k IH]; intros n st; [reflexivity | reflexivity |].
  destruct n as [|n]; cbn [repeat Faults.run_with Faults.run]; unfold bind;
    destruct (statement st) as [st' [b|e]]; try reflexivity.
  - apply (IH b 0%nat).
  - apply IH.
Qed.

(** A store that fails the statement after the first [n]: the statements
    before it have run and stay, the failed one and those after it write
    nothing. *)
Lemma run_with_fault_after {A} (p : Faults.Prog A) :
  forall (n : nat) (later : list bool) (st : Store),
    Faults.run_with p (repeat false n ++ true :: later) st
    = match Faults.first_statements n p st with
      | (st', Some r) => (st', r)
      | (st', None) => (st', Err ConnectionError)
      end.
Proof.
  induction p as [a | e | B statement k IH]; intros n later st;
    [destruct n; reflexivity | destruct n; reflexivity |].
  destruct n as [|n].
  - reflexivity.
  - cbn [repeat app Faults.run_with Faults.first_statements]. unfold bind.
    destruct (statement st) as [st' [b|e]]; [apply IH | reflexivity].
Qed.

(** C9, as stated, fails: tenant A records a sample of 501 patients against
    the limit of 500, and the store fails the second statement of the call,
    the SELECT of the tenant's subscription.  The call is rejected, and the
    sample that the first statement wrote is stored all the same; the event
    that the call logs on a store without failures is not. *)
Lemma usage_sample_stored_though_call_failed :
  snd (Faults.run_with (Faults.recordUsageMetric (patients_sample 501))
         [false; true] store0)
    = Err ConnectionError /\
  usage_metrics store0 = [] /\
  List.map metricValue
    (usage_metrics
       (fst (Faults.run_with (Faults.recordUsageMetric (patients_sample 501))
               [false; true] store0)))
    = [501%Z] /\
  billing_events
    (fst (Faults.run_with (Faults.recordUsageMetric (patients_sample 501))
            [false; true] store0))
    = [] /\
  List.map eventType
    (billing_events (fst (recordUsageMetric (patients_sample 501) store0)))
    = ["usage_limit_exceeded"].
Proof. repeat split. Qed.

(** C9 (amended): the service issues the statements of a call one after the
    other, each committed on its own, with no transaction around them.  On
    a store that fails no statement the call runs as the function of the
    service.  When the store fails a statement, the call is rejected at
    once with that failure; the statements before it have run and what they
    wrote stays, and no statement after it is issued.  So a failure of the
    first statement leaves the store as it was; a failure of the SELECT that
    follows the INSERT of [recordUsageMetric] leaves the sample stored, with
    the events as they were; and a failure of the INSERT of the event in
    [createSubscription] leaves the new subscription row stored, with the
    events as they were. *)
Theorem store_failure_keeps_earlier_statements :
  (forall (D : DateLib) (now : Z) (sd : SubscriptionData) (pd : PaymentData)
          (md : MetricData) (n : nat) (st : Store),
     Faults.run_with (Faults.createSubscription D now sd) (repeat false n) st
       = createSubscription D now sd st /\
     Faults.run_with (Faults.createPayment pd) (repeat false n) st
       = createPayment pd st /\
     Faults.run_with (Faults.recordUsageMetric md) (repeat false n) st
       = recordUsageMetric md st) /\
  (forall (A : Type) (p : Faults.Prog A) (n : nat) (later : list bool) (st : Store),
     Faults.run_with p (repeat false n ++ true :: later) st
     = match Faults.first_statements n p st with
       | (st', Some r) => (st', r)
       | (st', None) => (st', Err ConnectionError)
       end) /\
  (forall (A B : Type) (statement : Exec B) (k : B -> Faults.Prog A)
          (later : list bool) (st : Store),
     Faults.run_with (Faults.Query statement k) (true :: later) st
     = (st, Err ConnectionError)) /\
  (forall (md : MetricData) (later : list bool) (st : Store),
     fits_integer (md_metricValue md) = true ->
     fits_varchar 50 (md_metricType md) = true ->
     fits_varchar 20 (md_metricUnit md) = true ->
     (md_periodStart md < md_periodEnd md)%Z ->
     tenant_check (md_tenantId md) st = true ->
     existsb (Nat.eqb (md_tenantId md)) (tenants st) = true ->
     references sub_id (tenant_subscriptions st) (md_subscriptionId md) = true ->
     exists st',
       Faults.run_with (Faults.recordUsageMetric md) (false :: true :: later) st
         = (st', Err ConnectionError) /\
       usage_metrics st'
         = (usage_metrics st ++
              [mkUsage (next_uuid st) (md_tenantId md) (md_subscriptionId md)
                 (md_metricType md) (md_metricValue md) (md_metricUnit md)
                 (md_periodStart md) (md_periodEnd md)])%list /\
       billing_events st' = billing_events st) /\
  (forall (D : DateLib) (now : Z) (sd : SubscriptionData) (later : list bool)
          (st : Store) (plan : SubscriptionPlan),
     snd (getPlanById (sd_planId sd) st) = Ok (Some plan) ->
     fits_varchar 20 (sd_billingCycle sd) = true ->
     fits_varchar 3 (plan_currency plan) = true ->
     tenant_check (sd_tenantId sd) st = true ->
     existsb (Nat.eqb (sd_tenantId sd)) (tenants st) = true ->
     existsb (fun ts => Nat.eqb (sub_tenantId ts) (sd_tenantId sd))
             (tenant_subscriptions st) = false ->
     exists st' row,
       Faults.run_with (Faults.createSubscription D now sd)
                       (false :: false :: true :: later) st
         = (st', Err ConnectionError) /\
       tenant_subscriptions st' = (tenant_subscriptions st ++ [row])%list /\
       sub_tenantId row = sd_tenantId sd /\
       sub_planId row = sd_planId sd /\
       billing_events st' = billing_events st).
Proof.
  split; [|split; [|split; [|split]]].
  - intros D now sd pd md n st.
    rewrite !run_with_no_fault.
    rewrite run_createSubscription, run_recordUsageMetric.
    repeat split.
  - intros A p n later st. apply run_with_fault_after.
  - reflexivity.
  - intros md later st Hi Ht Hu Hper Hck Hfk Href.
    unfold Faults.recordUsageMetric. cbn [Faults.run_with]. unfold bind.
    rewrite insert_usage_metric_accepts by assumption.
    unfold Faults.checkUsageLimits. cbn [Faults.run_with]. unfold throw.
    eexists. split; [reflexivity|]. split; reflexivity.
  - intros D now sd later st plan Hplan Hcycle Hcur Hcheck Hfk Hnone.
    unfold getPlanById in Hplan. simpl in Hplan. inversion Hplan as [Hfind].
    assert (Hpl : existsb (fun sp => Nat.eqb (plan_id_of sp) (sd_planId sd))
                          (subscription_plans st) = true).
    { apply find_some in Hfind. apply existsb_exists. exists plan. exact Hfind. }
    assert (Hstatus : forall o : option Z,
               fits_varchar 20 (match o with Some _ => "trial" | None => "active" end)
               = true) by (intros [z|]; reflexivity).
    unfold Faults.createSubscription. cbn [Faults.run_with].
    unfold bind, getPlanById. rewrite Hfind.
    cbn [Faults.run_with]. unfold bind, insert_tenant_subscription.
    rewrite Hstatus, Hcycle, Hcur, Hcheck, Hnone, Hfk, Hpl. simpl.
    do 2 eexists. split; [reflexivity|]. simpl. repeat split.
Qed.

(** [store_failure_keeps_earlier_statements] on scenario A's store: tenant A
    records 501 patients and the store fails the SELECT; tenant B
    subscribes to 'basic' and the store fails the INSERT of the event. *)
Lemma store_failure_keeps_earlier_statements_witness :
  (exists st',
     Faults.run_with (Faults.recordUsageMetric (patients_sample 501))
       [false; true] store0
       = (st', Err ConnectionError) /\
     List.length (usage_metrics st') = 1%nat /\
     billing_events st' = billing_events store0) /\
  (exists st' row,
     Faults.run_with
       (Faults.createSubscription Examples.calendar30 0
          (mkSubscriptionData tenantB 100 "monthly" None))
       [false; false; true] store0
       = (st', Err ConnectionError) /\
     tenant_subscriptions st' = (tenant_subscriptions store0 ++ [row])%list /\
     billing_events st' = billing_events store0).
Proof.
  destruct store_failure_keeps_earlier_statements as (_ & _ & _ & Husage & Hsub).
  split.
  - destruct (Husage (patients_sample 501) [] store0)
      as (st' & Hrun & Hsamples & Hev); try reflexivity.
    exists st'. split; [exact Hrun|]. split; [|exact Hev].
    rewrite Hsamples. reflexivity.
  - destruct (Hsub Examples.calendar30 0%Z
                (mkSubscriptionData tenantB 100 "monthly" None) [] store0 basic)
      as (st' & row & Hrun & Hsubs & _ & _ & Hev); try reflexivity.
    exists st', row. split; [exact Hrun|]. split; assumption.
Defined.

End FailedStatements.

Section ModelChecks.
Import Service Concurrent.

(** The statements of [step], run without interruption, are [createPayment]. *)
Lemma run_alone_is_createPayment (pd : PaymentData) (st : Store) :
  run_alone pd st
  = (fst (createPayment pd st), Finished (snd (createPayment pd st))).
Proof.
  unfold run_alone, createPayment, bind, step.
  destruct (insert_payment _ _ _ _ _ _ _ _ _ st) as [st1 [row|e]];
    [|reflexivity].
  destruct (match pd_invoiceId pd with
            | Some invoiceId => update_invoice_paid_amount (pd_amount pd) invoiceId
            | None => ret tt
            end st1) as [st2 [u|e]]; [|reflexivity].
  destruct (createBillingEvent _ _ _ st2) as [st3 [[]|e]]; reflexivity.
Qed.

(** X23: the [INSERT] of [createInvoice] binds its values one column late
    (the due date lands on [status], 'draft' on the three-character
    [currency], 'USD' on [subtotal]); the database refuses it and no invoice
    row is written. *)
Lemma createInvoice_insert_refused (invoiceData : InvoiceData) (st : Store) :
  createInvoice invoiceData st = (st, Err (DatabaseError "invalid input value")).
Proof.
  unfold createInvoice, createInvoice_amounts, bind, insert_invoice.
  destruct (id_subscriptionId invoiceData); reflexivity.
Qed.

End ModelChecks.

(** * Further properties of the invoice model *)

Section InvoiceHook.
Import InvoiceModel InvoiceQueries Scenarios.

Lemma forEach_items_map (its : list item) :
  forall s x, fst (fst (forEach_items its s x)) = List.map retotal its.
Proof.
  induction its as [|it rest IH]; intros s x; [reflexivity|].
  simpl. specialize (IH (s + itemTotal it)%Q (x + itemTotal it * tax_rate it)%Q).
  destruct (forEach_items rest _ _) as [[r s1] x1]. simpl in *.
  rewrite IH. reflexivity.
Qed.

(** The sums of the loop do not read the stored line totals. *)
Lemma forEach_items_retotal (its : list item) :
  forall s x,
    forEach_items (List.map retotal its) s x = forEach_items its s x.
Proof.
  induction its as [|it rest IH]; intros s x; [reflexivity|].
  simpl. change (itemTotal (retotal it)) with (itemTotal it).
  change (tax_rate (retotal it)) with (tax_rate it).
  rewrite IH.
  destruct (forEach_items rest _ _) as [[r s1] x1]. reflexivity.
Qed.

Lemma forEach_items_again (its its' : list item) (s x s' x' : Q) :
  forEach_items its s x = (its', s', x') ->
  forEach_items its' s x = (its', s', x').
Proof.
  intros H. pose proof (forEach_items_map its s x) as Hm.
  rewrite H in Hm. simpl in Hm. subst its'.
  rewrite forEach_items_retotal. exact H.
Qed.

Lemma derive_status_issue_date now inv :
  issue_date (derive_status now inv) = issue_date inv.
Proof.
  unfold derive_status.
  repeat match goal with |- context [if ?c then _ else _] => destruct c end;
    try reflexivity; simpl; destruct (paid_at inv); reflexivity.
Qed.

Lemma default_due_date_fixed inv :
  default_due_date (default_due_date inv) = default_due_date inv.
Proof.
  unfold default_due_date.
  destruct (due_date inv) eqn:Ed, (issue_date inv) eqn:Ei; simpl;
    rewrite ?Ed, ?Ei; reflexivity.
Qed.

Lemma default_due_date_after_derive now inv :
  default_due_date (derive_status now (default_due_date inv))
  = derive_status now (default_due_date inv).
Proof.
  unfold default_due_date at 1.
  rewrite derive_status_due_date, derive_status_issue_date.
  unfold default_due_date.
  destruct (due_date inv) eqn:Ed, (issue_date inv) eqn:Ei; simpl;
    rewrite ?Ed, ?Ei; reflexivity.
Qed.

End InvoiceHook.

Section InvoiceSaveTwice.
Import InvoiceModel InvoiceQueries Scenarios.

Lemma set_items_totals_same inv :
  set_totals (set_items inv (items inv)) (totals inv) = inv.
Proof. destruct inv; reflexivity. Qed.

(** Deriving the status a second time at the same instant changes nothing. *)
Lemma derive_status_fixed now y :
  derive_status now (derive_status now y) = derive_status now y.
Proof.
  remember (derive_status now y) as r eqn:Hr.
  unfold derive_status in Hr.
  destruct (Qleb (balance_due (totals y)) 0 && Qgtb (paid_amount (totals y)) 0)
    eqn:E1.
  - change (paid_at (set_status y paid)) with (paid_at y) in Hr.
    destruct (paid_at y) eqn:Ep; subst r; unfold derive_status;
      cbn [totals set_status set_paid_at]; rewrite E1;
      cbn [paid_at set_status set_paid_at]; rewrite ?Ep; reflexivity.
  - destruct (Qgtb (paid_amount (totals y)) 0 && Qgtb (balance_due (totals y)) 0)
      eqn:E2.
    + subst r. unfold derive_status. cbn [totals set_status].
      rewrite E1, E2. reflexivity.
    + destruct (is_overdue now y && negb (status_eqb (status y) cancelled)) eqn:E3.
      * subst r. unfold derive_status. cbn [totals set_status]. rewrite E1, E2.
        apply andb_true_iff in E3. destruct E3 as [Ho Hc].
        unfold is_overdue in Ho. apply andb_true_iff in Ho. destruct Ho as [Hd Hp].
        unfold days_overdue in Hd.
        destruct (status_eqb (status y) paid || status_eqb (status y) cancelled)
          eqn:Es; [discriminate Hd|].
        unfold is_overdue, days_overdue.
        cbn [status due_date set_status status_eqb orb].
        rewrite Hd. reflexivity.
      * subst r. unfold derive_status. rewrite E1, E2, E3. reflexivity.
Qed.

(** X1: saving an invoice twice at the same instant gives the document the
    first save gave: the hook's totals, due date, status and payment stamp
    are a fixed point of the hook. *)
Theorem save_is_idempotent :
  forall (now : Z) (inv : invoice), save now (save now inv) = save now inv.
Proof.
  intros now inv. unfold save.
  destruct (forEach_items (items inv) 0%Q 0%Q) as [[its' s] x] eqn:E.
  assert (Hp : pre_save now inv
               = derive_status now (default_due_date
                   (set_totals (set_items inv its')
                      (mkTotals s (sum_discounts its') x (s + x)%Q
                         (paid_amount (totals inv))
                         (s + x - paid_amount (totals inv))%Q)))).
  { unfold pre_save. rewrite E. reflexivity. }
  rewrite Hp.
  set (t := mkTotals s (sum_discounts its') x (s + x)%Q
                     (paid_amount (totals inv)) (s + x - paid_amount (totals inv))%Q).
  set (d := default_due_date (set_totals (set_items inv its') t)).
  assert (Hi : items (derive_status now d) = its').
  { subst d. rewrite derive_status_items, default_due_date_items. reflexivity. }
  assert (Ht : totals (derive_status now d) = t).
  { subst d. rewrite derive_status_totals, default_due_date_totals. reflexivity. }
  unfold pre_save. rewrite Hi, (forEach_items_again _ _ _ _ _ _ E).
  rewrite Ht. cbn [paid_amount t]. fold t.
  rewrite <- Hi at 1. rewrite <- Ht. rewrite set_items_totals_same.
  subst d. rewrite default_due_date_after_derive. apply derive_status_fixed.
Qed.

End InvoiceSaveTwice.

Section InvoiceStatusFacts.
Import InvoiceModel InvoiceQueries Scenarios.

(** What a mutation hands to the save hook: the payment stamp untouched, the
    paid amount raised by the payment (if it is one), and the status the
    method assigned (if it assigns one). *)
Lemma apply_mutation_before_save now m inv :
  exists inv0,
    apply_mutation now m inv = save now inv0 /\
    paid_at inv0 = paid_at inv /\
    due_date inv0 = due_date inv /\
    issue_date inv0 = issue_date inv /\
    due_days inv0 = due_days inv /\
    tenant_id inv0 = tenant_id inv /\
    paid_amount (totals inv0) == paid_amount (totals inv) + payment_of m.
Proof.
  destruct m; simpl; eexists; (split; [reflexivity|]); simpl;
    repeat split; lra.
Qed.

Lemma pre_save_paid_amount now inv :
  paid_amount (totals (pre_save now inv)) = paid_amount (totals inv).
Proof.
  destruct (pre_save_shape now inv) as (its' & s & x & _ & _ & Ht).
  rewrite Ht. reflexivity.
Qed.

Lemma derive_status_paid_at_kept now inv t :
  paid_at inv = Some t -> paid_at (derive_status now inv) = Some t.
Proof.
  intros H. unfold derive_status.
  change (paid_at (set_status inv paid)) with (paid_at inv). rewrite H.
  repeat match goal with |- context [if ?c then _ else _] => destruct c end;
    simpl; exact H.
Qed.

Lemma pre_save_paid_at_kept now inv t :
  paid_at inv = Some t -> paid_at (pre_save now inv) = Some t.
Proof.
  intros H. destruct (pre_save_derives now inv) as (inv1 & -> & _ & _ & _ & Hp).
  apply derive_status_paid_at_kept. rewrite Hp. exact H.
Qed.

(** X2: after every mutation, an invoice with money paid is either paid
    (balance at or below zero) or partially paid (balance above zero):
    whatever status a method assigned (sent, cancelled, written off), the
    save hook replaces it. *)
Theorem paid_invoice_status_after_mutation :
  forall (now : Z) (m : mutation) (inv : invoice),
    (0 < paid_amount (totals (apply_mutation now m inv)))%Q ->
    (status (apply_mutation now m inv) = paid /\
     (balance_due (totals (apply_mutation now m inv)) <= 0)%Q) \/
    (status (apply_mutation now m inv) = partially_paid /\
     (0 < balance_due (totals (apply_mutation now m inv)))%Q).
Proof.
  intros now m inv.
  destruct (apply_mutation_saves now m inv) as [inv0 ->]. unfold save.
  destruct (pre_save_derives now inv0) as (inv1 & -> & Ht & _).
  rewrite derive_status_totals. intros Hp.
  destruct (Qlt_le_dec 0 (balance_due (totals inv1))) as [Hb|Hb].
  - right. split; [|exact Hb]. apply derive_status_partially_paid; assumption.
  - left. split; [|exact Hb]. apply derive_status_paid; assumption.
Qed.

(** [paid_invoice_status_after_mutation] on scenario B with 40.00 paid, then
    cancelled. *)
Lemma paid_invoice_status_after_mutation_witness :
  status (apply_mutation 2 MCancel (addPayment 1 40 scenarioB)) = partially_paid.
Proof.
  destruct (paid_invoice_status_after_mutation 2%Z MCancel (addPayment 1 40 scenarioB))
    as [[_ Hb] | [Hs _]].
  - vm_compute. reflexivity.
  - exfalso. vm_compute in Hb. apply Hb. reflexivity.
  - exact Hs.
Defined.

(** X3: [cancel] leaves the invoice cancelled exactly when nothing has been
    paid on it; with a paid amount above zero the saved status is paid or
    partially_paid instead. *)
Theorem cancel_holds_only_without_payment :
  forall (now : Z) (inv : invoice),
    status (cancel now inv) = cancelled <->
    ~ (0 < paid_amount (totals inv))%Q.
Proof.
  intros now inv. split.
  - intros Hs Hp.
    assert (Hp' : (0 < paid_amount (totals (apply_mutation now MCancel inv)))%Q).
    { change (apply_mutation now MCancel inv) with (cancel now inv).
      unfold cancel, save. rewrite pre_save_paid_amount. exact Hp. }
    destruct (paid_invoice_status_after_mutation now MCancel inv Hp')
      as [[H _]|[H _]];
      change (apply_mutation now MCancel inv) with (cancel now inv) in H;
      rewrite H in Hs; discriminate Hs.
  - intros Hp. unfold cancel, save.
    destruct (pre_save_derives now (set_status inv cancelled))
      as (inv1 & He & Ht & _ & Hs & _).
    rewrite He, derive_status_unpaid.
    + rewrite Hs. simpl. rewrite andb_false_r. reflexivity.
    + rewrite Ht, pre_save_paid_amount. exact Hp.
Qed.

(** [cancel_holds_only_without_payment] on scenario B, unpaid. *)
Lemma cancel_holds_only_without_payment_witness :
  status (cancel 1 scenarioB) = cancelled.
Proof.
  apply cancel_holds_only_without_payment. vm_compute. discriminate.
Defined.

(** X4: [writeOff] sets the balance to zero before saving, and the hook
    recomputes it: the saved balance is total minus paid.  The status
    written_off is kept exactly when nothing has been paid and the due date
    has not passed; otherwise the hook makes the invoice paid, partially_paid
    or overdue again. *)
Theorem writeOff_balance_and_status :
  forall (now : Z) (inv : invoice),
    balance_due (totals (writeOff now inv))
      = (total_amount (totals (writeOff now inv))
         - paid_amount (totals (writeOff now inv)))%Q /\
    (status (writeOff now inv) = written_off <->
     ~ (0 < paid_amount (totals inv))%Q /\
     forall due, due_date (writeOff now inv) = Some due -> (now <= due)%Z).
Proof.
  intros now inv. split; [exact (balance_due_after_mutation now MWriteOff inv)|].
  assert (Hpaid : paid_amount (totals (writeOff now inv)) = paid_amount (totals inv)).
  { unfold writeOff, save. rewrite pre_save_paid_amount. reflexivity. }
  split.
  - intros Hs. split.
    + intros Hp.
      assert (Hp' : (0 < paid_amount (totals (apply_mutation now MWriteOff inv)))%Q).
      { change (apply_mutation now MWriteOff inv) with (writeOff now inv).
        rewrite Hpaid. exact Hp. }
      destruct (paid_invoice_status_after_mutation now MWriteOff inv Hp')
        as [[H _]|[H _]];
        change (apply_mutation now MWriteOff inv) with (writeOff now inv) in H;
        rewrite H in Hs; discriminate Hs.
    + intros due Hd.
      destruct (Z_lt_le_dec due now) as [Hlt|Hle]; [exfalso | exact Hle].
      revert Hs Hd Hpaid. unfold writeOff, save.
      set (inv0 := set_totals _ _).
      destruct (pre_save_derives now inv0) as (inv1 & -> & Ht & Hdue & Hst & _).
      rewrite derive_status_due_date, derive_status_totals. intros Hs Hd Hpaid.
      destruct (Qlt_le_dec 0 (paid_amount (totals inv1))) as [Hp|Hp].
      * destruct (Qlt_le_dec 0 (balance_due (totals inv1))) as [Hb|Hb].
        -- rewrite (derive_status_partially_paid now inv1 Hp Hb) in Hs.
           discriminate Hs.
        -- rewrite (proj1 (derive_status_paid now inv1 Hb Hp)) in Hs.
           discriminate Hs.
      * rewrite (derive_status_overdue now inv1 due Hp Hd Hlt) in Hs;
          [discriminate Hs | |]; rewrite Hst; discriminate.
  - intros (Hp & Hdue). revert Hdue Hpaid. unfold writeOff, save.
    set (inv0 := set_totals _ _).
    destruct (pre_save_derives now inv0) as (inv1 & -> & Ht & Hd & Hst & _).
    rewrite derive_status_due_date, derive_status_totals. intros Hdue Hpaid.
    rewrite derive_status_unpaid by (rewrite Hpaid; exact Hp).
    destruct (is_overdue now inv1) eqn:Ho.
    + apply is_overdue_spec in Ho. destruct Ho as (_ & _ & due & Hd1 & Hlt).
      specialize (Hdue due Hd1). lia.
    + simpl. exact Hst.
Qed.

(** [writeOff_balance_and_status] on scenario B before its due date: written
    off, with the balance of 110.00 still stored. *)
Lemma writeOff_balance_and_status_witness :
  status (writeOff 1 scenarioB) = written_off /\
  balance_due (totals (writeOff 1 scenarioB)) == 110.
Proof.
  destruct (writeOff_balance_and_status 1%Z scenarioB) as [Hb Hs]. split.
  - apply Hs. split.
    + vm_compute. discriminate.
    + intros due Hd. vm_compute in Hd. inversion Hd. vm_compute. discriminate.
  - rewrite Hb. vm_compute. reflexivity.
Defined.

End InvoiceStatusFacts.

Section InvoiceItemsAndQueries.
Import InvoiceModel InvoiceQueries Scenarios.

Lemma pre_save_items now inv : items (pre_save now inv) = List.map retotal (items inv).
Proof.
  destruct (pre_save_shape now inv) as (its' & s & x & E & Hi & _).
  rewrite Hi. pose proof (forEach_items_map (items inv) 0%Q 0%Q) as H.
  rewrite E in H. exact H.
Qed.

(** The totals the hook stores depend on the items only through what the
    loop reads: re-totalled items give the same totals. *)
Lemma pre_save_totals_retotal now inv inv' :
  items inv' = List.map retotal (items inv) ->
  paid_amount (totals inv') = paid_amount (totals inv) ->
  totals (pre_save now inv') = totals (pre_save now inv).
Proof.
  intros Hi Hp.
  destruct (pre_save_shape now inv) as (its & s & x & E & _ & Ht).
  destruct (pre_save_shape now inv') as (its' & s' & x' & E' & _ & Ht').
  rewrite Hi, forEach_items_retotal, E in E'. inversion E'; subst.
  rewrite Ht, Ht', Hp. reflexivity.
Qed.

Lemma filter_other_ids (its : list item) (itemId : string) :
  Forall (fun it => _id it <> itemId) its ->
  List.filter (fun it => negb (String.eqb (_id it) itemId)) its = its.
Proof.
  induction 1 as [|it rest Hit _ IH]; [reflexivity|].
  simpl. apply String.eqb_neq in Hit. rewrite Hit. simpl. rewrite IH. reflexivity.
Qed.

(** X5: adding a line under an [_id] no line of the invoice has, and then
    removing the line with that [_id], gives back the items and the totals
    of the invoice as a plain save stores them. *)
Theorem addItem_then_removeItem :
  forall (t1 t2 : Z) (it : item) (inv : invoice),
    Forall (fun i => _id i <> _id it) (items inv) ->
    items (removeItem t2 (_id it) (addItem t1 it inv)) = items (save t1 inv) /\
    totals (removeItem t2 (_id it) (addItem t1 it inv)) = totals (save t1 inv).
Proof.
  intros t1 t2 it inv Hfresh.
  assert (Hf : List.filter (fun i => negb (String.eqb (_id i) (_id it)))
                 (items (addItem t1 it inv))
               = List.map retotal (items inv)).
  { unfold addItem, save. rewrite pre_save_items. cbn [items set_items].
    rewrite List.map_app, List.filter_app. simpl.
    rewrite String.eqb_refl. simpl. rewrite List.app_nil_r.
    apply filter_other_ids.
    rewrite List.Forall_forall in *. intros i Hi.
    apply in_map_iff in Hi. destruct Hi as (i0 & <- & Hi0).
    exact (Hfresh i0 Hi0). }
  assert (Hidem : forall l, List.map retotal (List.map retotal l) = List.map retotal l).
  { intros l. rewrite List.map_map. apply List.map_ext. intros []; reflexivity. }
  unfold removeItem, save at 1 3. split.
  - rewrite pre_save_items. cbn [items set_items]. rewrite Hf, Hidem.
    unfold save. rewrite pre_save_items. reflexivity.
  - unfold save. rewrite <- (pre_save_totals_retotal t1 inv
                               (set_items inv (List.map retotal (items inv))))
      by reflexivity.
    destruct (pre_save_shape t2 (set_items (addItem t1 it inv)
                (List.filter (fun i => negb (String.eqb (_id i) (_id it)))
                   (items (addItem t1 it inv)))))
      as (its & s & x & E & _ & Ht).
    destruct (pre_save_shape t1 (set_items inv (List.map retotal (items inv))))
      as (its' & s' & x' & E' & _ & Ht').
    cbn [items set_items] in E, E'. rewrite Hf in E. rewrite E in E'.
    inversion E'; subst. rewrite Ht, Ht'. cbn [totals set_items].
    unfold addItem, save. rewrite pre_save_paid_amount. reflexivity.
Qed.

(** [addItem_then_removeItem] on scenario B and a line with a new [_id]. *)
Lemma addItem_then_removeItem_witness :
  items (removeItem 2 "item-2" (addItem 1 (mkItem "item-2" "lab test" 1 30 0 0 0) scenarioB))
  = items (save 1 scenarioB).
Proof.
  apply (addItem_then_removeItem 1 2 (mkItem "item-2" "lab test" 1 30 0 0 0) scenarioB).
  repeat constructor. discriminate.
Defined.

(** X6: [findOverdue] selects the documents of the tenant that are not
    soft-deleted, that the [is_overdue] virtual calls overdue at the instant
    of the query, and that are not written off: a written-off invoice past
    its due date still reads [is_overdue] but is not listed. *)
Theorem findOverdue_selects_overdue_not_written_off :
  forall (tenantId : string) (now : Z) (inv : invoice),
    findOverdue_selects tenantId now inv = true <->
    tenant_id inv = tenantId /\
    deleted_at inv = None /\
    is_overdue now inv = true /\
    status inv <> written_off.
Proof.
  intros tenantId now inv. rewrite is_overdue_spec.
  unfold findOverdue_selects. rewrite !andb_true_iff, negb_true_iff, !orb_false_iff.
  rewrite String.eqb_eq, !status_eqb_neq.
  split.
  - intros (((Ht & Hd) & (Hp & Hc) & Hw) & Hdel).
    destruct (due_date inv) as [due|]; [|discriminate Hd].
    apply Z.ltb_lt in Hd.
    destruct (deleted_at inv); [discriminate Hdel|].
    repeat split; try assumption. exists due. split; [reflexivity | exact Hd].
  - intros (Ht & Hdel & (Hp & Hc & due & Hd & Hlt) & Hw).
    rewrite Hd, Hdel. repeat split; try assumption.
    apply Z.ltb_lt. exact Hlt.
Qed.

Lemma apply_mutation_paid_amount now m inv :
  paid_amount (totals (apply_mutation now m inv))
  == paid_amount (totals inv) + payment_of m.
Proof.
  destruct (apply_mutation_before_save now m inv) as (inv0 & -> & _ & _ & _ & _ & _ & Hp).
  unfold save. rewrite pre_save_paid_amount. exact Hp.
Qed.

Lemma apply_mutation_paid_at now m inv t :
  paid_at inv = Some t -> paid_at (apply_mutation now m inv) = Some t.
Proof.
  intros H.
  destruct (apply_mutation_before_save now m inv) as (inv0 & -> & Hp & _).
  apply pre_save_paid_at_kept. rewrite Hp. exact H.
Qed.

Lemma apply_mutation_handed now m inv :
  apply_mutation now m inv = save now (handed_to_save now m inv).
Proof. destruct m; reflexivity. Qed.

Lemma handed_to_save_paid_amount now m inv :
  paid_amount (totals (handed_to_save now m inv))
  = (match m with
     | MAddPayment a => paid_amount (totals inv) + a
     | _ => paid_amount (totals inv)
     end)%Q.
Proof. destruct m; reflexivity. Qed.

Lemma validate_paths_amounts (inv : invoice) :
  validate_paths inv = true ->
  (0 <= paid_amount (totals inv))%Q /\ (0 <= balance_due (totals inv))%Q.
Proof.
  unfold validate_paths. rewrite !andb_true_iff.
  intros ((((_ & Hp) & Hb) & _) & _).
  split; apply Qleb_le; assumption.
Qed.

(** X7: along any run of method calls that are all saved, the paid amount
    grows by exactly the amounts handed to [addPayment]: no other method and
    no save changes it, and no payment is dropped or capped; the documents
    are those the hook stores.  The validators stand before every save:
    with [min: 0] on [totals.paid_amount], a payment that would take the
    paid amount below zero is refused and nothing is saved. *)
Theorem paid_amount_after_mutations :
  forall (other_checks_pass : invoice -> bool),
    (forall (ms : list (Z * mutation)) (inv inv' : invoice),
       calls other_checks_pass ms inv = Some inv' ->
       inv' = apply_mutations ms inv /\
       paid_amount (totals inv') == paid_amount (totals inv) + paid_in ms) /\
    (forall (now : Z) (a : Q) (inv : invoice),
       (paid_amount (totals inv) + a < 0)%Q ->
       call other_checks_pass now (MAddPayment a) inv = None).
Proof.
  intros other. split.
  - induction ms as [|[now m] rest IH]; intros inv inv' H.
    + simpl in H. inversion H; subst. simpl. split; [reflexivity | lra].
    + cbn [calls] in H. unfold call in H.
      destruct (validate other (handed_to_save now m inv)); [|discriminate H].
      destruct (IH _ _ H) as [-> Hp]. split; [reflexivity|].
      cbn [apply_mutations paid_in fold_right snd].
      rewrite Hp, apply_mutation_paid_amount.
      fold (paid_in rest). lra.
  - intros now a inv Hneg. unfold call, validate.
    destruct (validate_paths (handed_to_save now (MAddPayment a) inv)) eqn:Ev;
      [|rewrite andb_false_r; reflexivity].
    apply validate_paths_amounts in Ev. destruct Ev as [Ev _].
    rewrite handed_to_save_paid_amount in Ev. lra.
Qed.

(** [paid_amount_after_mutations] on scenario B: payments of 40.00 and 70.00
    are saved and add up to 110.00; a payment of -5.00 is refused. *)
Lemma paid_amount_after_mutations_witness :
  (exists inv',
     calls (fun _ => true)
       [(1%Z, MAddPayment 40); (2%Z, MAddPayment 70)] scenarioB = Some inv' /\
     paid_amount (totals inv') == 110) /\
  call (fun _ => true) 1 (MAddPayment (-5)) scenarioB = None.
Proof.
  destruct (paid_amount_after_mutations (fun _ => true)) as [Hrun Hneg].
  split.
  - destruct (calls (fun _ => true)
                [(1%Z, MAddPayment 40); (2%Z, MAddPayment 70)] scenarioB)
      as [inv'|] eqn:E; [|vm_compute in E; discriminate E].
    exists inv'. split; [reflexivity|].
    destruct (Hrun _ _ _ E) as [_ Hp]. rewrite Hp. vm_compute. reflexivity.
  - apply Hneg. vm_compute. reflexivity.
Defined.

(** X24: an invoice stored with a negative balance, as [addPayment] leaves it
    after a payment above the amount due, is refused by [balance_due]'s
    [min: 0] at every later save: no method but [writeOff], which sets the
    balance to 0 before it saves, can be called on it, whatever its
    arguments.  [writeOff] hands over a balance of 0. *)
Theorem overpaid_invoice_refuses_later_saves :
  forall (other_checks_pass : invoice -> bool) (now : Z) (m : mutation)
         (inv : invoice),
    (balance_due (totals inv) < 0)%Q ->
    (m <> MWriteOff -> call other_checks_pass now m inv = None) /\
    balance_due (totals (handed_to_save now MWriteOff inv)) == 0.
Proof.
  intros other now m inv Hneg. split; [|reflexivity].
  intros Hm. unfold call, validate.
  destruct (validate_paths (handed_to_save now m inv)) eqn:Ev;
    [|rewrite andb_false_r; reflexivity].
  apply validate_paths_amounts in Ev. destruct Ev as [_ Ev].
  destruct m; try (exfalso; apply Hm; reflexivity);
    cbn in Ev; lra.
Qed.

(** [overpaid_invoice_refuses_later_saves] on scenario B: a payment of 200.00
    against 110.00 is saved with a balance of -90.00, and the invoice can
    then not be sent. *)
Lemma overpaid_invoice_refuses_later_saves_witness :
  exists inv',
    call (fun _ => true) 1 (MAddPayment 200) scenarioB = Some inv' /\
    balance_due (totals inv') == -90 /\
    call (fun _ => true) 2 MSend inv' = None.
Proof.
  eexists. split; [reflexivity|]. split; [vm_compute; reflexivity|].
  apply (overpaid_invoice_refuses_later_saves (fun _ => true) 2 MSend).
  - vm_compute. reflexivity.
  - discriminate.
Defined.

(** X8: once [paid_at] is stamped, no run of mutations changes or clears it,
    whatever happens to the status afterwards. *)
Theorem paid_at_kept_by_mutations :
  forall (ms : list (Z * mutation)) (inv : invoice) (t : Z),
    paid_at inv = Some t -> paid_at (apply_mutations ms inv) = Some t.
Proof.
  induction ms as [|[now m] rest IH]; intros inv t H; simpl; [exact H|].
  apply IH. apply apply_mutation_paid_at. exact H.
Qed.

(** [paid_at_kept_by_mutations] on scenario B paid in full at instant 1 and
    then given a new line at instant 9, which re-opens it as partially
    paid. *)
Lemma paid_at_kept_by_mutations_witness :
  paid_at (apply_mutations
             [(9%Z, MAddItem (mkItem "item-2" "lab test" 1 30 0 0 0))]
             (addPayment 1 110 scenarioB)) = Some 1%Z /\
  status (apply_mutations
            [(9%Z, MAddItem (mkItem "item-2" "lab test" 1 30 0 0 0))]
            (addPayment 1 110 scenarioB)) = partially_paid.
Proof.
  split; [|vm_compute; reflexivity].
  apply paid_at_kept_by_mutations. vm_compute. reflexivity.
Defined.

End InvoiceItemsAndQueries.

(** * Further properties of the payment model *)

Section RefundSequences.
Import PaymentModel Scenarios.




End RefundSequences.

(** * Properties of the appointment model *)

Section AppointmentFacts.
Import AppointmentModel Examples.

Lemma appointment_status_eqb_eq (a b : appointment_status) :
  status_eqb a b = true <-> a = b.
Proof. destruct a, b; simpl; split; congruence. Qed.

Lemma appointment_status_eqb_neq (a b : appointment_status) :
  status_eqb a b = false <-> a <> b.
Proof. destruct a, b; simpl; split; congruence. Qed.

(** X10: for an appointment that ends after it starts and a slot that ends
    after it starts, [findConflicts] selects the appointment exactly when it
    belongs to the tenant and the doctor, is neither cancelled nor a no-show,
    is not soft-deleted, is not the excluded one, and overlaps the slot:
    starts before the slot ends and ends after the slot starts.  An
    appointment that ends when the slot starts is no conflict. *)
Theorem findConflicts_selects_overlapping :
  forall (tenantId doctorId : string) (startTime endTime : Z)
         (excludeId : option string) (a : appointment) (s e : Z),
    start_time a = Some s -> end_time a = Some e ->
    (s < e)%Z -> (startTime < endTime)%Z ->
    (findConflicts_selects tenantId doctorId startTime endTime excludeId a = true
     <->
     tenant_id a = tenantId /\ doctor_id a = doctorId /\
     status a <> cancelled /\ status a <> no_show /\
     deleted_at a = None /\
     (s < endTime)%Z /\ (startTime < e)%Z /\
     (forall x, excludeId = Some x -> x <> "" -> _id a <> x)).
Proof.
  intros tenantId doctorId S E excludeId a s e Hs He Hse HSE.
  unfold findConflicts_selects. rewrite Hs, He.
  rewrite !andb_true_iff, negb_true_iff, orb_false_iff, !String.eqb_eq,
    !appointment_status_eqb_neq.
  assert (Hov : ((s <? E)%Z && (S <=? s)%Z
                 || (S <? e)%Z && (e <=? E)%Z
                 || (s <=? S)%Z && (E <=? e)%Z) = true
                <-> (s < E)%Z /\ (S < e)%Z).
  { rewrite !orb_true_iff, !andb_true_iff, !Z.ltb_lt, !Z.leb_le. lia. }
  rewrite Hov.
  assert (Hex : match excludeId with
                | Some x => if String.eqb x "" then true
                            else negb (String.eqb (_id a) x)
                | None => true
                end = true
                <-> forall x, excludeId = Some x -> x <> "" -> _id a <> x).
  { destruct excludeId as [x|].
    - destruct (String.eqb x "") eqn:Ex.
      + apply String.eqb_eq in Ex. split; [|reflexivity].
        intros _ y Hy Hne. inversion Hy; subst. contradiction.
      + apply String.eqb_neq in Ex. rewrite negb_true_iff, String.eqb_neq.
        split.
        * intros H y Hy _. inversion Hy; subst. exact H.
        * intros H. apply (H x eq_refl Ex).
    - split; [intros _ x Hx; discriminate Hx | reflexivity]. }
  rewrite Hex.
  destruct (deleted_at a); split; intros H; try tauto;
    try (destruct H as ((((_ & _) & Hd) & _) & _); discriminate Hd);
    try (destruct H as (_ & _ & _ & _ & Hd & _); discriminate Hd).
Qed.

(** [findConflicts_selects_overlapping] on the 09:00 to 09:30 appointment:
    the slot 09:15 to 09:45 conflicts, the slot 09:30 to 10:00 does not. *)
Lemma findConflicts_selects_overlapping_witness :
  findConflicts_selects "tenant-T" "doctor-D" (nine + 900000) (nine + 2700000)
    None morning = true /\
  findConflicts_selects "tenant-T" "doctor-D" (nine + half_hour)
    (nine + 2 * half_hour) None morning = false.
Proof.
  split.
  - apply (findConflicts_selects_overlapping "tenant-T" "doctor-D"
             (nine + 900000) (nine + 2700000) None morning nine (nine + half_hour));
      try reflexivity.
    repeat split; try discriminate; try reflexivity.
  - destruct (findConflicts_selects "tenant-T" "doctor-D" (nine + half_hour)
                (nine + 2 * half_hour) None morning) eqn:E; [|reflexivity].
    apply (findConflicts_selects_overlapping "tenant-T" "doctor-D"
             (nine + half_hour) (nine + 2 * half_hour) None morning nine
             (nine + half_hour)) in E; try reflexivity.
    destruct E as (_ & _ & _ & _ & _ & _ & Hlt & _).
    vm_compute in Hlt. discriminate Hlt.
Defined.

Lemma round_div_bounds (d : Z) :
  (60000 * round_div d 60000 - 30000 <= d < 60000 * round_div d 60000 + 30000)%Z.
Proof.
  unfold round_div.
  pose proof (Z.div_mod (2 * d + 60000) (2 * 60000)) as H.
  pose proof (Z.mod_pos_bound (2 * d + 60000) (2 * 60000)) as Hb.
  lia.
Qed.

(** X11: saving an appointment whose two times are set.  The validators
    come first, on the document as it is handed over: if they refuse it (a
    duration that is missing or below 1, whatever the hook would compute),
    the save is rejected with the validation error.  If they pass, the save
    is rejected exactly when the end is not after the start, and otherwise
    the document is saved with its times as given; if a time was modified,
    the stored duration in minutes is the length rounded to the nearest
    minute (within half a minute of the length), and if none was, the
    duration is left as it was.  For an appointment shorter than 30 seconds
    the stored duration is 0, and the stored document fails the validators
    at its next save. *)
Theorem appointment_save_checks_times_and_rounds_duration :
  forall (other modified : bool) (a : appointment) (s e : Z),
    start_time a = Some s -> end_time a = Some e ->
    (validate other a = false ->
     save other modified a = Rejected "Appointment validation failed") /\
    (duration_minutes a = None \/
     (exists d, duration_minutes a = Some d /\ (d < 1)%Z) ->
     validate other a = false) /\
    (validate other a = true -> (e <= s)%Z ->
     save other modified a = Rejected "End time must be after start time") /\
    (validate other a = true -> (s < e)%Z ->
     exists a',
       save other modified a = Saved a' /\
       start_time a' = Some s /\ end_time a' = Some e /\
       (modified = false -> duration_minutes a' = duration_minutes a) /\
       (modified = true ->
        exists d,
          duration_minutes a' = Some d /\
          (60000 * d - 30000 <= e - s < 60000 * d + 30000)%Z /\
          ((e - s < 30000)%Z -> d = 0%Z /\ validate other a' = false))).
Proof.
  intros other modified a s e Hs He. split; [|split; [|split]].
  - intros Hv. unfold save. rewrite Hv. reflexivity.
  - intros Hbad. unfold validate.
    assert (match duration_minutes a with
            | Some d => (1 <=? d)%Z
            | None => false
            end = false) as ->.
    { destruct Hbad as [-> | (d & -> & Hd)];
        [reflexivity | apply Z.leb_gt; exact Hd]. }
    rewrite andb_false_r. reflexivity.
  - intros Hv Hle. unfold save, compute_duration, validate_times. rewrite Hv.
    cbn [negb].
    destruct modified; rewrite ?Hs, ?He; cbn [start_time end_time set_duration];
      rewrite ?Hs, ?He;
      (assert ((e <=? s)%Z = true) as -> by (apply Z.leb_le; exact Hle));
      reflexivity.
  - intros Hv Hlt. unfold save, compute_duration, validate_times. rewrite Hv.
    cbn [negb].
    assert (Hleb : (e <=? s)%Z = false) by (apply Z.leb_gt; exact Hlt).
    pose proof (round_div_bounds (e - s)) as Hb.
    change (1000 * 60)%Z with 60000%Z.
    destruct modified; rewrite ?Hs, ?He; cbn [start_time end_time set_duration];
      rewrite ?Hs, ?He, Hleb; eexists; (split; [reflexivity|]);
      cbn [start_time end_time duration_minutes set_duration];
      (split; [assumption|]); (split; [assumption|]);
      (split; [try discriminate; try reflexivity|]); try discriminate.
    intros _. eexists. split; [reflexivity|]. split; [exact Hb|].
    intros Hshort.
    assert (Hz : round_div (e - s) 60000 = 0%Z) by lia.
    split; [exact Hz|].
    unfold validate. cbn [duration_minutes set_duration]. rewrite Hz.
    cbn [Z.leb Z.compare]. rewrite andb_false_r. reflexivity.
Qed.

(** [appointment_save_checks_times_and_rounds_duration] on the 09:00 to
    09:30 appointment. *)
Lemma appointment_save_checks_times_and_rounds_duration_witness :
  exists a', save true true morning = Saved a' /\ duration_minutes a' = Some 30%Z.
Proof.
  destruct (appointment_save_checks_times_and_rounds_duration true true morning nine
              (nine + half_hour) eq_refl eq_refl) as (_ & _ & _ & H).
  destruct H as (a' & Hsave & _ & _ & _ & Hd); [reflexivity | reflexivity |].
  exists a'. split; [exact Hsave|].
  destruct (Hd eq_refl) as (d & -> & (H1 & H2) & _).
  f_equal. unfold nine, half_hour in *. lia.
Defined.

(** X12: [cancel] and [markNoShow] take an appointment out of every conflict
    check: once either is saved, [findConflicts] selects the appointment for
    no tenant, doctor or slot.  They are saved when the appointment passes
    the validators and ends after it starts; they are rejected with the
    validation error when it does not pass them, and with the error of the
    hook when it passes them and ends no later than it starts. *)
Theorem cancelled_appointment_blocks_no_slot :
  forall (other modified : bool) (now : Z) (m : method) (a : appointment)
         (s e : Z),
    (exists reason cancelledBy, m = Cancel reason cancelledBy) \/ m = MarkNoShow ->
    start_time a = Some s -> end_time a = Some e ->
    (validate other a = false ->
     call other modified now m a = Rejected "Appointment validation failed") /\
    (validate other a = true -> (e <= s)%Z ->
     call other modified now m a = Rejected "End time must be after start time") /\
    (validate other a = true -> (s < e)%Z ->
     exists a',
       call other modified now m a = Saved a' /\
       forall tenantId doctorId startTime endTime excludeId,
         findConflicts_selects tenantId doctorId startTime endTime excludeId a'
         = false).
Proof.
  intros other modified now m a s e Hm Hs He.
  assert (Hval : forall a1,
             (a1 = set_cancellation (set_status a cancelled)
                     match m with Cancel r _ => r | _ => "" end
                     match m with Cancel _ c => c | _ => "" end now
              \/ a1 = set_status a no_show) ->
             validate other a1 = validate other a /\
             start_time a1 = Some s /\ end_time a1 = Some e /\
             (status a1 = cancelled \/ status a1 = no_show)).
  { intros a1 [-> | ->]; (split; [reflexivity|]); (split; [exact Hs|]);
      (split; [exact He|]); [left | right]; reflexivity. }
  assert (Hcall : exists a1,
             call other modified now m a = save other modified a1 /\
             validate other a1 = validate other a /\
             start_time a1 = Some s /\ end_time a1 = Some e /\
             (status a1 = cancelled \/ status a1 = no_show)).
  { destruct Hm as [(reason & cancelledBy & ->) | ->].
    - eexists. split; [reflexivity|]. apply Hval. left. reflexivity.
    - eexists. split; [reflexivity|]. apply Hval. right. reflexivity. }
  clear Hval. destruct Hcall as (a1 & -> & Hv1 & Hs1 & He1 & Hst).
  split; [|split].
  - intros Hv. unfold save. rewrite Hv1, Hv. reflexivity.
  - intros Hv Hle.
    assert (Hleb : (e <=? s)%Z = true) by (apply Z.leb_le; exact Hle).
    unfold save, compute_duration, validate_times. rewrite Hv1, Hv. cbn [negb].
    destruct modified; rewrite ?Hs1, ?He1;
      cbn [start_time end_time set_duration]; rewrite ?Hs1, ?He1, Hleb;
      reflexivity.
  - intros Hv Hlt.
    assert (Hleb : (e <=? s)%Z = false) by (apply Z.leb_gt; exact Hlt).
    unfold save, compute_duration, validate_times. rewrite Hv1, Hv. cbn [negb].
    destruct modified; rewrite ?Hs1, ?He1;
      cbn [start_time end_time set_duration]; rewrite ?Hs1, ?He1, Hleb;
      eexists; (split; [reflexivity|]);
      intros tenantId doctorId S E excludeId;
      unfold findConflicts_selects; cbn [status set_duration];
      destruct Hst as [-> | ->]; cbn [status_eqb orb negb];
      rewrite !andb_false_r; reflexivity.
Qed.

(** [cancelled_appointment_blocks_no_slot] on the 09:00 to 09:30 appointment,
    cancelled, against its own slot. *)
Lemma cancelled_appointment_blocks_no_slot_witness :
  exists a',
    cancel true false 5 "patient request" "user-1" morning = Saved a' /\
    findConflicts_selects "tenant-T" "doctor-D" nine (nine + half_hour) None a'
    = false.
Proof.
  destruct (cancelled_appointment_blocks_no_slot true false 5
              (Cancel "patient request" "user-1")
              morning nine (nine + half_hour)) as (_ & _ & H).
  - left. exists "patient request", "user-1". reflexivity.
  - reflexivity.
  - reflexivity.
  - destruct H as (a' & Hsave & Hnone); [reflexivity | reflexivity |].
    exists a'. split; [exact Hsave | apply Hnone].
Defined.

End AppointmentFacts.

(** * Properties of the rate limiter *)

Section RateLimitFacts.
Import RateLimit Examples.

Variable maxRequests windowMs : Z.

Local Abbreviation limiter := (tenantRateLimitMiddleware maxRequests windowMs).

(** Inside an open window the stream admits requests until the count reaches
    the maximum, and none after. *)
Lemma serve_inside_window (key : string) (reqs : list (option string * Z)) :
  forall (requests : gmap string window) (c r : Z),
    requests !! key = Some (mkWindow c r) ->
    Forall (fun q => tenant_key (fst q) = key /\ (snd q <= r)%Z) reqs ->
    Z.of_nat (count_admitted (fst (serve maxRequests windowMs reqs requests)))
    = Z.min (Z.of_nat (List.length reqs)) (Z.max 0 (maxRequests - c)).
Proof.
  induction reqs as [|[tid now] rest IH]; intros requests c r Hk Hall.
  - unfold count_admitted. cbn [serve fst List.filter List.length]. lia.
  - inversion Hall as [|q l [Hkey Hnow] Hrest]; subst q l. simpl in Hkey, Hnow.
    cbn [serve]. unfold tenantRateLimitMiddleware. rewrite Hkey, Hk.
    cbn [resetTime count].
    assert ((r <? now)%Z = false) as -> by (apply Z.ltb_ge; exact Hnow).
    destruct (maxRequests <=? c)%Z eqn:Emax.
    + apply Z.leb_le in Emax.
      specialize (IH requests c r Hk Hrest).
      destruct (serve maxRequests windowMs rest requests) as [vs final].
      unfold count_admitted in *.
      cbn [fst List.filter admitted List.length] in *. lia.
    + apply Z.leb_gt in Emax.
      specialize (IH (<[key := mkWindow (c + 1) r]> requests) (c + 1)%Z r
                     (lookup_insert_eq _ _ _) Hrest).
      destruct (serve maxRequests windowMs rest _) as [vs final].
      unfold count_admitted in *.
      cbn [fst List.filter admitted List.length] in *. lia.
Qed.

(** X13: the requests of one tenant that fall inside the window its first
    request opens: the first is always admitted, and of all of them exactly
    as many are admitted as the maximum allows, but never fewer than one,
    even with a maximum of zero. *)
Theorem admitted_in_one_window :
  forall (key : string) (tenantId : option string) (t0 : Z)
         (rest : list (option string * Z)) (requests : gmap string window),
    requests !! key = None ->
    tenant_key tenantId = key ->
    Forall (fun q => tenant_key (fst q) = key /\ (snd q <= t0 + windowMs)%Z) rest ->
    Z.of_nat (count_admitted
                (fst (serve maxRequests windowMs ((tenantId, t0) :: rest) requests)))
    = Z.min (Z.of_nat (List.length ((tenantId, t0) :: rest))) (Z.max 1 maxRequests).
Proof.
  intros key tenantId t0 rest requests Hnone Hkey Hrest.
  cbn [serve]. unfold tenantRateLimitMiddleware. rewrite Hkey, Hnone.
  pose proof (serve_inside_window key rest
                (<[key := mkWindow 1 (t0 + windowMs)]> requests) 1 (t0 + windowMs)
                (lookup_insert_eq _ _ _) Hrest) as H.
  destruct (serve maxRequests windowMs rest _) as [vs final].
  unfold count_admitted in *.
  cbn [fst List.filter admitted List.length] in *. lia.
Qed.

(** A request reads and writes the entry of its own key only. *)
Lemma limiter_own_entry (tenantId : option string) (now : Z)
      (r1 r2 : gmap string window) :
  r1 !! tenant_key tenantId = r2 !! tenant_key tenantId ->
  snd (limiter tenantId now r1) = snd (limiter tenantId now r2) /\
  fst (limiter tenantId now r1) !! tenant_key tenantId
  = fst (limiter tenantId now r2) !! tenant_key tenantId.
Proof.
  intros H. unfold tenantRateLimitMiddleware. rewrite <- H.
  destruct (r1 !! tenant_key tenantId) as [w|] eqn:E.
  - destruct (resetTime w <? now)%Z.
    + simpl. rewrite !lookup_insert_eq. split; reflexivity.
    + destruct (maxRequests <=? count w)%Z; simpl.
      * rewrite E, <- H. split; reflexivity.
      * rewrite !lookup_insert_eq. split; reflexivity.
  - simpl. rewrite !lookup_insert_eq. split; reflexivity.
Qed.

Lemma limiter_other_entry (tenantId : option string) (now : Z)
      (r : gmap string window) (key : string) :
  tenant_key tenantId <> key ->
  fst (limiter tenantId now r) !! key = r !! key.
Proof.
  intros Hne. unfold tenantRateLimitMiddleware.
  destruct (r !! tenant_key tenantId) as [w|].
  - destruct (resetTime w <? now)%Z; simpl;
      [rewrite lookup_insert_ne by exact Hne; reflexivity|].
    destruct (maxRequests <=? count w)%Z; simpl;
      [reflexivity | rewrite lookup_insert_ne by exact Hne; reflexivity].
  - simpl. rewrite lookup_insert_ne by exact Hne. reflexivity.
Qed.

(** X14: the verdicts a tenant gets do not depend on what other tenants
    send: in any stream of requests, the verdicts given to the requests
    filed under a key are those the limiter gives when it is sent these
    requests alone, from any map holding the same entry for the key. *)
Theorem verdicts_independent_of_other_tenants :
  forall (key : string) (reqs : list (option string * Z))
         (r1 r2 : gmap string window),
    r1 !! key = r2 !! key ->
    verdicts_of key reqs (fst (serve maxRequests windowMs reqs r1))
    = fst (serve maxRequests windowMs
             (List.filter (fun q => String.eqb (tenant_key (fst q)) key) reqs) r2).
Proof.
  intros key reqs. induction reqs as [|[tid now] rest IH]; intros r1 r2 H.
  - reflexivity.
  - cbn [serve List.filter fst].
    destruct (limiter tid now r1) as [r1' v1] eqn:E1.
    destruct (String.eqb (tenant_key tid) key) eqn:Ek.
    + apply String.eqb_eq in Ek. subst key.
      cbn [serve].
      destruct (limiter_own_entry tid now r1 r2 H) as [Hv Hs].
      destruct (limiter tid now r2) as [r2' v2] eqn:E2.
      rewrite E1 in Hv, Hs. simpl in Hv, Hs. subst v2.
      specialize (IH r1' r2' Hs).
      destruct (serve maxRequests windowMs rest r1') as [vs1 f1].
      destruct (serve maxRequests windowMs _ r2') as [vs2 f2].
      cbn [verdicts_of fst]. rewrite String.eqb_refl. simpl in IH. rewrite IH.
      reflexivity.
    + apply String.eqb_neq in Ek.
      assert (Hs : r1' !! key = r2 !! key).
      { pose proof (limiter_other_entry tid now r1 key Ek) as Ho.
        rewrite E1 in Ho. simpl in Ho. rewrite Ho. exact H. }
      specialize (IH r1' r2 Hs).
      destruct (serve maxRequests windowMs rest r1') as [vs1 f1].
      cbn [verdicts_of fst].
      assert (String.eqb (tenant_key tid) key = false) as ->
        by (apply String.eqb_neq; exact Ek).
      exact IH.
Qed.

(** X15: a request is refused only inside an open window whose count has
    reached the maximum.  The refusal leaves the map as it was (it neither
    counts nor extends the window), announces no request remaining, and
    names a wait in seconds that is never negative and is zero only at the
    very instant the window resets. *)
Theorem refusal_changes_nothing :
  forall (tenantId : option string) (now : Z) (requests requests' : gmap string window)
         (h : headers) (seconds : Z),
    limiter tenantId now requests = (requests', TooManyRequests h seconds) ->
    requests' = requests /\
    (exists w,
       requests !! tenant_key tenantId = Some w /\
       (maxRequests <= count w)%Z /\ (now <= resetTime w)%Z /\
       reset_header h = resetTime w /\
       seconds = ceil_div (resetTime w - now) 1000 /\
       (seconds = 0 <-> now = resetTime w)%Z) /\
    remaining_header h = 0%Z /\
    (0 <= seconds)%Z.
Proof.
  intros tenantId now requests requests' h seconds.
  unfold tenantRateLimitMiddleware.
  destruct (requests !! tenant_key tenantId) as [w|]; [|discriminate].
  destruct (resetTime w <? now)%Z eqn:Er; [discriminate|].
  destruct (maxRequests <=? count w)%Z eqn:Em; [|discriminate].
  intros H. inversion H; subst. clear H.
  apply Z.ltb_ge in Er. apply Z.leb_le in Em.
  assert (Hpos : (0 < ceil_div (resetTime w - now) 1000
                  <-> 0 < resetTime w - now)%Z)
    by (apply ceil_div_pos; reflexivity).
  assert (Hnn : (0 <= ceil_div (resetTime w - now) 1000)%Z).
  { unfold ceil_div.
    assert ((- (resetTime w - now)) / 1000 <= 0)%Z; [|lia].
    apply Z.div_le_upper_bound; lia. }
  split; [reflexivity|]. split; [|split; [reflexivity | exact Hnn]].
  exists w. repeat split; try assumption; try reflexivity; lia.
Qed.

End RateLimitFacts.

Section RateLimitWitnesses.
Import RateLimit Examples.

(** [admitted_in_one_window] for a maximum of 2 and a window of 100 ms: of
    T's three requests at 0, 20 and 30 ms two are admitted. *)
Lemma admitted_in_one_window_witness :
  Z.of_nat (count_admitted
    (fst (serve 2 100 [(Some "T", 0%Z); (Some "T", 20%Z); (Some "T", 30%Z)] ∅)))
  = 2%Z.
Proof.
  rewrite (admitted_in_one_window 2 100 "T" (Some "T") 0
             [(Some "T", 20%Z); (Some "T", 30%Z)] ∅).
  - reflexivity.
  - reflexivity.
  - reflexivity.
  - repeat constructor; simpl; lia.
Defined.

(** [verdicts_independent_of_other_tenants] for a maximum of 2 and a window
    of 100 ms, on four requests, three of them by tenant T. *)
Lemma verdicts_independent_of_other_tenants_witness :
  verdicts_of "T" four_requests (fst (serve 2 100 four_requests ∅))
  = fst (serve 2 100 [(Some "T", 0%Z); (Some "T", 20%Z); (Some "T", 30%Z)] ∅).
Proof.
  apply (verdicts_independent_of_other_tenants 2 100 "T" four_requests ∅ ∅).
  reflexivity.
Defined.

(** [refusal_changes_nothing] for a maximum of 1 and a window of 100 ms: T's
    second request, 20 ms after the first, is refused. *)
Lemma refusal_changes_nothing_witness :
  fst (tenantRateLimitMiddleware 1 100 (Some "T") 20
         (fst (tenantRateLimitMiddleware 1 100 (Some "T") 0 ∅)))
  = fst (tenantRateLimitMiddleware 1 100 (Some "T") 0 ∅).
Proof.
  destruct (tenantRateLimitMiddleware 1 100 (Some "T") 20
              (fst (tenantRateLimitMiddleware 1 100 (Some "T") 0 ∅)))
    as [requests' [h0|h seconds]] eqn:E.
  - exfalso. vm_compute in E. inversion E.
  - apply (refusal_changes_nothing 1 100 (Some "T") 20 _ requests' h seconds E).
Defined.

End RateLimitWitnesses.

(** * Further properties of the subscription service *)

Section ServiceLists.

Lemma NoDup_snoc {A} (l : list A) (x : A) :
  List.NoDup l -> ~ In x l -> List.NoDup (l ++ [x]).
Proof.
  induction 1 as [|y l Hy Hl IH]; intros Hx; simpl.
  - constructor; [intros []|constructor].
  - constructor.
    + rewrite in_app_iff. intros [Hin|[->|[]]]; [exact (Hy Hin)|].
      apply Hx. left. reflexivity.
    + apply IH. intros Hin. apply Hx. right. exact Hin.
Qed.

Lemma filter_map_pair {A B} (f : A -> bool) (a : A) (l : list B) :
  List.filter (fun r : A * B => f (fst r)) (List.map (fun b => (a, b)) l)
  = if f a then List.map (fun b => (a, b)) l else [].
Proof.
  induction l as [|b l IH]; simpl.
  - destruct (f a); reflexivity.
  - rewrite IH. destruct (f a); reflexivity.
Qed.

Lemma head_filter_find {A} (f : A -> bool) (l : list A) :
  List.head (List.filter f l) = List.find f l.
Proof.
  induction l as [|a l IH]; [reflexivity|].
  simpl. destruct (f a); [reflexivity | exact IH].
Qed.

Lemma find_pointwise {A} (f g : A -> bool) (l : list A) :
  (forall a, f a = g a) -> List.find f l = List.find g l.
Proof.
  intros H. induction l as [|a l IH]; [reflexivity|].
  simpl. rewrite H, IH. reflexivity.
Qed.

End ServiceLists.

Section SubscriptionFacts.
Import Service Scenarios.

Lemma existsb_tenant_false (t : uuid) (subs : list TenantSubscription) :
  existsb (fun ts => Nat.eqb (sub_tenantId ts) t) subs = false ->
  ~ In t (List.map sub_tenantId subs).
Proof.
  intros H Hin. apply in_map_iff in Hin. destruct Hin as (ts & Ht & Hin).
  assert (existsb (fun ts => Nat.eqb (sub_tenantId ts) t) subs = true).
  { apply existsb_exists. exists ts. split; [exact Hin|].
    apply Nat.eqb_eq. exact Ht. }
  congruence.
Qed.

(** X16: no call of [createSubscription] gives a tenant a second
    subscription.  If every tenant has at most one subscription before the
    call, so it is after it; and for a tenant that has one the call fails and
    writes nothing, neither a row nor an event. *)
Theorem createSubscription_one_subscription_per_tenant :
  forall (D : DateLib) (now : Z) (sd : SubscriptionData) (st : Store),
    List.NoDup (List.map sub_tenantId (tenant_subscriptions st)) ->
    List.NoDup (List.map sub_tenantId
                  (tenant_subscriptions (fst (createSubscription D now sd st)))) /\
    (In (sd_tenantId sd) (List.map sub_tenantId (tenant_subscriptions st)) ->
     fst (createSubscription D now sd st) = st /\
     exists e, snd (createSubscription D now sd st) = Err e).
Proof.
  intros D now sd st Hnd.
  unfold createSubscription, bind, getPlanById.
  destruct (List.find _ (subscription_plans st)) as [plan|];
    [|simpl; split; [exact Hnd|]; intros _; split; [reflexivity|];
      eexists; reflexivity].
  destruct (insert_tenant_subscription _ _ _ _ _ _ _ _ _ _ _ st)
    as [st1 [row|e]] eqn:Eins.
  - apply insert_tenant_subscription_ok in Eins.
    destruct Eins as (Hnone & _ & _ & Hrow & Hst1).
    apply existsb_tenant_false in Hnone.
    pose proof (createBillingEvent_tenant_subscriptions (sd_tenantId sd)
                  "subscription.created"
                  (SubscriptionCreatedData (sub_id row) (sd_planId sd)
                     (sd_billingCycle sd) (sd_trialDays sd)) st1) as Hkeep.
    destruct (createBillingEvent _ _ _ st1) as [st2 [[]|e]];
      simpl in Hkeep; simpl; rewrite Hkeep; subst st1; simpl;
      (split; [|intros Hin; contradiction]);
      rewrite List.map_app; simpl; rewrite Hrow; simpl;
      apply NoDup_snoc; assumption.
  - apply insert_tenant_subscription_err in Eins. subst st1. simpl.
    split; [exact Hnd|]. intros _. split; [reflexivity|].
    eexists; reflexivity.
Qed.

(** [createSubscription_one_subscription_per_tenant] on scenario A's store:
    tenant A, who is subscribed, asks again. *)
Lemma createSubscription_one_subscription_per_tenant_witness :
  fst (createSubscription Examples.calendar30 0
         (mkSubscriptionData tenantA 100 "monthly" None) store0) = store0.
Proof.
  apply (createSubscription_one_subscription_per_tenant Examples.calendar30 0
           (mkSubscriptionData tenantA 100 "monthly" None) store0).
  - simpl. repeat constructor. intros [].
  - simpl. left. reflexivity.
Defined.

Lemma subscriptions_of_other_tenants (t : uuid) (plans : list SubscriptionPlan)
      (subs : list TenantSubscription) :
  existsb (fun ts => Nat.eqb (sub_tenantId ts) t) subs = false ->
  List.filter (fun r : TenantSubscription * SubscriptionPlan =>
                 Nat.eqb (sub_tenantId (fst r)) t)
    (flat_map (fun ts =>
       List.map (fun sp => (ts, sp))
         (List.filter (fun sp => Nat.eqb (sub_planId ts) (plan_id_of sp)) plans))
       subs) = [].
Proof.
  induction subs as [|ts subs IH]; [reflexivity|].
  simpl. intros H. apply orb_false_iff in H. destruct H as [Hts Hrest].
  rewrite List.filter_app.
  rewrite (filter_map_pair (fun ts => Nat.eqb (sub_tenantId ts) t)).
  rewrite Hts. simpl. apply IH. exact Hrest.
Qed.

(** X17: what [createSubscription] stores, [getTenantSubscription] reads
    back.  After a call that succeeds, the tenant's subscription is the row
    the call returned, joined with the plan that was asked for, and the row
    carries that plan's price and currency. *)
Theorem createSubscription_then_getTenantSubscription :
  forall (D : DateLib) (now : Z) (sd : SubscriptionData) (st st' : Store)
         (row : TenantSubscription),
    createSubscription D now sd st = (st', Ok row) ->
    exists plan,
      snd (getPlanById (sd_planId sd) st) = Ok (Some plan) /\
      getTenantSubscription (sd_tenantId sd) st' = (st', Ok (Some (row, plan))) /\
      sub_tenantId row = sd_tenantId sd /\
      sub_planId row = sd_planId sd /\
      sub_price row = plan_price plan /\
      sub_currency row = plan_currency plan.
Proof.
  intros D now sd st st' row.
  unfold createSubscription, bind, getPlanById.
  destruct (List.find _ (subscription_plans st)) as [plan|] eqn:Eplan;
    [|discriminate].
  destruct (insert_tenant_subscription _ _ _ _ _ _ _ _ _ _ _ st)
    as [st1 [row1|e]] eqn:Eins; [|discriminate].
  apply insert_tenant_subscription_ok in Eins.
  destruct Eins as (Eex & Hck & Hfk & Hrow1 & Hst1).
  destruct (createBillingEvent_spec (sd_tenantId sd) "subscription.created"
              (SubscriptionCreatedData (sub_id row1) (sd_planId sd)
                 (sd_billingCycle sd) (sd_trialDays sd)) st1)
    as (ev & Hev & _);
    [reflexivity | subst st1; exact Hck | subst st1; exact Hfk |].
  rewrite Hev. unfold ret. intros H. inversion H as [[Hst Hrow]]. clear H Hev.
  subst row. subst row1. subst st1. subst st'.
  exists plan. split; [reflexivity|]. split; [|repeat split].
  unfold getTenantSubscription, subscriptions_with_plan. simpl.
  rewrite List.flat_map_app, List.filter_app.
  rewrite subscriptions_of_other_tenants by exact Eex.
  simpl. rewrite List.app_nil_r.
  rewrite (filter_map_pair (fun ts => Nat.eqb (sub_tenantId ts) (sd_tenantId sd))).
  simpl. rewrite Nat.eqb_refl.
  assert (Hfind : List.find (fun sp => Nat.eqb (sd_planId sd) (plan_id_of sp))
                    (subscription_plans st) = Some plan).
  { rewrite <- Eplan. apply find_pointwise. intros sp. apply Nat.eqb_sym. }
  rewrite <- head_filter_find in Hfind.
  destruct (List.filter _ (subscription_plans st)) as [|sp l]; [discriminate|].
  simpl in Hfind. inversion Hfind; subst sp. reflexivity.
Qed.

(** [createSubscription_then_getTenantSubscription] on scenario A's store:
    tenant B subscribes to 'basic'. *)
Lemma createSubscription_then_getTenantSubscription_witness :
  exists row,
    snd (getTenantSubscription tenantB
           (fst (createSubscription Examples.calendar30 0
                   (mkSubscriptionData tenantB 100 "monthly" None) store0)))
    = Ok (Some (row, basic)).
Proof.
  destruct (createSubscription Examples.calendar30 0
              (mkSubscriptionData tenantB 100 "monthly" None) store0)
    as [st' [row|e]] eqn:E.
  - destruct (createSubscription_then_getTenantSubscription
                Examples.calendar30 0 _ store0 st' row E)
      as (plan & Hplan & Hget & _).
    vm_compute in Hplan. inversion Hplan; subst plan.
    exists row.
    change (snd (getTenantSubscription
                   (sd_tenantId (mkSubscriptionData tenantB 100 "monthly" None)) st')
            = Ok (Some (row, basic))).
    rewrite Hget. reflexivity.
  - exfalso. revert E.
    unfold createSubscription, bind, getPlanById, insert_tenant_subscription,
      createBillingEvent, ret, store0. simpl. discriminate.
Defined.

End SubscriptionFacts.

Section UsageFacts.
Import Service Scenarios.




End UsageFacts.

Section PaymentFacts.
Import Service Scenarios.

(** The rows of [invoices] all pass [invoices_amount_check]. *)
Local Abbreviation amounts_in_check st :=
  (Forall (fun i => invoices_amount_check (totalAmount i) (paidAmount i) = true)
          (invoices st)).







End PaymentFacts.

Section ControllerFacts.
Import Service Scenarios.


End ControllerFacts.

(** * The unpaid list and refunds of nothing *)

Section UnpaidList.
Import InvoiceModel InvoiceQueries Scenarios.

(** X21: [findUnpaid] after any mutation.  A listed invoice belongs to the
    tenant asked for and is not soft-deleted, and if any money has been paid
    on it, it is partially paid with a balance above zero: an invoice whose
    payments cover its total is never listed as unpaid. *)
Theorem findUnpaid_lists_no_settled_invoice :
  forall (tenantId : string) (now : Z) (m : mutation) (inv : invoice),
    findUnpaid_selects tenantId (apply_mutation now m inv) = true ->
    tenant_id (apply_mutation now m inv) = tenantId /\
    deleted_at (apply_mutation now m inv) = None /\
    ((0 < paid_amount (totals (apply_mutation now m inv)))%Q ->
     status (apply_mutation now m inv) = partially_paid /\
     (0 < balance_due (totals (apply_mutation now m inv)))%Q).
Proof.
  intros tenantId now m inv.
  destruct (apply_mutation_saves now m inv) as [inv0 ->]. unfold save.
  unfold findUnpaid_selects. rewrite !andb_true_iff, String.eqb_eq.
  intros [[Ht Hs] Hd].
  split; [exact Ht|]. split.
  { destruct (deleted_at (pre_save now inv0)); [discriminate Hd | reflexivity]. }
  revert Hs.
  destruct (pre_save_derives now inv0) as (inv1 & -> & Hto & _).
  rewrite derive_status_totals. intros Hs Hp.
  destruct (Qlt_le_dec 0 (balance_due (totals inv1))) as [Hb|Hb].
  - split; [|exact Hb]. apply derive_status_partially_paid; assumption.
  - exfalso. destruct (derive_status_paid now inv1 Hb Hp) as [Hpaid _].
    rewrite Hpaid in Hs. discriminate Hs.
Qed.

(** [findUnpaid_lists_no_settled_invoice] on scenario B, sent and with 40.00
    paid. *)
Lemma findUnpaid_lists_no_settled_invoice_witness :
  status (apply_mutation 2 (MAddPayment 40) (send 1 scenarioB)) = partially_paid.
Proof.
  destruct (findUnpaid_lists_no_settled_invoice "tenant-T" 2%Z (MAddPayment 40)
              (send 1 scenarioB)) as (_ & _ & H).
  - vm_compute. reflexivity.
  - destruct H as [Hs _].
    + vm_compute. reflexivity.
    + exact Hs.
Defined.

End UnpaidList.

Section ZeroRefund.
Import PaymentModel Scenarios.



End ZeroRefund.
